(** * Enterprise AI agent backend: a shallow embedding and its properties

  The development follows the Python sources of the backend:

  - [backend/orchestrator/orchestrator.py]  (module [Orchestrator])
  - [backend/api/main.py]                   (module [Api])
  - [backend/security/auth.py]              (module [Auth])
  - [backend/session/session_manager.py]    (module [Session])

  Part I holds the definitions, Part II the theorems. *)

From Stdlib Require Import ZArith QArith String Ascii List Bool Lia.
From stdpp Require Import base option list strings pretty gmap.

Set Warnings "-register-all".

Local Open Scope string_scope.
Local Open Scope Z_scope.

(* ===================================================================== *)
(** * Part I.  Definitions                                                *)
(* ===================================================================== *)

(** ** The fragment of Python the backend computes with *)

Module Py.

(** Python objects that occur in the backend: what [json.loads] builds
    ([None], [bool], [int], [float], [str], [list], [dict] with [str]
    keys) and [datetime] instants.  A [dict] keeps insertion order, so it
    is an association list; a finite [float] is [mantissa * 2^exponent];
    a [datetime] is the number of seconds since the epoch; a [str] is the
    sequence of its bytes, which for ASCII text is the sequence of its
    characters. *)
Inductive value : Type :=
| VNone
| VBool (b : bool)
| VInt (n : Z)
| VFloat (mantissa exponent : Z)
| VStr (s : string)
| VList (xs : list value)
| VDict (kvs : list (string * value))
| VDatetime (t : Z).

Definition pydict (A : Type) : Type := list (string * A).

(** Exceptions, all of them subclasses of [Exception].  [str(e)] is
    [exn_str]. *)
Inductive exn_class : Type :=
| TypeError | AttributeError | KeyError | IndexError | ValueError
| JSONDecodeError | APIError | RuntimeError | JWTError.

Record exn : Type := Exn { exn_cls : exn_class; exn_str : string }.

Inductive result (A : Type) : Type :=
| Ok (a : A)
| Raise (e : exn).
Arguments Ok {A} a.
Arguments Raise {A} e.

Definition rbind {A B} (r : result A) (k : A -> result B) : result B :=
  match r with
  | Ok a => k a
  | Raise e => Raise e
  end.

(** [[body x for x in xs]], stopping at the first exception. *)
Fixpoint for_each {A B} (body : A -> result B) (xs : list A) : result (list B) :=
  match xs with
  | [] => Ok []
  | x :: xs' =>
      rbind (body x) (fun y =>
      rbind (for_each body xs') (fun ys => Ok (y :: ys)))
  end.

(** [d.get(k)] and [d[k] = v] on an insertion-ordered dictionary. *)
Fixpoint lookup {A} (k : string) (d : pydict A) : option A :=
  match d with
  | [] => None
  | (k', v) :: d' => if String.eqb k k' then Some v else lookup k d'
  end.

Fixpoint assign {A} (k : string) (v : A) (d : pydict A) : pydict A :=
  match d with
  | [] => [(k, v)]
  | (k', v') :: d' =>
      if String.eqb k k' then (k', v) :: d' else (k', v') :: assign k v d'
  end.

Definition keys {A} (d : pydict A) : list string := map fst d.

(** The type name as it appears in the interpreter's messages. *)
Definition type_name (v : value) : string :=
  match v with
  | VNone => "NoneType"
  | VBool _ => "bool"
  | VInt _ => "int"
  | VFloat _ _ => "float"
  | VStr _ => "str"
  | VList _ => "list"
  | VDict _ => "dict"
  | VDatetime _ => "datetime.datetime"
  end.

Definition quoted (s : string) : string := "'" ++ s ++ "'".

Definition no_attribute (v : value) (attr : string) : exn :=
  Exn AttributeError
      (quoted (type_name v) ++ " object has no attribute " ++ quoted attr).

(** [obj.get(key, default)]: only a [dict] has the method. *)
Definition get (obj : value) (key : string) (default : value) : result value :=
  match obj with
  | VDict kvs =>
      Ok (match lookup key kvs with Some v => v | None => default end)
  | _ => Raise (no_attribute obj "get")
  end.

(** [obj[key]] for a string key. *)
Definition getitem (obj : value) (key : string) : result value :=
  match obj with
  | VDict kvs =>
      match lookup key kvs with
      | Some v => Ok v
      | None => Raise (Exn KeyError (quoted key))
      end
  | VStr _ => Raise (Exn TypeError "string indices must be integers, not 'str'")
  | VList _ =>
      Raise (Exn TypeError "list indices must be integers or slices, not str")
  | _ => Raise (Exn TypeError
                    (quoted (type_name obj) ++ " object is not subscriptable"))
  end.

(** [obj[key] = v] for a string key: the object after the assignment. *)
Definition setitem (obj : value) (key : string) (v : value) : result value :=
  match obj with
  | VDict kvs => Ok (VDict (assign key v kvs))
  | VList _ =>
      Raise (Exn TypeError "list indices must be integers or slices, not str")
  | _ => Raise (Exn TypeError
                    (quoted (type_name obj)
                     ++ " object does not support item assignment"))
  end.

Fixpoint chars (s : string) : list value :=
  match s with
  | EmptyString => []
  | String c s' => VStr (String c EmptyString) :: chars s'
  end.

(** [for x in obj]: the elements a loop or a generator visits. *)
Definition iter (obj : value) : result (list value) :=
  match obj with
  | VList xs => Ok xs
  | VDict kvs => Ok (map (fun kv => VStr (fst kv)) kvs)
  | VStr s => Ok (chars s)
  | _ => Raise (Exn TypeError
                    (quoted (type_name obj) ++ " object is not iterable"))
  end.

(** [x in l] for a list [l] of strings: only an equal string is found. *)
Definition in_strings (x : value) (l : list string) : bool :=
  match x with
  | VStr s => existsb (String.eqb s) l
  | _ => false
  end.

(** [x in d] for a dictionary with string keys: a [list] or [dict] is
    not hashable, any other non-string is simply not a key. *)
Definition in_keys {A} (x : value) (d : pydict A) : result bool :=
  match x with
  | VStr s => Ok (existsb (String.eqb s) (keys d))
  | VList _ | VDict _ =>
      Raise (Exn TypeError ("unhashable type: " ++ quoted (type_name x)))
  | _ => Ok false
  end.

(** Truth value of an object ([bool(v)]). *)
Definition truthy (v : value) : bool :=
  match v with
  | VNone => false
  | VBool b => b
  | VInt n => negb (n =? 0)%Z
  | VFloat m _ => negb (m =? 0)%Z
  | VStr s => negb (String.eqb s "")
  | VList xs => match xs with [] => false | _ => true end
  | VDict kvs => match kvs with [] => false | _ => true end
  | VDatetime _ => true
  end.

(** [l[start:]] with Python's reading of a negative or too large start. *)
Definition slice_from {A} (start : Z) (l : list A) : list A :=
  let n := Z.of_nat (length l) in
  let i := if start <? 0 then Z.max 0 (n + start) else Z.min start n in
  drop (Z.to_nat i) l.

(** [s.find(c)] and [s.rfind(c)] for a one-character needle. *)
Fixpoint find_from (c : ascii) (s : string) (i : Z) : Z :=
  match s with
  | EmptyString => -1
  | String a s' => if Ascii.eqb a c then i else find_from c s' (i + 1)
  end.

Definition find (c : ascii) (s : string) : Z := find_from c s 0.

Fixpoint rfind_from (c : ascii) (s : string) (i last : Z) : Z :=
  match s with
  | EmptyString => last
  | String a s' => rfind_from c s' (i + 1) (if Ascii.eqb a c then i else last)
  end.

Definition rfind (c : ascii) (s : string) : Z := rfind_from c s 0 (-1).

(** [s[i:j]] for [0 <= i <= j]. *)
Definition slice (s : string) (i j : Z) : string :=
  String.substring (Z.to_nat i) (Z.to_nat (j - i)) s.

(** [json.dumps] has an encoder for everything but [datetime]: the first
    object it cannot encode, if any. *)
Fixpoint first_unserialisable (v : value) : option value :=
  match v with
  | VDatetime _ => Some v
  | VList xs =>
      fold_right (fun x acc => match first_unserialisable x with
                               | Some u => Some u
                               | None => acc
                               end) None xs
  | VDict kvs =>
      fold_right (fun kv acc => match first_unserialisable (snd kv) with
                                | Some u => Some u
                                | None => acc
                                end) None kvs
  | _ => None
  end.

(** [type(v).__name__], which for an instant is the bare class name. *)
Definition class_name (v : value) : string :=
  match v with
  | VDatetime _ => "datetime"
  | _ => type_name v
  end.

Definition not_serializable (v : value) : exn :=
  Exn TypeError
      ("Object of type " ++ class_name v ++ " is not JSON serializable").

Definition nl : string := String "010"%char EmptyString.
Definition dq : string := String "034"%char EmptyString.

End Py.

(** ** backend/orchestrator/orchestrator.py *)

Module Orchestrator.
Import Py.

(** One awaited handler: the action name and the [params] it was given. *)
Record call : Type := Call { call_action : string; call_params : value }.

(** Code that may raise and that awaits handlers: the log of the calls
    made so far is threaded through and survives an exception. *)
Definition M (A : Type) : Type := list call -> result A * list call.

Definition ret {A} (a : A) : M A := fun log => (Ok a, log).

Definition bind {A B} (m : M A) (k : A -> M B) : M B :=
  fun log =>
    match m log with
    | (Ok a, log') => k a log'
    | (Raise e, log') => (Raise e, log')
    end.

Definition lift {A} (r : result A) : M A := fun log => (r, log).

(** [try: body / except Exception as e: handler e]. *)
Definition try_except {A} (body : M A) (handler : exn -> M A) : M A :=
  fun log =>
    match body log with
    | (Ok a, log') => (Ok a, log')
    | (Raise e, log') => handler e log'
    end.

Definition try_result {A} (body : result A) (handler : exn -> result A)
  : result A :=
  match body with
  | Ok a => Ok a
  | Raise e => handler e
  end.

Declare Scope py_scope.
Delimit Scope py_scope with py.
Notation "x <- c ;; k" := (bind c (fun x => k))
  (at level 100, c at next level, right associativity) : py_scope.
Notation "x <~ c ;; k" := (rbind c (fun x => k))
  (at level 100, c at next level, right associativity) : py_scope.
Local Open Scope py_scope.

(** The chat-completions endpoint of the language-model API:
    [client.chat.completions.create(...)] followed by
    [.choices[0].message.content], which is a string or [None]. *)
Record chat_request : Type := ChatRequest {
  req_model : string;
  req_messages : list value;
  req_temperature : Q;
  req_max_tokens : Z
}.

Definition chat_client : Type := chat_request -> result (option string).

Definition handler : Type := value -> result value.

(** The attributes [__init__] sets on [self]: the client, the three
    generation settings ([__init__] gives them the values "gpt-4o", 0.7
    and 2000) and the action registry. *)
Record t : Type := Build {
  client : chat_client;
  model : string;
  temperature : Q;
  max_tokens : Z;
  available_actions : pydict handler
}.

Definition message (role content : value) : value :=
  VDict [("role", role); ("content", content)].

Definition strs (l : list string) : value := VList (map VStr l).

Section WithLibraries.

(** Library code the module calls: [json.loads], the text
    [json.dumps(_, indent=2)] writes for an object it can encode, and the
    clock with its [isoformat] rendering. *)
Variable json_loads : string -> result value.
Variable json_text : value -> string.
Variable now : Z.
Variable isoformat : Z -> string.

Definition json_dumps (v : value) : result string :=
  match first_unserialisable v with
  | Some u => Raise (not_serializable u)
  | None => Ok (json_text v)
  end.

(** *** Action implementations

    Four of the five handlers answer with a constant.  The fifth,
    [create_document], reads the clock twice at every await, so what it
    answers is not a function of its [params]: the two readings are
    further arguments of its definition.  The registry is left to
    [self]; the statements about the loop hold for whatever handlers it
    maps the names to, and those about the value a handler returned are
    about handlers that are functions of their [params]. *)

Definition search_database (params : value) : result value :=
  Ok (VDict [
    ("results", strs [
       "Company Handbook - Section 3: Employee Benefits";
       "Q3 Financial Report - Executive Summary";
       "HR Policy Document - Remote Work Guidelines"]);
    ("count", VInt 3);
    ("source", VStr "document_database")]).

Definition query_sql (params : value) : result value :=
  Ok (VDict [
    ("rows", VList [
       VDict [("id", VInt 1); ("name", VStr "Q3 Sales");
              ("value", VInt 1234567); ("status", VStr "active")];
       VDict [("id", VInt 2); ("name", VStr "Q2 Sales");
              ("value", VInt 987654); ("status", VStr "complete")]]);
    ("count", VInt 2);
    ("source", VStr "sql_database")]).

Definition create_document (created stamped : Z) (params : value)
  : result value :=
  let doc_id := "doc_" ++ pretty created in
  Ok (VDict [
    ("status", VStr "created");
    ("id", VStr doc_id);
    ("message", VStr "Document created successfully");
    ("timestamp", VStr (isoformat stamped))]).

Definition analyze_data (params : value) : result value :=
  Ok (VDict [
    ("insights", strs [
       "Revenue increased by 15% compared to last quarter";
       "Customer acquisition cost decreased by 8%";
       "Top performing region: North America";
       "Employee satisfaction scores improved by 12%"]);
    ("summary", VStr "Overall positive trends across key metrics");
    ("confidence", VStr "high")]).

Definition get_recommendations (params : value) : result value :=
  Ok (VDict [
    ("recommendations", strs [
       "Consider increasing marketing budget in high-performing regions";
       "Focus on customer retention strategies for Q4";
       "Explore automation opportunities to reduce operational costs";
       "Invest in employee training and development programs"]);
    ("priority", VStr "high");
    ("confidence", VStr "high")]).

(** *** Plan creation *)

Definition system_instructions : string :=
  "You are an AI assistant that creates execution plans for user queries.

Available Actions:
- search_database: Search unstructured data (documents, FAQs)
- query_sql: Query structured data (CRM, SQL databases)
- create_document: Create new documents or records
- analyze_data: Perform data analysis
- get_recommendations: Get AI recommendations

Create a JSON plan with this exact structure:
{
    " ++ dq ++ "intent" ++ dq ++ ": " ++ dq
  ++ "user's intent (search/create/update/delete/analyze/query)" ++ dq ++ ",
    " ++ dq ++ "actions" ++ dq ++ ": [" ++ dq ++ "list" ++ dq ++ ", "
  ++ dq ++ "of" ++ dq ++ ", " ++ dq ++ "actions" ++ dq ++ ", "
  ++ dq ++ "to" ++ dq ++ ", " ++ dq ++ "execute" ++ dq ++ "],
    " ++ dq ++ "parameters" ++ dq ++ ": {" ++ dq ++ "action_name" ++ dq
  ++ ": {" ++ dq ++ "param" ++ dq ++ ": " ++ dq ++ "value" ++ dq ++ "}},
    " ++ dq ++ "required_permissions" ++ dq ++ ": [" ++ dq ++ "permission1"
  ++ dq ++ ", " ++ dq ++ "permission2" ++ dq ++ "]
}

Return ONLY the JSON object, no additional text or markdown formatting.".

(** [for msg in history[-5:]: messages.append({"role": msg["role"],
    "content": msg["content"]})]. *)
Definition history_messages (history : list value) : result (list value) :=
  for_each
    (fun msg =>
       role <~ getitem msg "role" ;;
       content <~ getitem msg "content" ;;
       Ok (message role content))
    (slice_from (-5) history).

Definition plan_prompt (user_query context_text : string) : string :=
  "User Query: " ++ user_query ++ nl ++ nl
  ++ "Context: " ++ context_text ++ nl ++ nl
  ++ "Create an execution plan for this query.".

(** The scan for the JSON object: from the first opening brace to the
    last closing brace, both included.  The braces are ASCII, so the text
    cut out does not depend on how the other characters are encoded. *)
Definition extract_plan (content : option string) : result value :=
  match content with
  | None => Raise (no_attribute VNone "find")
  | Some plan_text =>
      let start_idx := find "{"%char plan_text in
      let end_idx := rfind "}"%char plan_text + 1 in
      if negb (start_idx =? -1) && (end_idx >? start_idx)
      then json_loads (slice plan_text start_idx end_idx)
      else Raise (Exn ValueError "No JSON found in response")
  end.

Definition fallback_plan : value :=
  VDict [("intent", VStr "query");
         ("actions", strs ["search_database"]);
         ("parameters", VDict []);
         ("required_permissions", strs ["read"])].

Definition plan_request (self : t) (user_query : string) (context : value)
    (history : list value) : result chat_request :=
  msgs <~ history_messages history ;;
  context_text <~ json_dumps context ;;
  Ok {| req_model := model self;
        req_messages :=
          (message (VStr "system") (VStr system_instructions)
           :: msgs
           ++ [message (VStr "user")
                       (VStr (plan_prompt user_query context_text))])%list;
        req_temperature := 3 # 10;
        req_max_tokens := 500 |}.

Definition _create_plan (self : t) (user_query : string) (context : value)
    (history : list value) : result value :=
  try_result
    (request <~ plan_request self user_query context history ;;
     content <~ client self request ;;
     extract_plan content)
    (fun e => Ok fallback_plan).

(** *** Permission check *)

Definition _check_permissions (plan : value) (user_permissions : list string)
  : result bool :=
  required <~ get plan "required_permissions" (VList []) ;;
  perms <~ iter required ;;
  Ok (forallb (fun perm => in_strings perm user_permissions) perms).

(** *** Execution *)

(** [await self.available_actions[action](params)]: the call is logged,
    then the handler's outcome is the outcome of the await. *)
Definition invoke (h : handler) (action : string) (params : value) : M value :=
  fun log => (h params, (log ++ [Call action params])%list).

(** [plan["parameters"][action] = params], the effect on the plan object
    of mutating the dictionary [plan.get("parameters", {}).get(action, {})]
    returned when both keys are present; when either default [{}] was
    returned, the fresh dictionary is mutated and the plan is untouched. *)
Definition write_back (plan : value) (action : string) (params : value) : value :=
  match plan with
  | VDict fields =>
      match lookup "parameters" fields with
      | Some (VDict entries) =>
          match lookup action entries with
          | Some _ =>
              VDict (assign "parameters"
                            (VDict (assign action params entries)) fields)
          | None => plan
          end
      | _ => plan
      end
  | _ => plan
  end.

(** One turn of the loop over [plan.get("actions", [])], for a name that
    is in the registry. *)
Definition run_action (context : value) (action : string)
    (h : handler) (plan : value) (results : pydict value)
  : M (value * pydict value) :=
  parameters <- lift (get plan "parameters" (VDict [])) ;;
  entry <- lift (get parameters action (VDict [])) ;;
  params <- lift (setitem entry "context" context) ;;
  let plan' := write_back plan action params in
  outcome <- try_except (invoke h action params)
                        (fun e => ret (VDict [("error", VStr (exn_str e))])) ;;
  ret (plan', assign action outcome results).

Fixpoint run_actions (self : t) (context : value) (actions : list value)
    (plan : value) (results : pydict value) : M (value * pydict value) :=
  match actions with
  | [] => ret (plan, results)
  | action :: rest =>
      known <- lift (in_keys action (available_actions self)) ;;
      match action, known with
      | VStr name, true =>
          match lookup name (available_actions self) with
          | Some h =>
              st <- run_action context name h plan results ;;
              run_actions self context rest (fst st) (snd st)
          | None => run_actions self context rest plan results
          end
      | _, _ => run_actions self context rest plan results
      end
  end.

(** [_execute_plan] returns [results]; the plan object it mutated is
    returned next to it. *)
Definition _execute_plan (self : t) (plan context : value)
  : M (value * pydict value) :=
  actions_field <- lift (get plan "actions" (VList [])) ;;
  actions <- lift (iter actions_field) ;;
  run_actions self context actions plan [].

(** *** Response generation *)

Definition response_prompt (user_query results_text : string) : string :=
  "User Query: " ++ user_query ++ nl ++ nl
  ++ "Execution Results:" ++ nl ++ results_text ++ nl ++ nl
  ++ "Provide a helpful, natural response that answers the user's question based on these results.".

Definition content_value (content : option string) : value :=
  match content with
  | Some text => VStr text
  | None => VNone
  end.

Definition _generate_response (self : t) (user_query : string)
    (execution_results : pydict value) (history : list value) : result value :=
  try_result
    (msgs <~ history_messages history ;;
     results_text <~ json_dumps (VDict execution_results) ;;
     content <~ client self
       {| req_model := model self;
          req_messages :=
            (message (VStr "system")
               (VStr "You are a helpful AI assistant. Provide clear, concise, and accurate responses based on the execution results.")
             :: msgs
             ++ [message (VStr "user")
                         (VStr (response_prompt user_query results_text))])%list;
          req_temperature := temperature self;
          req_max_tokens := max_tokens self |} ;;
     Ok (content_value content))
    (fun e =>
       Ok (VStr ("I apologize, but I encountered an error processing your request: "
                 ++ exn_str e))).

(** *** The orchestration loop *)

Definition insufficient_permissions (required : value) : value :=
  VDict [("success", VBool false);
         ("error", VStr "Insufficient permissions for requested action");
         ("required_permissions", required)].

Definition success_outcome (response plan : value) (results : pydict value)
  : value :=
  VDict [("success", VBool true);
         ("response", response);
         ("plan", plan);
         ("results", VDict results);
         ("timestamp", VStr (isoformat now))].

Definition orchestration_error (e : exn) : value :=
  VDict [("success", VBool false);
         ("error", VStr ("Orchestration error: " ++ exn_str e));
         ("response", VStr "I apologize, but I encountered an error processing your request. Please try again.")].

(** The body of the [try] block of [plan_and_execute]. *)
Definition plan_and_execute_try (self : t) (user_query : string)
    (context : value) (conversation_history : list value)
    (user_permissions : list string) : M value :=
  plan <- lift (_create_plan self user_query context conversation_history) ;;
  allowed <- lift (_check_permissions plan user_permissions) ;;
  if negb allowed then
    required <- lift (get plan "required_permissions" (VList [])) ;;
    ret (insufficient_permissions required)
  else
    st <- _execute_plan self plan context ;;
    response <- lift (_generate_response self user_query (snd st)
                                         conversation_history) ;;
    ret (success_outcome response (fst st) (snd st)).

Definition plan_and_execute (self : t) (user_query : string) (context : value)
    (conversation_history : list value) (user_permissions : list string)
  : M value :=
  try_except
    (plan_and_execute_try self user_query context conversation_history
                          user_permissions)
    (fun e => ret (orchestration_error e)).

End WithLibraries.
End Orchestrator.

(** ** backend/security/auth.py *)

Module Auth.
Import Py.

(** [fastapi.HTTPException]. *)
Record HTTPException : Type := {
  status_code : Z;
  detail : string;
  headers : pydict string
}.

(** What an endpoint or a dependency ends with: its answer, an
    [HTTPException] it raised, or an exception nobody caught, which the
    framework answers with status 500. *)
Inductive http (A : Type) : Type :=
| Respond (a : A)
| Abort (e : HTTPException)
| Uncaught (e : exn).
Arguments Respond {A} a.
Arguments Abort {A} e.
Arguments Uncaught {A} e.

(** A row of the credential store. *)
Record user : Type := {
  username : string;
  full_name : string;
  email : string;
  hashed_password : string;
  disabled : bool;
  role : string
}.

Definition user_value (u : user) : value :=
  VDict [("username", VStr (username u));
         ("full_name", VStr (full_name u));
         ("email", VStr (email u));
         ("hashed_password", VStr (hashed_password u));
         ("disabled", VBool (disabled u));
         ("role", VStr (role u))].

(** Bearer tokens, symbolically: a signed token is its header algorithm,
    the JSON object of its claims and the key its signature was computed
    with; any other text is [Garbage].  HMAC uses a key only through the
    block it derives from it ([hmac_block] below), so verification under
    a key succeeds on the tokens signed with a key of the same block,
    and, the scheme being taken as unforgeable, on no other. *)
Inductive token : Type :=
| Garbage (text : string)
| Signed (alg : string) (claims : pydict value) (key : string).

(** [jose.jwt.encode]: the registered time claims are written as integer
    timestamps, then the claims are serialised with [json.dumps], whose
    [TypeError] is not caught. *)
Definition numeric_date (kv : string * value) : string * value :=
  match kv with
  | (k, VDatetime t) =>
      if String.eqb k "exp" || String.eqb k "iat" || String.eqb k "nbf"
      then (k, VInt t) else kv
  | _ => kv
  end.

Definition jwt_encode (claims : pydict value) (key alg : string)
  : result token :=
  let written := map numeric_date claims in
  match first_unserialisable (VDict written) with
  | Some u => Raise (not_serializable u)
  | None => Ok (Signed alg written key)
  end.

(** [int(x)] on a finite [float]: truncation towards zero. *)
Definition truncate (mantissa exponent : Z) : Z :=
  if 0 <=? exponent then mantissa * 2 ^ exponent
  else Z.quot mantissa (2 ^ (- exponent)).

Fixpoint zeros (n : nat) : string :=
  match n with
  | O => EmptyString
  | S n' => String "000"%char (zeros n')
  end.

Definition zero_pad (n : nat) (s : string) : string :=
  s ++ zeros (n - String.length s).

Definition minutes (n : Z) : Z := 60 * n.

Definition ACCESS_TOKEN_EXPIRE_MINUTES : Z := 30.

Section WithSettings.

(** Library code: the integer a text denotes for [int(text)], if any,
    and the SHA-256 digest. *)
Variable int_literal : string -> option Z.
Variable sha256 : string -> string.

(** [settings.SECRET_KEY], a text the library accepts as an HMAC secret,
    and the password hashing context, whose [verify] raises on a password
    it cannot hash. *)
Variable SECRET_KEY : string.
Variable bcrypt_hash : string -> string.
Variable bcrypt_verify : string -> string -> result bool.

(** [int(v)]. *)
Definition py_int (v : value) : result Z :=
  match v with
  | VInt n => Ok n
  | VBool b => Ok (if b then 1 else 0)
  | VFloat m e => Ok (truncate m e)
  | VStr s =>
      match int_literal s with
      | Some n => Ok n
      | None =>
          Raise (Exn ValueError
                     ("invalid literal for int() with base 10: " ++ quoted s))
      end
  | _ =>
      Raise (Exn TypeError
                 ("int() argument must be a string, a bytes-like object"
                  ++ " or a real number, not " ++ quoted (type_name v)))
  end.

(** [try: int(v) / except ValueError: raise JWTClaimsError(msg)]; any
    other exception of the conversion passes through. *)
Definition int_claim (v : value) (msg : string) : result Z :=
  match py_int v with
  | Ok n => Ok n
  | Raise e =>
      match exn_cls e with
      | ValueError => Raise (Exn JWTError msg)
      | _ => Raise e
      end
  end.

(** The key HMAC-SHA256 computes with: the secret padded with zero bytes
    to the block size of 64, a longer secret being replaced by its digest
    first. *)
Definition hmac_block (key : string) : string :=
  if (String.length key <=? 64)%nat then zero_pad 64 key
  else zero_pad 64 (sha256 key).

(** The claim validation of [jose.jwt.decode] under its default options
    and without audience, issuer, subject or access token, in the
    library's order: [iat], [nbf], [exp], [aud], [sub], [jti],
    [at_hash]. *)
Definition validate_claims (claims : pydict value) (now : Z) : result unit :=
  rbind (match lookup "iat" claims with
         | None => Ok tt
         | Some v =>
             rbind (int_claim v "Issued At claim (iat) must be an integer.")
                   (fun _ => Ok tt)
         end) (fun _ =>
  rbind (match lookup "nbf" claims with
         | None => Ok tt
         | Some v =>
             rbind (int_claim v "Not Before claim (nbf) must be an integer.")
                   (fun nbf =>
             if nbf >? now
             then Raise (Exn JWTError "The token is not yet valid (nbf)")
             else Ok tt)
         end) (fun _ =>
  rbind (match lookup "exp" claims with
         | None => Ok tt
         | Some v =>
             rbind (int_claim v
                      "Expiration Time claim (exp) must be an integer.")
                   (fun exp =>
             if exp <? now
             then Raise (Exn JWTError "Signature has expired.")
             else Ok tt)
         end) (fun _ =>
  rbind (match lookup "aud" claims with
         | None => Ok tt
         | Some (VStr _) => Raise (Exn JWTError "Invalid audience")
         | Some (VList xs) =>
             if forallb (fun x => match x with VStr _ => true | _ => false end)
                        xs
             then Raise (Exn JWTError "Invalid audience")
             else Raise (Exn JWTError "Invalid claim format in token")
         | Some _ => Raise (Exn JWTError "Invalid claim format in token")
         end) (fun _ =>
  rbind (match lookup "sub" claims with
         | None | Some (VStr _) => Ok tt
         | Some _ => Raise (Exn JWTError "Subject must be a string.")
         end) (fun _ =>
  rbind (match lookup "jti" claims with
         | None | Some (VStr _) => Ok tt
         | Some _ => Raise (Exn JWTError "JWT ID must be a string.")
         end) (fun _ =>
  match lookup "at_hash" claims with
  | None => Ok tt
  | Some _ =>
      Raise (Exn JWTError
               "No access_token provided to compare against at_hash claim.")
  end)))))).

(** [jose.jwt.decode(token, key, algorithms)] at instant [now].  Every
    exception of the library's own is a [JWTError]. *)
Definition jwt_decode (tok : token) (key : string) (algorithms : list string)
    (now : Z) : result (pydict value) :=
  match tok with
  | Garbage _ => Raise (Exn JWTError "Not enough segments")
  | Signed alg claims k =>
      if negb (existsb (String.eqb alg) algorithms)
      then Raise (Exn JWTError "The specified alg value is not allowed")
      else if negb (String.eqb (hmac_block k) (hmac_block key))
      then Raise (Exn JWTError "Signature verification failed.")
      else rbind (validate_claims claims now) (fun _ => Ok claims)
  end.

Definition fake_users_db : gmap string user :=
  {[ "demo@example.com" :=
       {| username := "demo";
          full_name := "Demo User";
          email := "demo@example.com";
          hashed_password := bcrypt_hash "demo123";
          disabled := false;
          role := "admin" |} ]}.

Definition verify_password (plain_password hashed : string) : result bool :=
  bcrypt_verify plain_password hashed.

(** [expires_delta] is a number of seconds; a zero [timedelta] is falsy,
    like [None]. *)
Definition create_access_token (data : pydict value)
    (expires_delta : option Z) (utcnow : Z) : result token :=
  let expire :=
    match expires_delta with
    | Some delta => if delta =? 0 then utcnow + minutes 15 else utcnow + delta
    | None => utcnow + minutes 15
    end in
  let to_encode := assign "exp" (VDatetime expire) data in
  jwt_encode to_encode SECRET_KEY "HS256".

Definition credentials_exception : HTTPException :=
  {| status_code := 401;
     detail := "Could not validate credentials";
     headers := [("WWW-Authenticate", "Bearer")] |}.

(** Only a [JWTError] is caught. *)
Definition get_current_user (tok : token) (utcnow : Z) : http user :=
  match jwt_decode tok SECRET_KEY ["HS256"] utcnow with
  | Raise e =>
      match exn_cls e with
      | JWTError => Abort credentials_exception
      | _ => Uncaught e
      end
  | Ok payload =>
      match lookup "sub" payload with
      | Some (VStr email) =>
          match fake_users_db !! email with
          | Some u => Respond u
          | None => Abort credentials_exception
          end
      | _ => Abort credentials_exception
      end
  end.

Record LoginRequest : Type := {
  login_email : string;
  login_password : string
}.

Record Token : Type := {
  access_token : token;
  token_type : string;
  token_user : pydict string
}.

Definition incorrect_login : HTTPException :=
  {| status_code := 401;
     detail := "Incorrect email or password";
     headers := [("WWW-Authenticate", "Bearer")] |}.

(** Nothing in the endpoint catches what [verify_password] or
    [create_access_token] raises. *)
Definition login_for_access_token (request : LoginRequest) (utcnow : Z)
  : http Token :=
  match fake_users_db !! login_email request with
  | Some u =>
      match verify_password (login_password request) (hashed_password u) with
      | Raise e => Uncaught e
      | Ok false => Abort incorrect_login
      | Ok true =>
          let access_token_expires := minutes ACCESS_TOKEN_EXPIRE_MINUTES in
          match create_access_token [("sub", VStr (email u))]
                                    (Some access_token_expires) utcnow with
          | Raise e => Uncaught e
          | Ok tok =>
              Respond {| access_token := tok;
                         token_type := "bearer";
                         token_user := [("name", full_name u);
                                        ("email", email u);
                                        ("role", role u)] |}
          end
      end
  | None => Abort incorrect_login
  end.

End WithSettings.
End Auth.

(** ** backend/api/main.py *)

Module Api.
Import Py.
Import Orchestrator.
Import Auth.
Local Open Scope py_scope.

Record QueryRequest : Type := {
  query : string;
  conversation_history : list value
}.

(** [orchestrator.plan_and_execute], the bound method the endpoint awaits. *)
Definition orchestrator_method : Type :=
  string -> value -> list value -> list string -> M value.

(** [fastapi.encoders.jsonable_encoder] on the objects of the fragment:
    an instant becomes its ISO text, containers are encoded element by
    element. *)
Fixpoint jsonable_encoder (isoformat : Z -> string) (v : value) : value :=
  match v with
  | VDatetime t => VStr (isoformat t)
  | VList xs => VList (map (jsonable_encoder isoformat) xs)
  | VDict kvs =>
      VDict (map (fun kv => (fst kv, jsonable_encoder isoformat (snd kv))) kvs)
  | _ => v
  end.

(** [a or b]. *)
Definition or_else (a b : value) : value := if truthy a then a else b.

Definition admin_permissions : list string :=
  ["read";
   "write";
   "view_sensitive_data";
   "view_financial_data";
   "view_revenue_data";
   "view_sales_data";
   "analyze_data";
   "analyze_sales_data";
   "create_document";
   "create_documents";
   "access_admin_tools"].

Section WithLibraries.

Variable now : Z.
Variable isoformat : Z -> string.
(** [str(obj)]. *)
Variable str : value -> string.

Definition safe_context (current_user : value) : value :=
  jsonable_encoder isoformat
    (VDict [("user", current_user);
            ("timestamp", VDatetime now);
            ("user_agent", VStr "web-client")]).

Definition final_text (orchestrator_result : value) : result value :=
  match orchestrator_result with
  | VDict _ =>
      final_answer <~ get orchestrator_result "final_answer" VNone ;;
      response <~ get orchestrator_result "response" VNone ;;
      result_field <~ get orchestrator_result "result" VNone ;;
      Ok (or_else final_answer
            (or_else response
               (or_else result_field (VStr (str orchestrator_result)))))
  | _ => Ok (VStr (str orchestrator_result))
  end.

Definition formatted_response (text : value) : value :=
  VDict [("content", text);
         ("response", text);
         ("role", VStr "assistant");
         ("timestamp", VStr (isoformat now))].

Definition internal_error (e : exn) : HTTPException :=
  {| status_code := 500; detail := exn_str e; headers := [] |}.

(** The handler; [logged_email] is the [current_user.get('email')] of the
    log line, which needs a dictionary. *)
Definition process_query (plan_and_execute : orchestrator_method)
    (request : QueryRequest) (current_user : value) : M (http value) :=
  try_except
    (let context := safe_context current_user in
     logged_email <- lift (get current_user "email" VNone) ;;
     orchestrator_result <-
       plan_and_execute (query request) context
                        (conversation_history request) admin_permissions ;;
     text <- lift (final_text orchestrator_result) ;;
     ret (Respond (formatted_response text)))
    (fun e => ret (Abort (internal_error e))).

(** [POST /query]: the [get_current_user] dependency, then the handler. *)
Definition post_query (int_literal : string -> option Z)
    (sha256 : string -> string) (SECRET_KEY : string)
    (bcrypt_hash : string -> string)
    (plan_and_execute : orchestrator_method) (tok : token)
    (request : QueryRequest) : M (http value) :=
  match get_current_user int_literal sha256 SECRET_KEY bcrypt_hash tok now with
  | Abort e => ret (Abort e)
  | Uncaught e => ret (Uncaught e)
  | Respond u => process_query plan_and_execute request (user_value u)
  end.

End WithLibraries.
End Api.

(** ** backend/session/session_manager.py *)

Module Session.
Import Py.

Record Message : Type := {
  role : string;
  content : string;
  timestamp : Z;
  metadata : option (pydict value)
}.

Record UserProfile : Type := {
  user_id : string;
  name : string;
  email : string;
  profile_role : string;
  preferences : pydict value;
  intents : list string
}.

(** [message.dict()]: the fields as Python objects, the instant included. *)
Definition Message_dict (m : Message) : value :=
  VDict [("role", VStr (role m));
         ("content", VStr (content m));
         ("timestamp", VDatetime (timestamp m));
         ("metadata", match metadata m with
                      | Some d => VDict d
                      | None => VNone
                      end)].

Definition UserProfile_dict (p : UserProfile) : value :=
  VDict [("user_id", VStr (user_id p));
         ("name", VStr (name p));
         ("email", VStr (email p));
         ("role", VStr (profile_role p));
         ("preferences", VDict (preferences p));
         ("intents", VList (map VStr (intents p)))].

(** The key-value store: a document and the instant at which it lapses.
    A key is readable strictly before that instant. *)
Record entry : Type := Entry { doc : value; expires_at : Z }.

Abbreviation store := (gmap string entry).

Definition live (now : Z) (e : entry) : bool := now <? expires_at e.

Definition redis_get (key : string) (now : Z) (db : store) : option value :=
  match db !! key with
  | Some e => if live now e then Some (doc e) else None
  | None => None
  end.

Definition redis_setex (key : string) (ttl : Z) (v : value) (now : Z)
    (db : store) : store :=
  <[key := Entry v (now + ttl)]> db.

Definition redis_expire (key : string) (ttl : Z) (now : Z) (db : store) : store :=
  match db !! key with
  | Some e => if live now e then <[key := Entry (doc e) (now + ttl)]> db else db
  | None => db
  end.

Definition redis_delete (key : string) (db : store) : store := delete key db.

(** [json.dumps(obj)] written to the store and read back with
    [json.loads]: the text in between is not modelled, the document read
    is the object written, and an object with no encoder raises. *)
Definition json_document (v : value) : result value :=
  match first_unserialisable v with
  | Some u => Raise (not_serializable u)
  | None => Ok v
  end.

(** [lst.append(x)]. *)
Definition append (lst x : value) : result value :=
  match lst with
  | VList xs => Ok (VList (xs ++ [x]))
  | _ => Raise (no_attribute lst "append")
  end.

Definition session_timeout : Z := 3600.

Section WithLibraries.

Variable isoformat : Z -> string.
Variable fromisoformat : string -> option Z.

Definition create_session (uid : string) (user_profile : UserProfile)
    (now : Z) (db : store) : result string * store :=
  let session_id := "session:" ++ uid ++ ":" ++ pretty now ++ ".0" in
  let session_data :=
    VDict [("user_profile", UserProfile_dict user_profile);
           ("conversation_history", VList []);
           ("context", VDict []);
           ("created_at", VStr (isoformat now));
           ("last_activity", VStr (isoformat now))] in
  match json_document session_data with
  | Ok document =>
      (Ok session_id, redis_setex session_id session_timeout document now db)
  | Raise e => (Raise e, db)
  end.

Definition get_session (session_id : string) (now : Z) (db : store)
  : option value * store :=
  match redis_get session_id now db with
  | Some session_data =>
      (Some session_data, redis_expire session_id session_timeout now db)
  | None => (None, db)
  end.

Definition update_conversation (session_id : string) (message : Message)
    (now : Z) (db : store) : result unit * store :=
  match get_session session_id now db with
  | (Some session_data, db1) =>
      if truthy session_data then
        match
          rbind (getitem session_data "conversation_history") (fun history =>
          rbind (append history (Message_dict message)) (fun history' =>
          rbind (setitem session_data "conversation_history" history')
                (fun data1 =>
          rbind (setitem data1 "last_activity" (VStr (isoformat now)))
                (fun data2 =>
          json_document data2))))
        with
        | Ok document =>
            (Ok tt, redis_setex session_id session_timeout document now db1)
        | Raise e => (Raise e, db1)
        end
      else (Ok tt, db1)
  | (None, db1) => (Ok tt, db1)
  end.

(** Building a [Message] from the keywords of a stored dictionary: the
    validation of its fields (an instant may be given as such, as a
    number of seconds or as ISO text). *)
Definition validation_error (field : string) : exn :=
  Exn ValueError ("1 validation error for Message: " ++ field).

Definition Message_of (msg : value) : result Message :=
  match msg with
  | VDict kvs =>
      match lookup "role" kvs, lookup "content" kvs, lookup "timestamp" kvs with
      | Some (VStr r), Some (VStr c), Some ts =>
          let meta :=
            match lookup "metadata" kvs with
            | None => Ok (Some [])
            | Some VNone => Ok None
            | Some (VDict d) => Ok (Some d)
            | Some _ => Raise (validation_error "metadata")
            end in
          let instant :=
            match ts with
            | VDatetime t | VInt t => Ok t
            | VFloat m e => Ok (Z.shiftl m e)
            | VStr s =>
                match fromisoformat s with
                | Some t => Ok t
                | None => Raise (validation_error "timestamp")
                end
            | _ => Raise (validation_error "timestamp")
            end in
          rbind instant (fun t =>
          rbind meta (fun md =>
          Ok {| role := r; content := c; timestamp := t; metadata := md |}))
      | Some (VStr _), Some (VStr _), None =>
          Raise (validation_error "timestamp")
      | Some (VStr _), _, _ => Raise (validation_error "content")
      | _, _, _ => Raise (validation_error "role")
      end
  | _ => Raise (Exn TypeError
                    "Message() argument after ** must be a mapping")
  end.

(** [history[-limit:]] on the stored object, as the elements the
    comprehension then visits: a list or a string can be sliced. *)
Definition recent (history : value) (limit : Z) : result (list value) :=
  match history with
  | VList msgs => Ok (slice_from (- limit) msgs)
  | VStr s => Ok (slice_from (- limit) (chars s))
  | VDict _ => Raise (Exn TypeError "unhashable type: 'slice'")
  | _ => Raise (Exn TypeError
                    (quoted (type_name history)
                     ++ " object is not subscriptable"))
  end.

Definition get_conversation_history (session_id : string) (limit : Z)
    (now : Z) (db : store) : result (list Message) * store :=
  match get_session session_id now db with
  | (Some session_data, db1) =>
      if truthy session_data then
        (rbind (getitem session_data "conversation_history") (fun history =>
         rbind (recent history limit) (fun msgs =>
         for_each Message_of msgs)), db1)
      else (Ok [], db1)
  | (None, db1) => (Ok [], db1)
  end.

Definition update_context (session_id context_key : string)
    (context_value : value) (now : Z) (db : store) : result unit * store :=
  match get_session session_id now db with
  | (Some session_data, db1) =>
      if truthy session_data then
        match
          rbind (getitem session_data "context") (fun context =>
          rbind (setitem context context_key context_value) (fun context' =>
          rbind (setitem session_data "context" context') (fun data1 =>
          rbind (setitem data1 "last_activity" (VStr (isoformat now)))
                (fun data2 =>
          json_document data2))))
        with
        | Ok document =>
            (Ok tt, redis_setex session_id session_timeout document now db1)
        | Raise e => (Raise e, db1)
        end
      else (Ok tt, db1)
  | (None, db1) => (Ok tt, db1)
  end.

Definition get_context (session_id : string) (now : Z) (db : store)
  : result value * store :=
  match get_session session_id now db with
  | (Some session_data, db1) =>
      if truthy session_data
      then (get session_data "context" (VDict []), db1)
      else (Ok (VDict []), db1)
  | (None, db1) => (Ok (VDict []), db1)
  end.

Definition end_session (session_id : string) (db : store) : store :=
  redis_delete session_id db.

End WithLibraries.
End Session.

(** ** Test doubles used to run the definitions on concrete inputs *)

Module Demo.
Import Py.
Import Orchestrator.

Definition isoformat (t : Z) : string := pretty t.

Definition json_text (v : value) : string := "".

Definition str (v : value) : string := "".

(** A client that answers every request with the same content. *)
Definition answering (content : option string) : chat_client :=
  fun _ => Ok content.

(** A client whose every call fails. *)
Definition failing : chat_client :=
  fun _ => Raise (Exn APIError "Connection error.").

(** A decoder that knows one text and rejects every other. *)
Definition loads_only (text : string) (v : value) (s : string) : result value :=
  if String.eqb s text then Ok v
  else Raise (Exn JSONDecodeError "Expecting value: line 1 column 1 (char 0)").

(** A client that gives one reply to the planning call (the one capped
    at 500 tokens) and another to the narration call. *)
Definition scripted (plan_reply answer : option string) : chat_client :=
  fun request =>
    Ok (if req_max_tokens request =? 500 then plan_reply else answer).

Definition orchestrator (c : chat_client) (actions : pydict handler) : t :=
  {| client := c; model := "gpt-4o"; temperature := 7 # 10;
     max_tokens := 2000; available_actions := actions |}.

Definition SECRET_KEY : string := "your-secret-key-change-in-production".

Definition bcrypt_hash (password : string) : string := "$2b$12$" ++ password.

(** The context refuses a password that holds a NUL byte. *)
Fixpoint has_nul (s : string) : bool :=
  match s with
  | EmptyString => false
  | String c s' => Ascii.eqb c "000"%char || has_nul s'
  end.

Definition bcrypt_verify (password hashed : string) : result bool :=
  if has_nul password
  then Raise (Exn ValueError "NUL byte in password")
  else Ok (String.eqb (bcrypt_hash password) hashed).

(** A reader of unsigned decimal texts. *)
Fixpoint digits (s : string) (acc : Z) : option Z :=
  match s with
  | EmptyString => Some acc
  | String c s' =>
      let d := Z.of_nat (nat_of_ascii c) - 48 in
      if (0 <=? d) && (d <=? 9) then digits s' (10 * acc + d) else None
  end.

Definition int_literal (s : string) : option Z :=
  match s with
  | EmptyString => None
  | _ => digits s 0
  end.

(** A stand-in for the digest, of the right length. *)
Definition sha256 (s : string) : string :=
  String.substring 0 32 (s ++ Auth.zeros 32).

End Demo.

(** ** Vocabulary of the properties *)

Module Spec.
Import Py.
Import Orchestrator.
Local Open Scope py_scope.

(** The text holds an opening brace with a closing brace somewhere after
    it. *)
Definition brace_pair (text : string) : Prop :=
  exists i j : nat,
    (i < j)%nat /\ String.get i text = Some "{"%char
    /\ String.get j text = Some "}"%char.

(** The permissions of [required] that the caller lacks. *)
Definition missing_permissions (required user_permissions : list string)
  : list string :=
  List.filter (fun perm => negb (existsb (String.eqb perm) user_permissions)) required.

(** [a] is the action name [name]. *)
Definition is_name (name : string) (a : value) : bool :=
  match a with
  | VStr s => String.eqb s name
  | _ => false
  end.

Definition registered (self : t) (name : string) : bool :=
  existsb (String.eqb name) (keys (available_actions self)).

(** The actions of a list that the loop runs: the registered names. *)
Definition executed (self : t) (actions : list value) (name : string) : bool :=
  registered self name && existsb (is_name name) actions.

(** What an awaited handler leaves under its key in [results]. *)
Definition recorded (outcome : result value) : value :=
  match outcome with
  | Ok r => r
  | Raise e => VDict [("error", VStr (exn_str e))]
  end.

(** Reading the plan object: a top-level field, and the entry of an
    action in the [parameters] mapping. *)
Definition field (plan : value) (k : string) : option value :=
  match plan with
  | VDict fields => lookup k fields
  | _ => None
  end.

Definition field_keys (plan : value) : list string :=
  match plan with
  | VDict fields => keys fields
  | _ => []
  end.

Definition entry_of (plan : value) (name : string) : option value :=
  match field plan "parameters" with
  | Some (VDict entries) => lookup name entries
  | _ => None
  end.

(** The entry after the loop has written the shared context into it. *)
Definition add_context (context : value) (entry : value) : value :=
  match entry with
  | VDict e => VDict (assign "context" context e)
  | _ => entry
  end.

(** The [params] a handler receives: the action's entry (or a fresh
    dictionary) with the shared context under "context". *)
Definition params_for (context plan : value) (name : string) : value :=
  VDict (assign "context" context
           (match entry_of plan name with
            | Some (VDict e) => e
            | _ => []
            end)).

(** [plan'] is [plan] with the context written into the entries of the
    [touched] actions: the same top-level keys, every field other than
    [parameters] as it was, the same entry keys, and entry by entry either
    the old entry or the old entry with the context added. *)
Record evolved (context : value) (touched : string -> bool)
    (plan plan' : value) : Prop := {
  evolved_dict : exists fields', plan' = VDict fields';
  evolved_keys : field_keys plan' = field_keys plan;
  evolved_frame :
    forall k, k <> "parameters" -> field plan' k = field plan k;
  evolved_entries :
    match field plan "parameters" with
    | Some (VDict entries) =>
        exists entries',
          field plan' "parameters" = Some (VDict entries')
          /\ keys entries' = keys entries
          /\ forall a,
               lookup a entries'
               = if touched a
                 then option_map (add_context context) (lookup a entries)
                 else lookup a entries
    | other => field plan' "parameters" = other
    end
}.

(** The handlers the loop awaits on a list of actions, in order. *)
Definition calls_of (self : t) (context plan : value) (actions : list value)
  : list call :=
  flat_map
    (fun a =>
       match a with
       | VStr name =>
           if registered self name
           then [Call name (params_for context plan name)]
           else []
       | _ => []
       end)
    actions.

(** What the loop leaves under [name] in [results]. *)
Definition result_of (self : t) (context plan : value) (name : string)
  : option value :=
  option_map (fun h : handler => recorded (h (params_for context plan name)))
             (lookup name (available_actions self)).

(** The actions the loop of [_execute_plan] iterates over. *)
Definition plan_actions (plan : value) : result (list value) :=
  rbind (get plan "actions" (VList [])) iter.

(** What holds of a loop over [actions] that started on [plan] with
    [results] and [log] and ended, without raising, in [st] and [log']. *)
Record loop_post (self : t) (context : value) (actions : list value)
    (plan : value) (results : pydict value) (log : list call)
    (st : value * pydict value) (log' : list call) : Prop := {
  post_plan : evolved context (executed self actions) plan (fst st);
  post_results :
    forall x, lookup x (snd st)
              = if executed self actions x
                then result_of self context plan x
                else lookup x results;
  post_log : log' = (log ++ calls_of self context plan actions)%list;
  post_entries :
    forall x v, executed self actions x = true ->
                entry_of plan x = Some v -> exists e, v = VDict e
}.

(** The shape the planning prompt asks for: an object whose [parameters],
    when present, maps names to objects. *)
Definition parameters_shaped (plan : value) : Prop :=
  exists fields,
    plan = VDict fields
    /\ (lookup "parameters" fields = None
        \/ exists entries,
             lookup "parameters" fields = Some (VDict entries)
             /\ forall a v, lookup a entries = Some v -> exists e, v = VDict e).

(** A plan as the data model has it: the shape above, with a list of
    action names under [actions]. *)
Definition plan_shaped (plan : value) (names : list string) : Prop :=
  parameters_shaped plan
  /\ get plan "actions" (VList []) = Ok (strs names).

Section WithLibraries.

Variable json_loads : string -> result value.
Variable json_text : value -> string.
Variable now : Z.
Variable isoformat : Z -> string.

(** The ways plan creation can fail: the prompt cannot be built, the API
    call raises, the reply has no content, the content has no brace pair,
    or the text between the braces does not decode. *)
Inductive creation_fails (self : t) (user_query : string) (context : value)
    (history : list value) : Prop :=
| prompt_fails (e : exn) :
    plan_request json_text self user_query context history = Raise e ->
    creation_fails self user_query context history
| api_fails (request : chat_request) (e : exn) :
    plan_request json_text self user_query context history = Ok request ->
    client self request = Raise e ->
    creation_fails self user_query context history
| no_content (request : chat_request) :
    plan_request json_text self user_query context history = Ok request ->
    client self request = Ok None ->
    creation_fails self user_query context history
| no_braces (request : chat_request) (text : string) :
    plan_request json_text self user_query context history = Ok request ->
    client self request = Ok (Some text) ->
    ~ brace_pair text ->
    creation_fails self user_query context history
| decode_fails (request : chat_request) (text : string) (e : exn) :
    plan_request json_text self user_query context history = Ok request ->
    client self request = Ok (Some text) ->
    json_loads (slice text (find "{"%char text) (rfind "}"%char text + 1))
      = Raise e ->
    creation_fails self user_query context history.

(** Steps 3 and 4 of the loop, under the loop's catch-all. *)
Definition execute_and_respond (self : t) (user_query : string)
    (context : value) (conversation_history : list value) (plan : value)
  : M value :=
  try_except
    (st <- _execute_plan self plan context ;;
     response <- lift (_generate_response json_text self user_query (snd st)
                                          conversation_history) ;;
     ret (success_outcome now isoformat response (fst st) (snd st)))
    (fun e => ret (orchestration_error e)).

End WithLibraries.

(** The expiry instant [create_access_token] writes into a token. *)
Definition expiry (expires_delta : option Z) (utcnow : Z) : Z :=
  match expires_delta with
  | Some delta =>
      if delta =? 0 then utcnow + Auth.minutes 15 else utcnow + delta
  | None => utcnow + Auth.minutes 15
  end.

(** How many messages a read of the history returned. *)
Definition returned (r : result (list Session.Message) * gmap string Session.entry)
  : option nat :=
  match fst r with
  | Ok msgs => Some (length msgs)
  | Raise _ => None
  end.



(** A turn of the loop for [name] can write the context: [parameters] is
    absent or an object, and so is the entry of [name] in it. *)
Definition turn_ok (plan : value) (name : string) : bool :=
  match field plan "parameters" with
  | None => true
  | Some (VDict entries) =>
      match lookup name entries with
      | None | Some (VDict _) => true
      | Some _ => false
      end
  | Some _ => false
  end.

(** An action that can be looked up in the registry. *)
Definition hashable (a : value) : bool :=
  match a with
  | VList _ | VDict _ => false
  | _ => true
  end.

(** Every turn of the loop over [actions] can be taken. *)
Definition runnable (self : t) (plan : value) (actions : list value) : bool :=
  forallb
    (fun a =>
       hashable a
       && match a with
          | VStr name => if registered self name then turn_ok plan name else true
          | _ => true
          end)
    actions.

(** The actions the loop gets through: those before the first turn that
    cannot be taken. *)
Fixpoint taken (self : t) (plan : value) (actions : list value)
  : list value :=
  match actions with
  | [] => []
  | a :: rest =>
      if hashable a
         && match a with
            | VStr name =>
                if registered self name then turn_ok plan name else true
            | _ => true
            end
      then a :: taken self plan rest
      else []
  end.

(** The handlers an execution of [plan] awaits, in order. *)
Definition awaited (self : t) (context plan : value) : list call :=
  match plan_actions plan with
  | Ok actions => calls_of self context plan (taken self plan actions)
  | Raise _ => []
  end.

(** The request [_generate_response] sends. *)
Definition response_request (self : t) (user_query results_text : string)
    (msgs : list value) : chat_request :=
  {| req_model := model self;
     req_messages :=
       (message (VStr "system")
          (VStr "You are a helpful AI assistant. Provide clear, concise, and accurate responses based on the execution results.")
        :: msgs
        ++ [message (VStr "user")
                    (VStr (response_prompt user_query results_text))])%list;
     req_temperature := temperature self;
     req_max_tokens := max_tokens self |}.

(** The ways response generation can fail, with the exception caught. *)
Inductive response_fails (json_text : value -> string) (self : t)
    (user_query : string) (results : pydict value) (history : list value)
    (e : exn) : Prop :=
| response_history_fails :
    history_messages history = Raise e ->
    response_fails json_text self user_query results history e
| response_encoding_fails (msgs : list value) :
    history_messages history = Ok msgs ->
    json_dumps json_text (VDict results) = Raise e ->
    response_fails json_text self user_query results history e
| response_api_fails (msgs : list value) (results_text : string) :
    history_messages history = Ok msgs ->
    json_dumps json_text (VDict results) = Ok results_text ->
    client self (response_request self user_query results_text msgs) = Raise e ->
    response_fails json_text self user_query results history e.

End Spec.

Module Scenario.
Import Py.
Import Orchestrator.

Definition q (s : string) : string := dq ++ s ++ dq.

(** A reply of the language model that asks for "read" and "delete". *)
Definition delete_reply : string :=
  "{" ++ q "intent" ++ ": " ++ q "delete" ++ ", "
  ++ q "actions" ++ ": [" ++ q "search_database" ++ "], "
  ++ q "parameters" ++ ": {}, "
  ++ q "required_permissions" ++ ": [" ++ q "read" ++ ", " ++ q "delete"
  ++ "]}".

Definition delete_plan : value :=
  VDict [("intent", VStr "delete");
         ("actions", strs ["search_database"]);
         ("parameters", VDict []);
         ("required_permissions", strs ["read"; "delete"])].

(** A reply without the [required_permissions] field. *)
Definition open_reply : string :=
  "{" ++ q "intent" ++ ": " ++ q "search" ++ ", "
  ++ q "actions" ++ ": [" ++ q "search_database" ++ "]}".

Definition open_plan : value :=
  VDict [("intent", VStr "search");
         ("actions", strs ["search_database"])].

(** A registry whose every handler is a stub with a fixed outcome. *)
Definition stub (outcome : result value) : handler := fun _ => outcome.

Definition found : value := VDict [("count", VInt 3)].

Definition search_only : pydict handler :=
  [("search_database", stub (Ok found))].


Definition clock : Z := 1700000000.

(** An orchestrator whose language model asks for "read" and "delete". *)
Definition deleting : t :=
  Demo.orchestrator
    (Demo.scripted (Some delete_reply) (Some "Done.")) search_only.

Definition deleting_loads : string -> result value :=
  Demo.loads_only delete_reply delete_plan.

(** An orchestrator whose language model names no permission. *)
Definition unguarded : t :=
  Demo.orchestrator
    (Demo.scripted (Some open_reply) (Some "Here it is.")) search_only.

Definition unguarded_loads : string -> result value :=
  Demo.loads_only open_reply open_plan.

(** A reply whose [required_permissions] is a number. *)
Definition numeric_reply : string :=
  "{" ++ q "actions" ++ ": [], " ++ q "required_permissions" ++ ": 5}".

Definition numeric_plan : value :=
  VDict [("actions", VList []); ("required_permissions", VInt 5)].

Definition numeric : t :=
  Demo.orchestrator
    (Demo.scripted (Some numeric_reply) (Some "Done.")) search_only.

Definition numeric_loads : string -> result value :=
  Demo.loads_only numeric_reply numeric_plan.

(** A registry in which the SQL handler is down. *)
Definition refused : exn := Exn RuntimeError "connection refused".

Definition insights : value := VDict [("confidence", VStr "high")].

Definition sql_down : pydict handler :=
  [("search_database", stub (Ok found));
   ("query_sql", stub (Raise refused));
   ("analyze_data", stub (Ok insights))].

Definition report_plan : value :=
  VDict [("intent", VStr "analyze");
         ("actions", strs ["search_database"; "query_sql"; "send_email";
                           "analyze_data"]);
         ("parameters",
          VDict [("query_sql", VDict [("table", VStr "sales")])]);
         ("required_permissions", strs ["read"])].

Definition web_context : value := VDict [("user_agent", VStr "web-client")].

(** A plan with parameters for the search. *)
Definition search_plan : value :=
  VDict [("intent", VStr "search");
         ("actions", strs ["search_database"]);
         ("parameters",
          VDict [("search_database", VDict [("query", VStr "Q3 report")])]);
         ("required_permissions", strs ["read"])].

(** A reply whose parameters repeat the context of the request. *)
Definition echo_reply : string :=
  "{" ++ q "intent" ++ ": " ++ q "search" ++ ", "
  ++ q "actions" ++ ": [" ++ q "search_database" ++ "], "
  ++ q "parameters" ++ ": {" ++ q "search_database" ++ ": {"
  ++ q "context" ++ ": {" ++ q "user_agent" ++ ": " ++ q "web-client"
  ++ "}}}, "
  ++ q "required_permissions" ++ ": [" ++ q "read" ++ "]}".

Definition echo_plan : value :=
  VDict [("intent", VStr "search");
         ("actions", strs ["search_database"]);
         ("parameters",
          VDict [("search_database", VDict [("context", web_context)])]);
         ("required_permissions", strs ["read"])].

Definition echoing : t :=
  Demo.orchestrator
    (Demo.scripted (Some echo_reply) (Some "Here it is.")) search_only.

Definition echoing_loads : string -> result value :=
  Demo.loads_only echo_reply echo_plan.

Definition profile : Session.UserProfile :=
  {| Session.user_id := "u1";
     Session.name := "Demo User";
     Session.email := "demo@example.com";
     Session.profile_role := "admin";
     Session.preferences := [];
     Session.intents := [] |}.

Definition hello : Session.Message :=
  {| Session.role := "user";
     Session.content := "find our Q3 report";
     Session.timestamp := 1700000005;
     Session.metadata := Some [] |}.

Definition fromisoformat (s : string) : option Z := None.

(** A stored message, as a JSON document holds it. *)
Definition stored (role content : string) (at_time : Z) : value :=
  VDict [("role", VStr role); ("content", VStr content);
         ("timestamp", VInt at_time); ("metadata", VDict [])].

(** A store whose session already holds three messages. *)
Definition three_messages : gmap string Session.entry :=
  {[ "session:u1:1700000000.0" :=
       Session.Entry
         (VDict [("user_profile", Session.UserProfile_dict profile);
                 ("conversation_history",
                  VList [stored "user" "one" 1700000001;
                         stored "assistant" "two" 1700000002;
                         stored "user" "three" 1700000003]);
                 ("context", VDict []);
                 ("created_at", VStr "1700000000");
                 ("last_activity", VStr "1700000003")])
         1700003603 ]}.

(** A reply whose entry for the search is a string, not an object. *)
Definition string_entry_reply : string :=
  "{" ++ q "actions" ++ ": [" ++ q "search_database" ++ "], "
  ++ q "parameters" ++ ": {" ++ q "search_database" ++ ": " ++ q "Q3"
  ++ "}}".

Definition string_entry_plan : value :=
  VDict [("actions", strs ["search_database"]);
         ("parameters", VDict [("search_database", VStr "Q3")])].

Definition string_entry : t :=
  Demo.orchestrator
    (Demo.scripted (Some string_entry_reply) (Some "Done.")) search_only.

Definition string_entry_loads : string -> result value :=
  Demo.loads_only string_entry_reply string_entry_plan.

(** The document of the session of [three_messages]. *)
Definition three_document : value :=
  VDict [("user_profile", Session.UserProfile_dict profile);
         ("conversation_history",
          VList [stored "user" "one" 1700000001;
                 stored "assistant" "two" 1700000002;
                 stored "user" "three" 1700000003]);
         ("context", VDict []);
         ("created_at", VStr "1700000000");
         ("last_activity", VStr "1700000003")].

Definition greeting : value := message (VStr "user") (VStr "hello").

(** An orchestrator double whose every call raises. *)
Definition crashing : Api.orchestrator_method :=
  fun _ _ _ _ => lift (Raise (Exn RuntimeError "orchestrator unavailable")).

Definition demo_user : Auth.user :=
  {| Auth.username := "demo";
     Auth.full_name := "Demo User";
     Auth.email := "demo@example.com";
     Auth.hashed_password := Demo.bcrypt_hash "demo123";
     Auth.disabled := false;
     Auth.role := "admin" |}.

(** The token a login of the demo user at [clock] returns. *)
Definition demo_token : Auth.token :=
  Auth.Signed "HS256"
    [("sub", VStr "demo@example.com"); ("exp", VInt (clock + 1800))]
    Demo.SECRET_KEY.

(** The secret followed by a zero byte. *)
Definition padded_secret : string :=
  Demo.SECRET_KEY ++ String "000"%char EmptyString.

(** A token under the secret whose expiry is [null]. *)
Definition null_expiry_token : Auth.token :=
  Auth.Signed "HS256"
    [("sub", VStr "demo@example.com"); ("exp", VNone)]
    Demo.SECRET_KEY.

(** A plan whose entry for the second of its three actions is a text,
    not an object. *)
Definition text_entry_plan : value :=
  VDict [("actions", strs ["query_sql"; "search_database"; "analyze_data"]);
         ("parameters", VDict [("search_database", VStr "Q3")])].

End Scenario.

(* ===================================================================== *)
(** * Part II.  Theorems                                                  *)
(* ===================================================================== *)

(** ** Dictionaries and scans *)

Section PyFacts.
Import Py.

Lemma lookup_assign {A} (k k' : string) (v : A) (d : pydict A) :
  lookup k (assign k' v d) = if String.eqb k k' then Some v else lookup k d.
Proof.
  induction d as [|[k0 v0] d IH]; simpl.
  - destruct (String.eqb k k'); reflexivity.
  - destruct (String.eqb_spec k' k0) as [->|Hne]; simpl.
    + destruct (String.eqb_spec k k0); reflexivity.
    + rewrite IH. destruct (String.eqb_spec k k0) as [->|Hne'].
      * destruct (String.eqb_spec k0 k'); [congruence | reflexivity].
      * reflexivity.
Qed.

Lemma lookup_assign_eq {A} (k : string) (v : A) (d : pydict A) :
  lookup k (assign k v d) = Some v.
Proof. rewrite lookup_assign, String.eqb_refl. reflexivity. Qed.

Lemma lookup_assign_ne {A} (k k' : string) (v : A) (d : pydict A) :
  k <> k' -> lookup k (assign k' v d) = lookup k d.
Proof.
  intros Hne. rewrite lookup_assign.
  destruct (String.eqb_spec k k'); [contradiction | reflexivity].
Qed.

Lemma assign_id {A} (k : string) (v : A) (d : pydict A) :
  lookup k d = Some v -> assign k v d = d.
Proof.
  induction d as [|[k0 v0] d IH]; simpl; [discriminate|].
  destruct (String.eqb_spec k k0) as [->|Hne].
  - intros [= ->]. reflexivity.
  - intros H. rewrite IH by exact H. reflexivity.
Qed.

Lemma assign_changes {A} (k : string) (v : A) (d : pydict A) :
  lookup k d <> Some v -> assign k v d <> d.
Proof.
  intros Hne Heq. apply Hne. rewrite <- Heq. apply lookup_assign_eq.
Qed.

Lemma assign_assign {A} (k : string) (v : A) (d : pydict A) :
  assign k v (assign k v d) = assign k v d.
Proof. apply assign_id, lookup_assign_eq. Qed.

Lemma keys_assign_present {A} (k : string) (v : A) (d : pydict A) :
  lookup k d <> None -> keys (assign k v d) = keys d.
Proof.
  unfold keys. induction d as [|[k0 v0] d IH]; simpl; [congruence|].
  destruct (String.eqb_spec k k0) as [->|Hne]; simpl; [reflexivity|].
  intros H. f_equal. apply IH, H.
Qed.

Lemma existsb_keys_lookup {A} (k : string) (d : pydict A) :
  existsb (String.eqb k) (keys d) = true <-> lookup k d <> None.
Proof.
  induction d as [|[k0 v0] d IH]; simpl.
  - split; [discriminate | congruence].
  - destruct (String.eqb_spec k k0) as [->|Hne]; simpl.
    + split; [discriminate | reflexivity].
    + exact IH.
Qed.

Lemma find_from_get (c : ascii) (s : string) (i : Z) :
  0 <= i ->
  find_from c s i = -1 \/
  exists n : nat, find_from c s i = i + Z.of_nat n /\ String.get n s = Some c.
Proof.
  revert i. induction s as [|a s IH]; intros i Hi; simpl.
  - left. reflexivity.
  - destruct (Ascii.eqb_spec a c) as [->|Hne].
    + right. exists 0%nat. split; [lia | reflexivity].
    + destruct (IH (i + 1)) as [H|[n [H1 H2]]]; [lia | left; exact H |].
      right. exists (S n). split; [lia | exact H2].
Qed.

Lemma rfind_from_get (c : ascii) (s : string) (i last : Z) :
  0 <= i ->
  rfind_from c s i last = last \/
  exists n : nat, rfind_from c s i last = i + Z.of_nat n
                  /\ String.get n s = Some c.
Proof.
  revert i last. induction s as [|a s IH]; intros i last Hi; simpl.
  - left. reflexivity.
  - destruct (IH (i + 1) (if Ascii.eqb a c then i else last))
      as [H|[n [H1 H2]]]; [lia | |].
    + destruct (Ascii.eqb_spec a c) as [->|Hne].
      * right. exists 0%nat. split; [lia | reflexivity].
      * left. exact H.
    + right. exists (S n). split; [lia | exact H2].
Qed.

End PyFacts.

(** ** Plan creation *)

Section PlanCreation.
Import Py.
Import Orchestrator.
Import Spec.

Variable json_loads : string -> result value.
Variable json_text : value -> string.

(** Without a brace pair the scan finds nothing to decode. *)
Lemma no_brace_pair_no_scan (text : string) :
  ~ brace_pair text ->
  negb (find "{"%char text =? -1)
  && (rfind "}"%char text + 1 >? find "{"%char text) = false.
Proof.
  intros Hno.
  destruct (negb (find "{"%char text =? -1)
            && (rfind "}"%char text + 1 >? find "{"%char text)) eqn:Hscan;
    [|reflexivity].
  exfalso. apply Hno.
  apply andb_true_iff in Hscan as [Hstart Hend].
  apply negb_true_iff, Z.eqb_neq in Hstart.
  rewrite Z.gtb_ltb in Hend. apply Z.ltb_lt in Hend.
  unfold find in *. unfold rfind in *.
  destruct (find_from_get "{"%char text 0) as [H|[i [Hi Hgi]]];
    [lia | contradiction |].
  destruct (rfind_from_get "}"%char text 0 (-1)) as [H|[j [Hj Hgj]]]; [lia | |].
  - rewrite H, Hi in Hend. lia.
  - exists i, j. repeat split; try assumption.
    assert (i <> j) by (intros ->; rewrite Hgi in Hgj; discriminate).
    lia.
Qed.

(** Plan creation always returns a plan. *)
Lemma create_plan_returns (self : t) (user_query : string) (context : value)
    (history : list value) :
  exists plan,
    _create_plan json_loads json_text self user_query context history = Ok plan.
Proof.
  unfold _create_plan, try_result.
  destruct (rbind _ _); eauto.
Qed.

(** Response generation always returns a response. *)
Lemma generate_response_returns (self : t) (user_query : string)
    (results : pydict value) (history : list value) :
  exists response,
    _generate_response json_text self user_query results history = Ok response.
Proof.
  unfold _generate_response, try_result. destruct (rbind _ _); eauto.
Qed.

(** C2.  Whenever plan creation fails -- the reply of the language model
    has no brace pair, or the prompt cannot be built, the API call raises,
    the reply is empty or its JSON text does not decode -- [_create_plan]
    returns (it does not raise) the fixed fallback plan: intent "query",
    the single action "search_database", no parameters and the required
    permission "read". *)
Theorem create_plan_falls_back (self : t) (user_query : string)
    (context : value) (history : list value) :
  creation_fails json_loads json_text self user_query context history ->
  _create_plan json_loads json_text self user_query context history
  = Ok (VDict [("intent", VStr "query");
               ("actions", VList [VStr "search_database"]);
               ("parameters", VDict []);
               ("required_permissions", VList [VStr "read"])]).
Proof.
  intros Hfail. unfold _create_plan, try_result.
  destruct Hfail as [e Hreq | request e Hreq Hapi | request Hreq Hapi
                    | request text Hreq Hapi Hno
                    | request text e Hreq Hapi Hdec];
    rewrite Hreq; simpl; try reflexivity; rewrite Hapi; simpl;
    try reflexivity.
  - rewrite (no_brace_pair_no_scan text Hno). reflexivity.
  - destruct (negb _ && _); [rewrite Hdec|]; reflexivity.
Qed.

End PlanCreation.

(** A reply with commentary only, and a client that is down: both end in
    the fallback plan. *)
Lemma create_plan_falls_back_witness :
  Orchestrator._create_plan
    (Demo.loads_only "{}" (Py.VDict [])) Demo.json_text
    (Demo.orchestrator (Demo.answering (Some "Sorry, I cannot plan } this {"))
                       [])
    "find our Q3 report" (Py.VDict []) []
  = Py.Ok Orchestrator.fallback_plan.
Proof.
  apply create_plan_falls_back.
  eapply Spec.no_braces; [reflexivity | reflexivity |].
  intros (i & j & Hlt & Hi & Hj).
  do 28 (destruct i as [|i]; [discriminate Hi|]).
  destruct i as [|i].
  - do 29 (destruct j as [|j]; [lia || discriminate Hj|]).
    destruct j; discriminate Hj.
  - destruct i; discriminate Hi.
Defined.

(** ** The orchestration loop *)

Section Loop.
Import Py.
Import Orchestrator.
Import Spec.

Variable json_loads : string -> result value.
Variable json_text : value -> string.
Variable now : Z.
Variable isoformat : Z -> string.

Local Abbreviation create_plan := (_create_plan json_loads json_text).
Local Abbreviation run := (plan_and_execute json_loads json_text now isoformat).
Local Abbreviation run_try :=
  (plan_and_execute_try json_loads json_text now isoformat).
Local Abbreviation finish := (execute_and_respond json_text now isoformat).

(** The loop, case by case on the outcome of the permission check. *)
Lemma plan_and_execute_cases (self : t) (user_query : string)
    (context : value) (history : list value) (perms : list string)
    (plan : value) (log : list call) :
  create_plan self user_query context history = Ok plan ->
  run self user_query context history perms log =
  match _check_permissions plan perms with
  | Raise e => (Ok (orchestration_error e), log)
  | Ok true => finish self user_query context history plan log
  | Ok false =>
      match get plan "required_permissions" (VList []) with
      | Ok required => (Ok (insufficient_permissions required), log)
      | Raise e => (Ok (orchestration_error e), log)
      end
  end.
Proof.
  intros Hplan.
  unfold plan_and_execute, plan_and_execute_try, execute_and_respond,
    try_except, bind, lift, ret.
  rewrite Hplan.
  destruct (_check_permissions plan perms) as [[|]|e]; simpl.
  - destruct (_execute_plan self plan context log) as [[st|e] log'];
      [|reflexivity].
    destruct (_generate_response _ _ _ _ _); reflexivity.
  - destruct (get plan "required_permissions" (VList [])); reflexivity.
  - reflexivity.
Qed.

Lemma check_permissions_strings (plan : value) (required perms : list string) :
  get plan "required_permissions" (VList []) = Ok (strs required) ->
  _check_permissions plan perms
  = Ok (forallb (fun p => existsb (String.eqb p) perms) required).
Proof.
  intros Hget. unfold _check_permissions. rewrite Hget. simpl.
  f_equal. clear Hget. induction required as [|p required IH]; simpl.
  - reflexivity.
  - rewrite IH. reflexivity.
Qed.

Lemma forallb_existsb_In (required perms : list string) :
  forallb (fun p => existsb (String.eqb p) perms) required = true
  <-> (forall p, In p required -> In p perms).
Proof.
  rewrite forallb_forall. split; intros H p Hp.
  - apply H in Hp. apply existsb_exists in Hp as [x [Hx Heq]].
    apply String.eqb_eq in Heq. subst. exact Hx.
  - apply existsb_exists. exists p. split; [auto | apply String.eqb_refl].
Qed.

(** The gate, for a plan that names its permissions. *)
Lemma plan_and_execute_gate (self : t) (user_query : string) (context : value)
    (history : list value) (perms required : list string) (plan : value)
    (log : list call) :
  create_plan self user_query context history = Ok plan ->
  get plan "required_permissions" (VList []) = Ok (strs required) ->
  run self user_query context history perms log
  = if forallb (fun p => existsb (String.eqb p) perms) required
    then finish self user_query context history plan log
    else (Ok (insufficient_permissions (strs required)), log).
Proof.
  intros Hplan Hreq.
  rewrite (plan_and_execute_cases _ _ _ _ perms _ log Hplan).
  rewrite (check_permissions_strings _ _ perms Hreq), Hreq.
  destruct (forallb _ required); reflexivity.
Qed.

(** C6, as the code has it.  [plan_and_execute] always returns an outcome
    to its caller.  Stage by stage: planning returns a plan, whatever it
    met; when the permission check raises, or the execution raises, the
    outcome is the failure outcome -- success false, the error message,
    the generic apology as response -- and otherwise it is the refusal
    or, response generation returning as well, whatever it met, the
    success payload.  In short, whatever exception leaves the [try] block
    is turned into the failure outcome, and the exceptions of planning
    and of response generation never leave it. *)
Theorem plan_and_execute_never_raises (self : t) (user_query : string)
    (context : value) (history : list value) (perms : list string)
    (log : list call) :
  exists plan outcome log',
    create_plan self user_query context history = Ok plan
    /\ run self user_query context history perms log = (Ok outcome, log')
    /\ match _check_permissions plan perms with
       | Raise e =>
           log' = log
           /\ outcome =
              VDict [("success", VBool false);
                     ("error", VStr ("Orchestration error: " ++ exn_str e));
                     ("response",
                      VStr "I apologize, but I encountered an error processing your request. Please try again.")]
       | Ok false =>
           log' = log
           /\ exists required,
                get plan "required_permissions" (VList []) = Ok required
                /\ outcome = insufficient_permissions required
       | Ok true =>
           match _execute_plan self plan context log with
           | (Raise e, log_e) =>
               log' = log_e
               /\ outcome =
                  VDict [("success", VBool false);
                         ("error",
                          VStr ("Orchestration error: " ++ exn_str e));
                         ("response",
                          VStr "I apologize, but I encountered an error processing your request. Please try again.")]
           | (Ok st, log_e) =>
               log' = log_e
               /\ exists response,
                    _generate_response json_text self user_query (snd st)
                                       history = Ok response
                    /\ outcome = success_outcome now isoformat response
                                                 (fst st) (snd st)
           end
       end
    /\ match fst (run_try self user_query context history perms log) with
       | Ok returned => outcome = returned
       | Raise e => outcome = orchestration_error e
       end.
Proof.
  destruct (create_plan_returns json_loads json_text self user_query context
                                history) as [plan Hplan].
  exists plan.
  assert (Htry : exists outcome log',
            run self user_query context history perms log = (Ok outcome, log')
            /\ match fst (run_try self user_query context history perms log)
               with
               | Ok returned => outcome = returned
               | Raise e => outcome = orchestration_error e
               end).
  { unfold plan_and_execute, try_except.
    destruct (plan_and_execute_try _ _ _ _ _ _ _ _ _ log) as [[o|e] l];
      simpl; eauto. }
  destruct Htry as (outcome & log' & Hrun & Htry).
  exists outcome, log'. split; [exact Hplan|]. split; [exact Hrun|].
  split; [|exact Htry].
  rewrite (plan_and_execute_cases _ _ _ _ perms _ log Hplan) in Hrun.
  unfold _check_permissions in *.
  destruct (get plan "required_permissions" (VList [])) as [required|e];
    simpl in *; [|injection Hrun as <- <-; auto].
  destruct (iter required) as [entries|e]; simpl in *;
    [|injection Hrun as <- <-; auto].
  destruct (forallb _ entries).
  - unfold execute_and_respond, try_except, bind, lift, ret in Hrun.
    destruct (_execute_plan self plan context log) as [[st|e] log_e].
    + destruct (generate_response_returns json_text self user_query (snd st)
                                          history) as [response Hresp].
      rewrite Hresp in *. injection Hrun as <- <-. eauto.
    + injection Hrun as <- <-. auto.
  - injection Hrun as <- <-. eauto.
Qed.

(** C1, as the code has it.  For a plan whose [required_permissions] is a
    list of names (or is absent), the loop goes on to execution exactly
    when every name is among the caller's permissions; otherwise no
    handler is awaited and the failure payload carries the whole
    [required_permissions] list of the plan. *)
Theorem permission_gate (self : t) (user_query : string) (context : value)
    (history : list value) (perms required : list string) (plan : value)
    (log : list call) :
  create_plan self user_query context history = Ok plan ->
  get plan "required_permissions" (VList []) = Ok (strs required) ->
  ((forall p, In p required -> In p perms) ->
   run self user_query context history perms log
   = finish self user_query context history plan log)
  /\ (~ (forall p, In p required -> In p perms) ->
      run self user_query context history perms log
      = (Ok (VDict [("success", VBool false);
                    ("error",
                     VStr "Insufficient permissions for requested action");
                    ("required_permissions", strs required)]), log)).
Proof.
  intros Hplan Hreq.
  rewrite (plan_and_execute_gate _ _ _ _ perms _ _ log Hplan Hreq).
  destruct (forallb _ required) eqn:Hall.
  - split; [reflexivity|]. intros Hno. exfalso.
    apply Hno, forallb_existsb_In, Hall.
  - split; [|reflexivity]. intros Hyes.
    apply forallb_existsb_In in Hyes. congruence.
Qed.

End Loop.

(** *** The loop on concrete requests *)

Section LoopExamples.
Import Py.
Import Orchestrator.
Import Scenario.

Local Abbreviation run_deleting :=
  (plan_and_execute deleting_loads Demo.json_text clock Demo.isoformat
     deleting "delete the Q3 report" (VDict []) []).

Local Abbreviation run_unguarded :=
  (plan_and_execute unguarded_loads Demo.json_text clock Demo.isoformat
     unguarded "find our Q3 report" (VDict []) []).

(** With "read" and "delete" granted the plan runs; with "read" alone it
    does not, and the payload names both permissions. *)
Lemma permission_gate_witness :
  run_deleting ["read"; "write"; "delete"] []
  = Spec.execute_and_respond Demo.json_text clock Demo.isoformat
      deleting "delete the Q3 report" (VDict []) [] delete_plan []
  /\ run_deleting ["read"] []
     = (Ok (VDict [("success", VBool false);
                   ("error",
                    VStr "Insufficient permissions for requested action");
                   ("required_permissions", strs ["read"; "delete"])]), []).
Proof.
  split.
  - apply (permission_gate deleting_loads Demo.json_text clock Demo.isoformat
             deleting "delete the Q3 report" (VDict []) []
             ["read"; "write"; "delete"] ["read"; "delete"] delete_plan []);
      [reflexivity | reflexivity |].
    intros p [<-|[<-|[]]]; simpl; tauto.
  - apply (permission_gate deleting_loads Demo.json_text clock Demo.isoformat
             deleting "delete the Q3 report" (VDict []) []
             ["read"] ["read"; "delete"] delete_plan []);
      [reflexivity | reflexivity |].
    intros Hall. destruct (Hall "delete") as [Heq|[]]; [simpl; tauto|].
    discriminate Heq.
Defined.

(** C1, refuted as stated: the caller holds "read" and lacks "delete";
    the missing set is "delete" alone, the payload lists "read" too. *)
Lemma permission_failure_lists_all_required :
  Spec.missing_permissions ["read"; "delete"] ["read"] = ["delete"]
  /\ fst (run_deleting ["read"] [])
     = Ok (insufficient_permissions (strs ["read"; "delete"]))
  /\ fst (run_deleting ["read"] [])
     <> Ok (insufficient_permissions
              (strs (Spec.missing_permissions ["read"; "delete"] ["read"]))).
Proof.
  split; [reflexivity|]. split; [reflexivity|].
  vm_compute. discriminate.
Qed.

(** A caller with no permission at all runs a plan that names none. *)
Example unguarded_run_searches :
  run_unguarded [] []
  = (Ok (success_outcome clock Demo.isoformat (VStr "Here it is.") open_plan
           [("search_database", found)]),
     [Call "search_database" (VDict [("context", VDict [])])]).
Proof. reflexivity. Qed.

(** A permission field that cannot be iterated makes the check raise; the
    catch-all answers with the failure outcome. *)
Example numeric_permissions_caught :
  plan_and_execute_try numeric_loads Demo.json_text clock Demo.isoformat
    numeric "anything" (VDict []) [] ["read"] []
  = (Raise (Exn TypeError "'int' object is not iterable"), [])
  /\ plan_and_execute numeric_loads Demo.json_text clock Demo.isoformat
       numeric "anything" (VDict []) [] ["read"] []
     = (Ok (orchestration_error
              (Exn TypeError "'int' object is not iterable")), []).
Proof. split; reflexivity. Qed.

(** An entry of [parameters] that is not an object makes the execution
    raise before any handler is awaited; the catch-all answers. *)
Example string_entry_caught :
  _execute_plan string_entry string_entry_plan (VDict []) []
  = (Raise (Exn TypeError "'str' object does not support item assignment"),
     [])
  /\ plan_and_execute string_entry_loads Demo.json_text clock Demo.isoformat
       string_entry "find our Q3 report" (VDict []) [] ["read"] []
     = (Ok (orchestration_error
              (Exn TypeError
                   "'str' object does not support item assignment")), []).
Proof. split; reflexivity. Qed.

(** C6, refuted as stated: an exception met while planning, or while
    generating the response, does not give the failure outcome.  The
    client raises at every call; planning absorbs the exception into the
    fallback plan, response generation into the text of the response,
    and the outcome says success. *)
Lemma api_failures_absorbed :
  (forall request,
     client (Demo.orchestrator Demo.failing search_only) request
     = Raise (Exn APIError "Connection error."))
  /\ plan_and_execute deleting_loads Demo.json_text clock Demo.isoformat
       (Demo.orchestrator Demo.failing search_only)
       "find our Q3 report" (VDict []) [] ["read"] []
     = (Ok (VDict
              [("success", VBool true);
               ("response",
                VStr "I apologize, but I encountered an error processing your request: Connection error.");
               ("plan", fallback_plan);
               ("results", VDict [("search_database", found)]);
               ("timestamp", VStr (Demo.isoformat clock))]),
        [Call "search_database" (VDict [("context", VDict [])])]).
Proof. split; reflexivity. Qed.

(** With the API down at both calls the loop still succeeds, on the
    fallback plan and with the apology as response. *)
Example api_down_still_answers :
  plan_and_execute deleting_loads Demo.json_text clock Demo.isoformat
    (Demo.orchestrator Demo.failing search_only)
    "find our Q3 report" (VDict []) [] ["read"] []
  = (Ok (success_outcome clock Demo.isoformat
           (VStr "I apologize, but I encountered an error processing your request: Connection error.")
           fallback_plan [("search_database", found)]),
     [Call "search_database" (VDict [("context", VDict [])])]).
Proof. reflexivity. Qed.

End LoopExamples.

(** ** Execution of a plan *)

Section Execution.
Import Py.
Import Orchestrator.
Import Spec.

Variable self : t.
Variable context : value.

Lemma add_context_idem (v : value) :
  add_context context (add_context context v) = add_context context v.
Proof. destruct v; simpl; try reflexivity. rewrite assign_assign. reflexivity. Qed.

Lemma evolved_refl (fields : pydict value) :
  evolved context (fun _ => false) (VDict fields) (VDict fields).
Proof.
  split; try reflexivity; [eauto|].
  destruct (field (VDict fields) "parameters") as [[]|]; try reflexivity.
  eexists. repeat split.
Qed.

Lemma evolved_ext (touched touched' : string -> bool) (plan plan' : value) :
  (forall a, touched a = touched' a) ->
  evolved context touched plan plan' -> evolved context touched' plan plan'.
Proof.
  intros Hext [Hd Hk Hf He]. split; try assumption.
  destruct (field plan "parameters") as [[]|]; try assumption.
  destruct He as (entries' & H1 & H2 & H3). exists entries'.
  repeat split; try assumption. intros a. rewrite <- Hext. apply H3.
Qed.

Lemma evolved_trans (t1 t2 : string -> bool) (p0 p1 p2 : value) :
  evolved context t1 p0 p1 -> evolved context t2 p1 p2 ->
  evolved context (fun a => t1 a || t2 a) p0 p2.
Proof.
  intros [Hd1 Hk1 Hf1 He1] [Hd2 Hk2 Hf2 He2]. split.
  - exact Hd2.
  - congruence.
  - intros k Hk. rewrite Hf2, Hf1 by exact Hk. reflexivity.
  - destruct (field p0 "parameters") as [[]|];
      try (rewrite He1 in He2; exact He2).
    destruct He1 as (e1 & H1 & Hk1' & Hl1). rewrite H1 in He2.
    destruct He2 as (e2 & H2 & Hk2' & Hl2). exists e2.
    repeat split; [exact H2 | congruence |].
    intros a. rewrite Hl2, Hl1.
    destruct (t1 a), (t2 a); simpl; try reflexivity.
    destruct (lookup a kvs); simpl; [|reflexivity].
    rewrite add_context_idem. reflexivity.
Qed.

(** Writing the mutated [params] back touches one entry. *)
Lemma evolved_write_back (fields : pydict value) (name : string)
    (params : value) :
  (forall v, entry_of (VDict fields) name = Some v ->
             params = add_context context v) ->
  evolved context (fun a => String.eqb a name) (VDict fields)
          (write_back (VDict fields) name params).
Proof.
  intros Hparams. unfold write_back, entry_of in *. simpl in *.
  destruct (lookup "parameters" fields) as [[]|] eqn:Hp;
    try (split; simpl; try rewrite Hp; eauto; fail).
  destruct (lookup name kvs) as [v|] eqn:Hentry.
  - split; simpl.
    + eauto.
    + apply keys_assign_present. congruence.
    + intros k Hk. apply lookup_assign_ne. exact Hk.
    + rewrite Hp, lookup_assign_eq. eexists. split; [reflexivity|]. split.
      * apply keys_assign_present. congruence.
      * intros a. rewrite lookup_assign.
        destruct (String.eqb_spec a name) as [->|]; [|reflexivity].
        rewrite Hentry. simpl. rewrite (Hparams v eq_refl). reflexivity.
  - split; simpl; eauto. rewrite Hp. exists kvs. repeat split.
    intros a. destruct (String.eqb_spec a name) as [->|]; [|reflexivity].
    rewrite Hentry. reflexivity.
Qed.


(** One turn of the loop that does not raise has awaited the handler on
    the entry with the context added, has written that entry back, and has
    recorded the handler's outcome. *)
Lemma run_action_inv (name : string) (h : handler) (fields : pydict value)
    (results : pydict value) (log : list call) (st : value * pydict value)
    (log' : list call) :
  run_action context name h (VDict fields) results log = (Ok st, log') ->
  let params := params_for context (VDict fields) name in
  st = (write_back (VDict fields) name params,
        assign name (recorded (h params)) results)
  /\ log' = (log ++ [Call name params])%list
  /\ (forall v, entry_of (VDict fields) name = Some v ->
                params = add_context context v).
Proof.
  unfold run_action, params_for, entry_of, bind, lift, try_except, invoke,
    ret, get, setitem. simpl.
  destruct (lookup "parameters" fields) as [[]|] eqn:Hp; simpl;
    try discriminate;
    try (destruct (h _); intros [= <- <-]; repeat split; discriminate).
  destruct (lookup name kvs) as [[]|] eqn:Hentry; simpl; try discriminate;
    destruct (h _); intros [= <- <-]; repeat split;
    try discriminate; intros v [= <-]; reflexivity.
Qed.

(** On a plan of the expected shape a turn of the loop never raises,
    whatever the handler does. *)
Lemma run_action_shaped (name : string) (h : handler) (plan : value)
    (results : pydict value) (log : list call) :
  parameters_shaped plan ->
  exists st log', run_action context name h plan results log = (Ok st, log').
Proof.
  intros (fields & -> & Hshape).
  unfold run_action, bind, lift, try_except, invoke, ret, get, setitem.
  destruct Hshape as [Hp | (entries & Hp & Hentries)]; rewrite Hp; simpl.
  - destruct (h _); eauto.
  - destruct (lookup name entries) as [v|] eqn:Hentry; simpl.
    + destruct (Hentries _ _ Hentry) as [e ->]. destruct (h _); eauto.
    + destruct (h _); eauto.
Qed.

(** Writing an entry back keeps the shape and the [params] of every
    action. *)
Lemma evolved_shaped (touched : string -> bool) (plan plan' : value) :
  evolved context touched plan plan' ->
  parameters_shaped plan -> parameters_shaped plan'.
Proof.
  intros [[fields' ->] _ _ He] (fields & -> & Hshape). simpl in He.
  exists fields'. split; [reflexivity|].
  destruct Hshape as [Hp | (entries & Hp & Hentries)]; rewrite Hp in He.
  - left. exact He.
  - right. destruct He as (entries' & H1 & _ & Hl). exists entries'.
    split; [exact H1|]. intros a v. rewrite Hl.
    destruct (touched a); [|apply Hentries].
    destruct (lookup a entries) as [w|] eqn:Hw; simpl; [|discriminate].
    intros [= <-]. destruct (Hentries _ _ Hw) as [e ->]. simpl. eauto.
Qed.

Lemma evolved_params_for (touched : string -> bool) (plan plan' : value)
    (name : string) :
  evolved context touched plan plan' ->
  params_for context plan' name = params_for context plan name.
Proof.
  intros [_ _ _ He]. unfold params_for, entry_of.
  destruct (field plan "parameters") as [[]|];
    try (rewrite He; reflexivity).
  destruct He as (entries' & -> & _ & Hl). rewrite Hl.
  destruct (touched name); [|reflexivity].
  destruct (lookup name kvs) as [[]|]; simpl; try reflexivity.
  rewrite assign_assign. reflexivity.
Qed.


Lemma executed_nil (x : string) : executed self [] x = false.
Proof. unfold executed. simpl. apply andb_false_r. Qed.

Lemma executed_cons_run (name : string) (rest : list value) (x : string) :
  registered self name = true ->
  executed self (VStr name :: rest) x
  = String.eqb x name || executed self rest x.
Proof.
  intros Hreg. unfold executed. simpl. rewrite (String.eqb_sym name x).
  destruct (String.eqb_spec x name) as [->|]; simpl; [|reflexivity].
  rewrite Hreg. reflexivity.
Qed.

Lemma executed_cons_skip (a : value) (rest : list value) (x : string) :
  (forall name, a = VStr name -> registered self name = false) ->
  executed self (a :: rest) x = executed self rest x.
Proof.
  intros Hskip. unfold executed. simpl.
  destruct a; simpl; try reflexivity.
  destruct (String.eqb_spec s x) as [->|]; simpl; [|reflexivity].
  rewrite (Hskip x eq_refl). reflexivity.
Qed.

Lemma registered_lookup (name : string) :
  registered self name = true <-> lookup name (available_actions self) <> None.
Proof. apply existsb_keys_lookup. Qed.

Lemma calls_of_evolved (touched : string -> bool) (plan plan' : value)
    (actions : list value) :
  evolved context touched plan plan' ->
  calls_of self context plan' actions = calls_of self context plan actions.
Proof.
  intros Hev. unfold calls_of. apply flat_map_ext. intros b.
  destruct b; try reflexivity.
  rewrite (evolved_params_for _ _ _ s Hev). reflexivity.
Qed.

Lemma evolved_entry_of (touched : string -> bool) (plan plan' : value)
    (x : string) :
  evolved context touched plan plan' ->
  entry_of plan' x
  = if touched x
    then option_map (add_context context) (entry_of plan x)
    else entry_of plan x.
Proof.
  intros [_ _ _ He]. unfold entry_of.
  destruct (field plan "parameters") as [[]|];
    try (rewrite He; destruct (touched x); reflexivity).
  destruct He as (entries' & -> & _ & Hl). apply Hl.
Qed.

Lemma add_context_dict (v : value) (d : pydict value) :
  add_context context v = VDict d -> exists e, v = VDict e.
Proof. destruct v; simpl; try discriminate. eauto. Qed.

Lemma loop_post_nil (fields : pydict value) (results : pydict value)
    (log : list call) :
  loop_post self context [] (VDict fields) results log
            (VDict fields, results) log.
Proof.
  split; simpl.
  - eapply evolved_ext; [|apply evolved_refl].
    intros x. symmetry. apply executed_nil.
  - intros x. rewrite executed_nil. reflexivity.
  - rewrite app_nil_r. reflexivity.
  - intros x v Hx. rewrite executed_nil in Hx. discriminate.
Qed.

Lemma loop_post_skip (a : value) (rest : list value) (plan : value)
    (results : pydict value) (log : list call) (st : value * pydict value)
    (log' : list call) :
  (forall name, a = VStr name -> registered self name = false) ->
  loop_post self context rest plan results log st log' ->
  loop_post self context (a :: rest) plan results log st log'.
Proof.
  intros Hno [Hev Hres Hlog Hent]. split.
  - eapply evolved_ext; [|exact Hev].
    intros x. symmetry. apply executed_cons_skip, Hno.
  - intros x. rewrite executed_cons_skip by exact Hno. apply Hres.
  - rewrite Hlog. simpl. destruct a; try reflexivity.
    rewrite (Hno s eq_refl). reflexivity.
  - intros x v. rewrite executed_cons_skip by exact Hno. apply Hent.
Qed.

Lemma loop_post_run (name : string) (h : handler) (rest : list value)
    (fields : pydict value) (results : pydict value) (log : list call)
    (st : value * pydict value) (log' : list call) :
  let params := params_for context (VDict fields) name in
  registered self name = true ->
  lookup name (available_actions self) = Some h ->
  (forall v, entry_of (VDict fields) name = Some v ->
             params = add_context context v) ->
  loop_post self context rest (write_back (VDict fields) name params)
            (assign name (recorded (h params)) results)
            (log ++ [Call name params])%list st log' ->
  loop_post self context (VStr name :: rest) (VDict fields) results log st log'.
Proof.
  intros params Hreg Hh Hparams [Hev Hres Hlog Hent].
  pose proof (evolved_write_back fields name _ Hparams) as Hev1.
  split.
  - eapply evolved_ext; [|exact (evolved_trans _ _ _ _ _ Hev1 Hev)].
    intros x. symmetry. apply executed_cons_run, Hreg.
  - intros x. rewrite Hres, executed_cons_run by exact Hreg.
    unfold result_of. rewrite (evolved_params_for _ _ _ x Hev1).
    rewrite lookup_assign.
    destruct (String.eqb_spec x name) as [->|]; simpl; [|reflexivity].
    destruct (executed self rest name); [reflexivity|].
    rewrite Hh. reflexivity.
  - rewrite Hlog, <- app_assoc, (calls_of_evolved _ _ _ rest Hev1).
    simpl. rewrite Hreg. reflexivity.
  - intros x v. rewrite executed_cons_run by exact Hreg. intros Hx Hv.
    destruct (String.eqb_spec x name) as [->|Hne].
    + specialize (Hparams v Hv). symmetry in Hparams.
      apply add_context_dict in Hparams. exact Hparams.
    + simpl in Hx. apply (Hent x v Hx).
      rewrite (evolved_entry_of _ _ _ x Hev1), Hv.
      destruct (String.eqb_spec x name); [contradiction | reflexivity].
Qed.

(** The loop over the actions, when it does not raise: the plan it leaves,
    the results it has collected and the handlers it has awaited. *)
Lemma run_actions_inv (actions : list value) :
  forall (fields : pydict value) (results : pydict value) (log : list call)
         (st : value * pydict value) (log' : list call),
    run_actions self context actions (VDict fields) results log
    = (Ok st, log') ->
    loop_post self context actions (VDict fields) results log st log'.
Proof.
  induction actions as [|a rest IH]; intros fields results log st log'; simpl.
  - intros [= <- <-]. apply loop_post_nil.
  - unfold bind at 1. unfold lift at 1.
    destruct a as [| | | |name| | |]; simpl; try discriminate;
      try (intros Hrun; apply loop_post_skip; [intros ? [=] | apply IH, Hrun];
           fail).
    fold (registered self name).
    destruct (registered self name) eqn:Hreg;
      [|intros Hrun; apply loop_post_skip;
        [intros ? [= <-]; exact Hreg | apply IH, Hrun]].
    destruct (lookup name (available_actions self)) as [h|] eqn:Hh;
      [|apply registered_lookup in Hreg; contradiction].
    unfold bind.
    destruct (run_action context name h (VDict fields) results log)
      as [[st1|e] log1] eqn:Hstep; [|discriminate].
    apply run_action_inv in Hstep as (-> & -> & Hparams). cbn [fst snd].
    pose proof (evolved_write_back fields name _ Hparams) as Hev1.
    destruct (evolved_dict _ _ _ _ Hev1) as [fields1 Hfields1].
    intros Hrun. apply (loop_post_run name h); try assumption.
    rewrite Hfields1 in *. apply IH, Hrun.
Qed.

(** On a plan of the expected shape the loop never raises. *)
Lemma run_actions_shaped (names : list string) :
  forall (plan : value) (results : pydict value) (log : list call),
    parameters_shaped plan ->
    exists st log',
      run_actions self context (map VStr names) plan results log
      = (Ok st, log').
Proof.
  induction names as [|name names IH]; intros plan results log Hshape; simpl.
  - unfold ret. eauto.
  - unfold bind at 1. unfold lift at 1. simpl.
    fold (registered self name).
    destruct (registered self name) eqn:Hreg; [|apply IH, Hshape].
    destruct (lookup name (available_actions self)) as [h|]; [|apply IH, Hshape].
    unfold bind.
    destruct (run_action_shaped name h plan results log Hshape)
      as (st1 & log1 & Hstep).
    rewrite Hstep. destruct Hshape as (fields & -> & Hshape).
    pose proof Hstep as Hinv.
    apply run_action_inv in Hinv as (-> & _ & Hparams). simpl.
    apply IH. eapply evolved_shaped.
    + apply (evolved_write_back fields name _ Hparams).
    + exists fields. split; [reflexivity | exact Hshape].
Qed.


Lemma execute_plan_inv (plan : value) (log : list call)
    (st : value * pydict value) (log' : list call) :
  _execute_plan self plan context log = (Ok st, log') ->
  exists fields actions,
    plan = VDict fields
    /\ plan_actions plan = Ok actions
    /\ run_actions self context actions plan [] log = (Ok st, log').
Proof.
  unfold _execute_plan, plan_actions, bind, lift.
  destruct plan; simpl; try discriminate.
  destruct (iter _) as [actions|e]; simpl; [|discriminate].
  intros Hrun. eauto.
Qed.

Lemma calls_of_registered (plan : value) (actions : list value) (c : call) :
  In c (calls_of self context plan actions) ->
  registered self (call_action c) = true.
Proof.
  unfold calls_of. rewrite in_flat_map. intros (a & _ & Hc).
  destruct a; try contradiction.
  destruct (registered self s) eqn:Hreg; [|contradiction].
  destruct Hc as [<-|[]]. exact Hreg.
Qed.

Lemma calls_of_names (plan : value) (names : list string) (name : string) :
  In name names -> registered self name = true ->
  In (Call name (params_for context plan name))
     (calls_of self context plan (map VStr names)).
Proof.
  intros Hin Hreg. unfold calls_of. rewrite in_flat_map.
  exists (VStr name). split; [apply in_map, Hin|].
  rewrite Hreg. left. reflexivity.
Qed.

Lemma executed_names (names : list string) (name : string) :
  In name names -> registered self name = true ->
  executed self (map VStr names) name = true.
Proof.
  intros Hin Hreg. unfold executed. rewrite Hreg. simpl.
  apply existsb_exists. exists (VStr name).
  split; [apply in_map, Hin | apply String.eqb_refl].
Qed.

(** The turn of an unregistered name leaves the loop as it finds it. *)
Lemma run_actions_skip (name : string) (actions : list value) :
  registered self name = false ->
  forall plan results log,
    run_actions self context actions plan results log
    = run_actions self context
        (List.filter (fun a => negb (is_name name a)) actions) plan results log.
Proof.
  intros Hreg. induction actions as [|a rest IH]; intros plan results log;
    [reflexivity|].
  destruct (is_name name a) eqn:Hname.
  - assert (Hdrop : List.filter (fun a => negb (is_name name a)) (a :: rest)
                    = List.filter (fun a => negb (is_name name a)) rest).
    { simpl. rewrite Hname. reflexivity. }
    rewrite Hdrop, <- IH.
    destruct a; try discriminate Hname.
    apply String.eqb_eq in Hname as ->. simpl.
    unfold bind at 1. unfold lift at 1. simpl.
    fold (registered self name). rewrite Hreg. reflexivity.
  - assert (Hkeep : List.filter (fun a => negb (is_name name a)) (a :: rest)
                    = a :: List.filter (fun a => negb (is_name name a)) rest).
    { simpl. rewrite Hname. reflexivity. }
    rewrite Hkeep. simpl. unfold bind at 1 3. unfold lift at 1 2.
    destruct (in_keys a (available_actions self)) as [known|e];
      [|reflexivity].
    destruct a; try apply IH. destruct known; [|apply IH].
    destruct (lookup s (available_actions self)); [|apply IH].
    unfold bind. destruct (run_action _ _ _ _ _ _) as [[st|e] log1];
      [apply IH | reflexivity].
Qed.

(** C8.  An action name that is not a key of the registry is skipped: its
    turn of the loop changes nothing and raises nothing (the loop behaves
    as on the action list without the name), no handler is awaited under
    that name, and the name is not a key of the results. *)
Theorem unknown_action_skipped (name : string) (plan : value)
    (log : list call) :
  registered self name = false ->
  (forall actions plan0 results log0,
     run_actions self context actions plan0 results log0
     = run_actions self context
         (List.filter (fun a => negb (is_name name a)) actions) plan0 results log0)
  /\ (forall plan' results log',
        _execute_plan self plan context log = (Ok (plan', results), log') ->
        lookup name results = None
        /\ exists calls,
             log' = (log ++ calls)%list
             /\ Forall (fun c => call_action c <> name) calls).
Proof.
  intros Hreg. split.
  - intros actions. apply run_actions_skip, Hreg.
  - intros plan' results log' Hrun.
    apply execute_plan_inv in Hrun as (fields & actions & -> & _ & Hrun).
    apply run_actions_inv in Hrun as [_ Hres Hlog _]. split.
    + rewrite Hres. unfold executed. rewrite Hreg. reflexivity.
    + eexists. split; [exact Hlog|].
      apply Forall_forall. intros c Hc Heq.
      apply list_elem_of_In, calls_of_registered in Hc. rewrite Heq in Hc. congruence.
Qed.

(** C3, as the code has it.  In a plan of the shape the data model gives
    it -- [actions] a list of names, [parameters] absent or an object
    whose entries are objects -- when the handler of one action raises,
    [_execute_plan] still returns; it has recorded the error message
    under that action's key, and every other registered action of the
    plan has been awaited and has its own result under its own key. *)
Theorem failing_handler_recorded (plan : value) (names : list string)
    (log : list call) (bad : string) (h : handler) (e : exn) :
  plan_shaped plan names ->
  In bad names ->
  lookup bad (available_actions self) = Some h ->
  h (params_for context plan bad) = Raise e ->
  exists plan' results calls,
    _execute_plan self plan context log
    = (Ok (plan', results), (log ++ calls)%list)
    /\ lookup bad results = Some (VDict [("error", VStr (exn_str e))])
    /\ forall other h',
         In other names ->
         lookup other (available_actions self) = Some h' ->
         In (Call other (params_for context plan other)) calls
         /\ lookup other results
            = Some (recorded (h' (params_for context plan other))).
Proof.
  intros [Hshape Hactions] Hbad Hh Hraise.
  destruct (run_actions_shaped names plan [] log Hshape)
    as ([plan' results] & log' & Hrun).
  pose proof Hshape as (fields & -> & _).
  pose proof Hrun as Hinv.
  apply run_actions_inv in Hinv as [_ Hres -> _].
  assert (Hreg : forall x hx, lookup x (available_actions self) = Some hx ->
                              registered self x = true).
  { intros x hx Hx. apply registered_lookup. congruence. }
  exists plan', results, (calls_of self context (VDict fields) (map VStr names)).
  split; [|split].
  - unfold _execute_plan, bind, lift. rewrite Hactions. exact Hrun.
  - simpl in Hres. rewrite Hres, (executed_names names bad Hbad (Hreg _ _ Hh)).
    unfold result_of. rewrite Hh. simpl. rewrite Hraise. reflexivity.
  - intros other h' Hother Hh'. split.
    + apply calls_of_names; eauto.
    + simpl in Hres.
      rewrite Hres, (executed_names names other Hother (Hreg _ _ Hh')).
      unfold result_of. rewrite Hh'. reflexivity.
Qed.


(** *** The plan after execution *)

Lemma write_back_id (fields : pydict value) (name : string) (params : value) :
  (forall v, entry_of (VDict fields) name = Some v -> params = v) ->
  write_back (VDict fields) name params = VDict fields.
Proof.
  unfold write_back, entry_of. simpl. intros Hsame.
  destruct (lookup "parameters" fields) as [[]|] eqn:Hp; try reflexivity.
  destruct (lookup name kvs) as [v|] eqn:Hv; [|reflexivity].
  rewrite (Hsame v eq_refl).
  rewrite (assign_id name v kvs Hv), (assign_id _ _ fields Hp). reflexivity.
Qed.

(** When every entry the loop touches already holds the context, the loop
    leaves the plan as it was. *)
Lemma run_actions_fixed (actions : list value) :
  forall (fields : pydict value) (results : pydict value) (log : list call)
         (st : value * pydict value) (log' : list call),
    run_actions self context actions (VDict fields) results log
    = (Ok st, log') ->
    (forall x v, executed self actions x = true ->
                 entry_of (VDict fields) x = Some v ->
                 add_context context v = v) ->
    fst st = VDict fields.
Proof.
  induction actions as [|a rest IH]; intros fields results log st log'; simpl.
  - intros [= <- <-] _. reflexivity.
  - unfold bind at 1. unfold lift at 1.
    assert (Hskip :
      (forall name, a = VStr name -> registered self name = false) ->
      run_actions self context rest (VDict fields) results log = (Ok st, log') ->
      (forall x v, executed self (a :: rest) x = true ->
                   entry_of (VDict fields) x = Some v ->
                   add_context context v = v) ->
      fst st = VDict fields).
    { intros Hno Hrun Hsame. apply (IH _ _ _ _ _ Hrun).
      intros x v Hx. apply Hsame.
      rewrite executed_cons_skip by exact Hno. exact Hx. }
    destruct a as [| | | |name| | |]; simpl; try discriminate;
      try (apply Hskip; intros ? [=]; fail).
    fold (registered self name).
    destruct (registered self name) eqn:Hreg;
      [|apply Hskip; intros ? [= <-]; exact Hreg].
    destruct (lookup name (available_actions self)) as [h|] eqn:Hh;
      [|apply registered_lookup in Hreg; contradiction].
    clear Hskip. unfold bind.
    destruct (run_action context name h (VDict fields) results log)
      as [[st1|e] log1] eqn:Hstep; [|discriminate].
    apply run_action_inv in Hstep as (-> & -> & Hparams). cbn [fst snd].
    intros Hrun Hsame.
    assert (Hid : write_back (VDict fields) name
                    (params_for context (VDict fields) name) = VDict fields).
    { apply write_back_id. intros v Hv. rewrite (Hparams v Hv).
      apply (Hsame name v); [|exact Hv].
      rewrite executed_cons_run, String.eqb_refl by exact Hreg. reflexivity. }
    rewrite Hid in Hrun. apply (IH _ _ _ _ _ Hrun).
    intros x v Hx. apply Hsame.
    rewrite executed_cons_run, Hx by exact Hreg. apply orb_true_r.
Qed.

Variable json_text : value -> string.
Variable now : Z.
Variable isoformat : Z -> string.

(** C10, as the code has it.  When [_execute_plan] returns, the plan
    object has been mutated in place: every executed action with an entry
    in [parameters] has the shared context under "context" in that entry,
    the other keys of the entry, the other entries and the other fields
    being as they were ([evolved]); the plan in the success payload is
    this mutated plan.  It is equal to the plan as planned exactly when
    every such entry already held the shared context under "context". *)
Theorem execute_plan_writes_context (user_query : string)
    (history : list value) (plan plan' : value) (results : pydict value)
    (log log' : list call) :
  _execute_plan self plan context log = (Ok (plan', results), log') ->
  exists actions,
    plan_actions plan = Ok actions
    /\ evolved context (executed self actions) plan plan'
    /\ (forall name entry,
          executed self actions name = true ->
          entry_of plan name = Some entry ->
          exists e,
            entry = VDict e
            /\ entry_of plan' name = Some (VDict (assign "context" context e))
            /\ lookup "context" (assign "context" context e) = Some context
            /\ forall k, k <> "context" ->
                         lookup k (assign "context" context e) = lookup k e)
    /\ (plan' = plan <->
        forall name e,
          executed self actions name = true ->
          entry_of plan name = Some (VDict e) ->
          lookup "context" e = Some context)
    /\ exists response,
         execute_and_respond json_text now isoformat self user_query context
                             history plan log
         = (Ok (VDict [("success", VBool true);
                       ("response", response);
                       ("plan", plan');
                       ("results", VDict results);
                       ("timestamp", VStr (isoformat now))]), log').
Proof.
  intros Hexec. pose proof Hexec as Hrun.
  apply execute_plan_inv in Hrun as (fields & actions & -> & Hactions & Hrun).
  pose proof (run_actions_inv _ _ _ _ _ _ Hrun) as [Hev _ _ Hent].
  simpl in Hev.
  assert (Htouched : forall name entry,
            executed self actions name = true ->
            entry_of (VDict fields) name = Some entry ->
            exists e, entry = VDict e
                      /\ entry_of plan' name
                         = Some (VDict (assign "context" context e))).
  { intros name entry Hx Hentry.
    destruct (Hent name entry Hx Hentry) as [e ->]. exists e.
    split; [reflexivity|].
    rewrite (evolved_entry_of _ _ _ name Hev), Hx, Hentry. reflexivity. }
  exists actions. split; [exact Hactions|]. split; [exact Hev|].
  split; [|split].
  - intros name entry Hx Hentry.
    destruct (Htouched name entry Hx Hentry) as (e & -> & Hnew).
    exists e. repeat split; try assumption.
    + apply lookup_assign_eq.
    + intros k Hk. apply lookup_assign_ne, Hk.
  - split.
    + intros -> name e Hx Hentry.
      destruct (Htouched name _ Hx Hentry) as (e' & [= <-] & Hnew).
      rewrite Hentry in Hnew. injection Hnew as Hnew.
      rewrite Hnew. apply lookup_assign_eq.
    + intros Hheld.
      apply (run_actions_fixed _ _ _ _ _ _ Hrun).
      intros x v Hx Hv. destruct (Hent x v Hx Hv) as [e ->]. simpl.
      rewrite (assign_id _ _ _ (Hheld x e Hx Hv)). reflexivity.
  - destruct (generate_response_returns json_text self user_query results
                                           history)
      as [response Hresp].
    exists response.
    unfold execute_and_respond, try_except, bind, lift, ret.
    rewrite Hexec. simpl. rewrite Hresp. reflexivity.
Qed.

End Execution.

(** *** Execution on concrete plans *)

Section ExecutionExamples.
Import Py.
Import Orchestrator.
Import Scenario.

Local Abbreviation sql_down_self :=
  (Demo.orchestrator Demo.failing sql_down).

Lemma report_plan_shaped :
  Spec.plan_shaped report_plan
    ["search_database"; "query_sql"; "send_email"; "analyze_data"].
Proof.
  split; [|reflexivity].
  exists [("intent", VStr "analyze");
          ("actions", strs ["search_database"; "query_sql"; "send_email";
                            "analyze_data"]);
          ("parameters",
           VDict [("query_sql", VDict [("table", VStr "sales")])]);
          ("required_permissions", strs ["read"])].
  split; [reflexivity|]. right.
  exists [("query_sql", VDict [("table", VStr "sales")])].
  split; [reflexivity|]. intros a v. simpl.
  destruct (String.eqb a "query_sql"); [|discriminate].
  intros [= <-]. eauto.
Defined.

(** The SQL handler raises; the search before it and the analysis after
    it are awaited all the same. *)
Lemma failing_handler_recorded_witness :
  exists plan' results calls,
    _execute_plan sql_down_self report_plan web_context []
    = (Ok (plan', results), ([] ++ calls)%list)
    /\ Py.lookup "query_sql" results
       = Some (VDict [("error", VStr "connection refused")])
    /\ forall other h',
         In other ["search_database"; "query_sql"; "send_email";
                   "analyze_data"] ->
         Py.lookup other sql_down = Some h' ->
         In (Call other (Spec.params_for web_context report_plan other)) calls
         /\ Py.lookup other results
            = Some (Spec.recorded
                      (h' (Spec.params_for web_context report_plan other))).
Proof.
  apply (failing_handler_recorded sql_down_self web_context report_plan
           ["search_database"; "query_sql"; "send_email"; "analyze_data"]
           [] "query_sql" (stub (Raise refused)) refused).
  - exact report_plan_shaped.
  - simpl. tauto.
  - reflexivity.
  - reflexivity.
Defined.

(** C3, refuted as stated: outside that shape the loop does not reach the
    remaining actions.  The SQL handler raises and its error is absorbed;
    the entry of the next action is a text, writing the context into it
    raises outside the inner [try], and [_execute_plan] raises: there is
    no result mapping, and the analysis, a registered action of the plan,
    is never awaited. *)
Lemma text_entry_stops_execution :
  Py.lookup "query_sql" sql_down = Some (stub (Raise refused))
  /\ Py.lookup "analyze_data" sql_down = Some (stub (Ok insights))
  /\ Spec.plan_actions text_entry_plan
     = Ok [VStr "query_sql"; VStr "search_database"; VStr "analyze_data"]
  /\ _execute_plan sql_down_self text_entry_plan web_context []
     = (Raise (Exn TypeError
                   "'str' object does not support item assignment"),
        [Call "query_sql" (VDict [("context", web_context)])]).
Proof. repeat split. Qed.

(** Two awaits of [create_document] on the same [params], a second
    apart, do not answer alike. *)
Example create_document_reads_clock :
  create_document Demo.isoformat clock clock (VDict [("context", web_context)])
  <> create_document Demo.isoformat (clock + 1) (clock + 1)
       (VDict [("context", web_context)]).
Proof. vm_compute. discriminate. Qed.

Example report_plan_run :
  _execute_plan sql_down_self report_plan web_context []
  = (Ok (VDict [("intent", VStr "analyze");
                ("actions", strs ["search_database"; "query_sql";
                                  "send_email"; "analyze_data"]);
                ("parameters",
                 VDict [("query_sql", VDict [("table", VStr "sales");
                                             ("context", web_context)])]);
                ("required_permissions", strs ["read"])],
         [("search_database", found);
          ("query_sql", VDict [("error", VStr "connection refused")]);
          ("analyze_data", insights)]),
     [Call "search_database" (VDict [("context", web_context)]);
      Call "query_sql" (VDict [("table", VStr "sales");
                               ("context", web_context)]);
      Call "analyze_data" (VDict [("context", web_context)])]).
Proof. reflexivity. Qed.

(** "send_email" is in the plan and not in the registry. *)
Lemma unknown_action_skipped_witness :
  (forall actions plan0 results log0,
     run_actions sql_down_self web_context actions plan0 results log0
     = run_actions sql_down_self web_context
         (List.filter (fun a => negb (Spec.is_name "send_email" a)) actions)
         plan0 results log0)
  /\ (forall plan' results log',
        _execute_plan sql_down_self report_plan web_context []
        = (Ok (plan', results), log') ->
        Py.lookup "send_email" results = None
        /\ exists calls,
             log' = ([] ++ calls)%list
             /\ Forall (fun c => call_action c <> "send_email") calls).
Proof.
  apply (unknown_action_skipped sql_down_self web_context "send_email"
           report_plan []).
  reflexivity.
Defined.

Local Abbreviation searching :=
  (Demo.orchestrator (Demo.scripted None (Some "Here it is.")) search_only).

Local Abbreviation searched_plan :=
  (VDict [("intent", VStr "search");
          ("actions", strs ["search_database"]);
          ("parameters",
           VDict [("search_database", VDict [("query", VStr "Q3 report");
                                             ("context", web_context)])]);
          ("required_permissions", strs ["read"])]).

(** The entry of the search gains the context; the payload carries the
    plan with it. *)
Lemma execute_plan_writes_context_witness :
  exists actions,
    Spec.plan_actions search_plan = Ok actions
    /\ Spec.evolved web_context (Spec.executed searching actions)
                    search_plan searched_plan
    /\ (forall name entry,
          Spec.executed searching actions name = true ->
          Spec.entry_of search_plan name = Some entry ->
          exists e,
            entry = VDict e
            /\ Spec.entry_of searched_plan name
               = Some (VDict (assign "context" web_context e))
            /\ Py.lookup "context" (assign "context" web_context e)
               = Some web_context
            /\ forall k, k <> "context" ->
                         Py.lookup k (assign "context" web_context e)
                         = Py.lookup k e)
    /\ (searched_plan = search_plan <->
        forall name e,
          Spec.executed searching actions name = true ->
          Spec.entry_of search_plan name = Some (VDict e) ->
          Py.lookup "context" e = Some web_context)
    /\ exists response,
         Spec.execute_and_respond Demo.json_text clock Demo.isoformat
           searching "find our Q3 report" web_context [] search_plan []
         = (Ok (VDict [("success", VBool true);
                       ("response", response);
                       ("plan", searched_plan);
                       ("results", VDict [("search_database", found)]);
                       ("timestamp", VStr (Demo.isoformat clock))]),
            [Call "search_database"
               (VDict [("query", VStr "Q3 report");
                       ("context", web_context)])]).
Proof.
  apply (execute_plan_writes_context searching web_context Demo.json_text
           clock Demo.isoformat "find our Q3 report" [] search_plan
           searched_plan [("search_database", found)] []
           [Call "search_database"
              (VDict [("query", VStr "Q3 report");
                      ("context", web_context)])]).
  reflexivity.
Defined.

(** C10, refuted as stated: the reply of the language model already
    holds the context in the entry of the executed action, and the plan of
    the success payload is the plan as planned. *)
Lemma echoed_context_leaves_plan_unchanged :
  _create_plan echoing_loads Demo.json_text echoing "find our Q3 report"
               web_context []
  = Ok echo_plan
  /\ Spec.executed echoing [VStr "search_database"] "search_database" = true
  /\ Spec.entry_of echo_plan "search_database"
     = Some (VDict [("context", web_context)])
  /\ plan_and_execute echoing_loads Demo.json_text clock Demo.isoformat
       echoing "find our Q3 report" web_context [] ["read"] []
     = (Ok (success_outcome clock Demo.isoformat (VStr "Here it is.")
              echo_plan [("search_database", found)]),
        [Call "search_database" (VDict [("context", web_context)])]).
Proof. repeat split. Qed.

End ExecutionExamples.

(** ** Tokens *)

Section Tokens.
Import Py.
Import Auth.
Import Spec.

Variable int_literal : string -> option Z.
Variable sha256 : string -> string.
Variable SECRET_KEY : string.
Variable bcrypt_hash : string -> string.

Local Abbreviation issue := (create_access_token SECRET_KEY).
Local Abbreviation validate :=
  (get_current_user int_literal sha256 SECRET_KEY bcrypt_hash).
Local Abbreviation users := (fake_users_db bcrypt_hash).

Lemma issued_token (subject : string) (expires_delta : option Z) (utcnow : Z)
    (key : string) :
  create_access_token key [("sub", VStr subject)] expires_delta utcnow
  = Ok (Signed "HS256"
          [("sub", VStr subject); ("exp", VInt (expiry expires_delta utcnow))]
          key).
Proof.
  unfold create_access_token, expiry, jwt_encode.
  destruct expires_delta as [delta|]; [destruct (delta =? 0)|]; reflexivity.
Qed.

(** Validation of a token that carries a subject and an integer expiry
    under the service's secret. *)
Lemma validate_issued (subject : string) (exp at_time : Z) :
  validate (Signed "HS256" [("sub", VStr subject); ("exp", VInt exp)]
              SECRET_KEY) at_time
  = if exp <? at_time then Abort credentials_exception
    else match users !! subject with
         | Some u => Respond u
         | None => Abort credentials_exception
         end.
Proof.
  unfold get_current_user, jwt_decode.
  change (existsb (String.eqb "HS256") ["HS256"]) with true.
  rewrite String.eqb_refl.
  cbn [negb]. unfold validate_claims, int_claim, py_int.
  cbn [lookup String.eqb Ascii.eqb Bool.eqb rbind].
  destruct (exp <? at_time); reflexivity.
Qed.



End Tokens.

Section TokenExamples.
Import Py.
Import Auth.
Import Spec.

Local Abbreviation demo_issue := (create_access_token Demo.SECRET_KEY).
Local Abbreviation demo_validate :=
  (get_current_user Demo.int_literal Demo.sha256 Demo.SECRET_KEY
                    Demo.bcrypt_hash).


Example demo_token_issued :
  demo_issue [("sub", VStr "demo@example.com")] (Some (minutes 30))
             1700000000
  = Ok Scenario.demo_token.
Proof. vm_compute. reflexivity. Qed.

Example demo_user_validated :
  demo_validate Scenario.demo_token 1700000000
  = Respond {| username := "demo";
               full_name := "Demo User";
               email := "demo@example.com";
               hashed_password := Demo.bcrypt_hash "demo123";
               disabled := false;
               role := "admin" |}.
Proof. vm_compute. reflexivity. Qed.

(** The secret followed by a zero byte is another text with the same
    key block: a token signed under it validates. *)
Example padded_secret_accepted :
  Scenario.padded_secret <> Demo.SECRET_KEY
  /\ demo_validate
       (Signed "HS256"
          [("sub", VStr "demo@example.com"); ("exp", VInt 1700001800)]
          Scenario.padded_secret) 1700000000
     = Respond Scenario.demo_user.
Proof. split; [discriminate|]. vm_compute. reflexivity. Qed.

(** A token under the secret whose expiry is [null]: the conversion
    raises a [TypeError], which the dependency does not catch. *)
Example null_expiry_uncaught :
  demo_validate Scenario.null_expiry_token 1700000000
  = Uncaught
      (Exn TypeError
         ("int() argument must be a string, a bytes-like object"
          ++ " or a real number, not 'NoneType'")).
Proof. vm_compute. reflexivity. Qed.

(** A token under the secret that is not valid yet, and one whose expiry
    is the text of a number. *)
Example future_token_rejected :
  demo_validate
    (Signed "HS256"
       [("sub", VStr "demo@example.com"); ("nbf", VInt 1700000500)]
       Demo.SECRET_KEY) 1700000000
  = Abort credentials_exception
  /\ demo_validate
       (Signed "HS256"
          [("sub", VStr "demo@example.com"); ("exp", VStr "1700001800")]
          Demo.SECRET_KEY) 1700000000
     = Respond Scenario.demo_user.
Proof. split; vm_compute; reflexivity. Qed.


End TokenExamples.

(** ** The query endpoint *)

Section Endpoint.
Import Py.
Import Orchestrator.
Import Auth.
Import Api.
Import Spec.

Variable now : Z.
Variable isoformat : Z -> string.
Variable str : value -> string.
Variable json_loads : string -> result value.
Variable json_text : value -> string.
Variable orchestrator_now : Z.


End Endpoint.

Section EndpointExamples.
Import Py.
Import Orchestrator.
Import Auth.
Import Api.
Import Scenario.

(** An orchestrator double that answers with the permissions it was
    given. *)
Local Abbreviation spy :=
  (fun (_ : string) (_ : value) (_ : list value) (perms : list string) =>
     ret (VDict [("response", strs perms)])).

Local Abbreviation delete_request :=
  {| query := "delete the Q3 report"; conversation_history := [] |}.


(** The endpoint hands the spy the eleven names. *)
Example spy_sees_fixed_list :
  process_query clock Demo.isoformat Demo.str spy
    {| query := "find our Q3 report"; conversation_history := [] |}
    (user_value demo_user) []
  = (Ok (Respond
           (formatted_response clock Demo.isoformat
              (strs ["read"; "write"; "view_sensitive_data";
                     "view_financial_data"; "view_revenue_data";
                     "view_sales_data"; "analyze_data"; "analyze_sales_data";
                     "create_document"; "create_documents";
                     "access_admin_tools"]))),
     []).
Proof. vm_compute. reflexivity. Qed.

(** The list is fixed, not all-embracing: a plan that asks for "delete"
    is refused under it as well. *)
Example admin_permissions_lack_delete :
  plan_and_execute deleting_loads Demo.json_text clock Demo.isoformat
    deleting "delete the Q3 report" (VDict []) [] admin_permissions []
  = (Ok (insufficient_permissions (strs ["read"; "delete"])), []).
Proof. reflexivity. Qed.


End EndpointExamples.

(** ** The session store *)

Section Sessions.
Import Py.
Import Session.

Variable isoformat : Z -> string.
Variable fromisoformat : string -> option Z.

Lemma unserialisable_in_list (xs : list value) (x : value) :
  In x xs -> first_unserialisable x <> None ->
  first_unserialisable (VList xs) <> None.
Proof.
  simpl. induction xs as [|y xs IH]; intros Hin Hx; [contradiction|].
  simpl. destruct Hin as [->|Hin].
  - destruct (first_unserialisable x); [discriminate | contradiction].
  - destruct (first_unserialisable y); [discriminate | apply IH; assumption].
Qed.

Lemma unserialisable_in_dict (kvs : pydict value) (k : string) (v : value) :
  In (k, v) kvs -> first_unserialisable v <> None ->
  first_unserialisable (VDict kvs) <> None.
Proof.
  simpl. induction kvs as [|[k0 v0] kvs IH]; intros Hin Hv; [contradiction|].
  simpl. destruct Hin as [[= -> ->]|Hin].
  - destruct (first_unserialisable v); [discriminate | contradiction].
  - destruct (first_unserialisable v0); [discriminate | apply IH; assumption].
Qed.

Lemma in_assign {A} (k : string) (v : A) (d : pydict A) :
  In (k, v) (assign k v d).
Proof.
  induction d as [|[k0 v0] d IH]; simpl; [left; reflexivity|].
  destruct (String.eqb_spec k k0) as [->|]; [left | right]; auto.
Qed.

Lemma in_assign_other {A} (k k1 : string) (v v1 : A) (d : pydict A) :
  k1 <> k -> In (k1, v1) d -> In (k1, v1) (assign k v d).
Proof.
  intros Hne. induction d as [|[k0 v0] d IH]; simpl; [contradiction|].
  destruct (String.eqb_spec k k0) as [->|].
  - intros [[= <- <-]|Hin]; [contradiction | right; exact Hin].
  - intros [Heq|Hin]; [left; exact Heq | right; auto].
Qed.

Lemma Message_dict_unserialisable (m : Message) :
  first_unserialisable (Message_dict m) = Some (VDatetime (timestamp m)).
Proof. reflexivity. Qed.

(** Whatever the session and the message, [update_conversation] writes
    nothing: after it the store is the one [get_session] left. *)
Lemma update_conversation_stores_nothing (session_id : string)
    (message : Message) (now : Z) (db : store) :
  snd (update_conversation isoformat session_id message now db)
  = snd (get_session session_id now db).
Proof.
  unfold update_conversation.
  destruct (get_session session_id now db) as [[data|] db1]; [|reflexivity].
  destruct (truthy data); [|reflexivity].
  destruct (getitem data "conversation_history") as [history|e];
    [|reflexivity]. simpl.
  destruct history; try reflexivity. simpl.
  destruct data; try reflexivity. simpl.
  unfold json_document.
  destruct (first_unserialisable _) eqn:Hdoc; [reflexivity|].
  exfalso. revert Hdoc.
  apply (unserialisable_in_dict _ "conversation_history"
           (VList (xs ++ [Message_dict message]))).
  - apply in_assign_other; [discriminate | apply in_assign].
  - apply (unserialisable_in_list _ (Message_dict message)).
    + apply in_or_app. right. left. reflexivity.
    + rewrite Message_dict_unserialisable. discriminate.
Qed.

(** The slice [history[-limit:]] for a positive limit: the last
    [min N limit] messages, in their order. *)
Lemma slice_from_positive {A} (limit : Z) (l : list A) :
  0 < limit ->
  slice_from (- limit) l
  = drop (length l - Z.to_nat (Z.min (Z.of_nat (length l)) limit)) l
  /\ Z.of_nat (length (slice_from (- limit) l))
     = Z.min (Z.of_nat (length l)) limit.
Proof.
  intros Hpos. unfold slice_from.
  destruct (- limit <? 0) eqn:Hneg; [|apply Z.ltb_ge in Hneg; lia].
  assert (Hidx : Z.to_nat (Z.max 0 (Z.of_nat (length l) + - limit))
                 = (length l - Z.to_nat (Z.min (Z.of_nat (length l)) limit))%nat)
    by lia.
  rewrite Hidx. split; [reflexivity|].
  rewrite length_drop. lia.
Qed.

(** With limit zero the slice is the whole list. *)
Lemma slice_from_zero {A} (l : list A) : slice_from (- 0) l = l.
Proof.
  unfold slice_from. change (- 0 <? 0) with false. cbv iota zeta.
  replace (Z.to_nat (Z.min (- 0) (Z.of_nat (length l)))) with 0%nat by lia.
  reflexivity.
Qed.

End Sessions.

Section SessionExamples.
Import Py.
Import Session.
Import Scenario.

Local Abbreviation sid := "session:u1:1700000000.0".

Local Abbreviation created :=
  (snd (create_session Demo.isoformat "u1" profile 1700000000 ∅)).

Local Abbreviation appended :=
  (update_conversation Demo.isoformat sid hello 1700000005 created).

(** C5, on the code: one message is appended to a fresh session and the
    history is read with the default limit of ten; the append raises while
    encoding the message, nothing is stored, and the history read back
    has no message where [min 1 10] is one.  And on a session that holds
    three messages a limit of zero returns all three where [min 3 0] is
    zero. *)
Theorem appended_message_not_returned :
  fst (create_session Demo.isoformat "u1" profile 1700000000 ∅) = Ok sid
  /\ fst appended
     = Raise (Exn TypeError "Object of type datetime is not JSON serializable")
  /\ Spec.returned
       (get_conversation_history fromisoformat sid 10 1700000010
                                 (snd appended))
     = Some 0%nat
  /\ Spec.returned
       (get_conversation_history fromisoformat sid 0 1700000010
                                 three_messages)
     = Some 3%nat.
Proof. vm_compute. repeat split. Qed.

End SessionExamples.

(** ** Further properties of the orchestrator *)

Section Planning.
Import Py.
Import Orchestrator.
Import Spec.

Variable json_loads : string -> result value.
Variable json_text : value -> string.
Variable now : Z.
Variable isoformat : Z -> string.

Lemma in_strings_monotone (perms perms' : list string) (x : value) :
  (forall p, In p perms -> In p perms') ->
  in_strings x perms = true -> in_strings x perms' = true.
Proof.
  intros Hsub. destruct x; simpl; try discriminate.
  rewrite !existsb_exists. intros (p & Hp & Heq). exists p. auto.
Qed.

(** X1.  A plan that passes the permission check passes it under every
    permission list that holds at least the same names: order and
    repetitions in the caller's list do not matter, and granting more
    never turns a pass into a refusal. *)
Theorem check_permissions_monotone (plan : value)
    (perms perms' : list string) :
  (forall p, In p perms -> In p perms') ->
  _check_permissions plan perms = Ok true ->
  _check_permissions plan perms' = Ok true.
Proof.
  intros Hsub. unfold _check_permissions.
  destruct (get plan "required_permissions" (VList [])) as [required|e];
    simpl; [|discriminate].
  destruct (iter required) as [entries|e]; simpl; [|discriminate].
  intros [= Hall]. f_equal.
  rewrite forallb_forall in *. intros x Hx.
  apply (in_strings_monotone perms perms' x Hsub), Hall, Hx.
Qed.

Lemma slice_from_last_five {A} (older recent : list A) :
  length recent = 5%nat ->
  slice_from (-5) (older ++ recent) = slice_from (-5) recent.
Proof.
  intros Hlen. unfold slice_from. simpl.
  rewrite length_app, Hlen.
  replace (Z.to_nat (Z.max 0 (Z.of_nat (length older + 5) + -5)))
    with (length older) by lia.
  rewrite drop_app_length. simpl. reflexivity.
Qed.

(** X2.  Both prompts carry the last five messages of the history and no
    other: messages older than the last five change neither the plan nor
    the response, even when they are malformed. *)
Theorem history_window (self : t) (user_query : string) (context : value)
    (results : pydict value) (older recent : list value) :
  length recent = 5%nat ->
  _create_plan json_loads json_text self user_query context (older ++ recent)
  = _create_plan json_loads json_text self user_query context recent
  /\ _generate_response json_text self user_query results (older ++ recent)
     = _generate_response json_text self user_query results recent.
Proof.
  intros Hlen.
  unfold _create_plan, plan_request, _generate_response, history_messages.
  rewrite (slice_from_last_five older recent Hlen). split; reflexivity.
Qed.

(** X3.  Response generation never raises: a history message without
    role or content, results that cannot be encoded, or a failing API
    call give the apology text that ends with the message of the
    exception. *)
Theorem response_failure_apologises (self : t) (user_query : string)
    (results : pydict value) (history : list value) (e : exn) :
  response_fails json_text self user_query results history e ->
  _generate_response json_text self user_query results history
  = Ok (VStr ("I apologize, but I encountered an error processing your request: "
              ++ exn_str e)).
Proof.
  intros Hfail. unfold _generate_response, try_result.
  destruct Hfail as [Hh | msgs Hh Hd | msgs text Hh Hd Hc];
    rewrite Hh; simpl; [reflexivity | rewrite Hd; reflexivity |].
  rewrite Hd. simpl. unfold response_request in Hc. rewrite Hc. reflexivity.
Qed.

(** X4.  When plan creation fails and the caller does not hold "read",
    the request is refused: the fallback plan requires "read", no handler
    is awaited, and the payload names that permission. *)
Theorem fallback_needs_read (self : t) (user_query : string)
    (context : value) (history : list value) (perms : list string)
    (log : list call) :
  creation_fails json_loads json_text self user_query context history ->
  ~ In "read" perms ->
  plan_and_execute json_loads json_text now isoformat self user_query context
                   history perms log
  = (Ok (VDict [("success", VBool false);
                ("error",
                 VStr "Insufficient permissions for requested action");
                ("required_permissions", VList [VStr "read"])]), log).
Proof.
  intros Hfail Hread.
  assert (Hplan : _create_plan json_loads json_text self user_query context
                               history = Ok fallback_plan).
  { unfold _create_plan, try_result.
    destruct Hfail as [e Hreq | request e Hreq Hapi | request Hreq Hapi
                      | request text Hreq Hapi Hno
                      | request text e Hreq Hapi Hdec];
      rewrite Hreq; simpl; try reflexivity; rewrite Hapi; simpl;
      try reflexivity.
    - rewrite (no_brace_pair_no_scan text Hno). reflexivity.
    - destruct (negb _ && _); [rewrite Hdec|]; reflexivity. }
  rewrite (plan_and_execute_gate json_loads json_text now isoformat _ _ _ _
             perms ["read"] _ log Hplan eq_refl).
  destruct (forallb _ ["read"]) eqn:Hall; [|reflexivity].
  exfalso. apply Hread.
  apply (proj1 (forallb_existsb_In ["read"] perms) Hall). left. reflexivity.
Qed.

End Planning.

Section Running.
Import Py.
Import Orchestrator.
Import Spec.

Variable self : t.
Variable context : value.

Lemma run_action_turn (name : string) (h : handler) (fields : pydict value)
    (results : pydict value) (log : list call) :
  if turn_ok (VDict fields) name
  then exists st log',
         run_action context name h (VDict fields) results log = (Ok st, log')
  else exists e,
         run_action context name h (VDict fields) results log = (Raise e, log).
Proof.
  unfold turn_ok, run_action, bind, lift, try_except, invoke, ret, get,
    setitem. simpl.
  destruct (lookup "parameters" fields) as [[]|]; simpl; eauto;
    try (destruct (h _); eauto; fail).
  destruct (lookup name kvs) as [[]|]; simpl; eauto;
    destruct (h _); eauto.
Qed.

Lemma evolved_turn_ok (touched : string -> bool) (plan plan' : value)
    (name : string) :
  evolved context touched plan plan' ->
  turn_ok plan' name = turn_ok plan name.
Proof.
  intros [_ _ _ He]. unfold turn_ok.
  destruct (field plan "parameters") as [[]|]; try (rewrite He; reflexivity).
  destruct He as (entries' & -> & _ & Hl). rewrite Hl.
  destruct (touched name); [|reflexivity].
  destruct (lookup name kvs) as [[]|]; reflexivity.
Qed.

Lemma runnable_evolved (touched : string -> bool) (plan plan' : value)
    (actions : list value) :
  evolved context touched plan plan' ->
  runnable self plan' actions = runnable self plan actions.
Proof.
  intros Hev. unfold runnable.
  induction actions as [|a rest IH]; simpl; [reflexivity|].
  rewrite IH. destruct a; try reflexivity.
  rewrite (evolved_turn_ok _ _ _ s Hev). reflexivity.
Qed.

(** The loop returns when every turn can be taken, and raises
    otherwise. *)
Lemma run_actions_runnable (actions : list value) :
  forall (fields : pydict value) (results : pydict value) (log : list call),
    if runnable self (VDict fields) actions
    then exists st log',
           run_actions self context actions (VDict fields) results log
           = (Ok st, log')
    else exists e log',
           run_actions self context actions (VDict fields) results log
           = (Raise e, log').
Proof.
  induction actions as [|a rest IH]; intros fields results log.
  - simpl. unfold ret. eauto.
  - change (runnable self (VDict fields) (a :: rest))
      with (hashable a
            && match a with
               | VStr name =>
                   if registered self name
                   then turn_ok (VDict fields) name else true
               | _ => true
               end
            && runnable self (VDict fields) rest).
    simpl run_actions. unfold bind at 1. unfold lift at 1.
    destruct a as [| | | |name| | |]; simpl;
      try apply IH; try (unfold bind; eauto; fail).
    fold (registered self name).
    destruct (registered self name) eqn:Hreg; [|apply IH].
    destruct (lookup name (available_actions self)) as [h|] eqn:Hh;
      [|apply registered_lookup in Hreg; contradiction].
    unfold bind.
    pose proof (run_action_turn name h fields results log) as Hturn.
    destruct (turn_ok (VDict fields) name); simpl.
    + destruct Hturn as (st1 & log1 & Hstep). rewrite Hstep.
      pose proof Hstep as Hinv.
      apply (run_action_inv context) in Hinv as (-> & _ & Hparams).
      cbn [fst snd].
      pose proof (evolved_write_back context fields name _ Hparams) as Hev1.
      destruct (evolved_dict _ _ _ _ Hev1) as [fields1 Hfields1].
      rewrite <- (runnable_evolved _ _ _ rest Hev1), Hfields1.
      apply IH.
    + destruct Hturn as (e & Hstep). rewrite Hstep. eauto.
Qed.

Lemma execute_plan_returns_runnable (plan : value) (log : list call) :
  (exists st log', _execute_plan self plan context log = (Ok st, log')) ->
  exists actions,
    plan_actions plan = Ok actions /\ runnable self plan actions = true.
Proof.
  intros (st & log' & Hrun).
  apply execute_plan_inv in Hrun as (fields & actions & -> & Hactions & Hrun).
  exists actions. split; [exact Hactions|].
  pose proof (run_actions_runnable actions fields [] log) as Hloop.
  destruct (runnable self (VDict fields) actions); [reflexivity|].
  destruct Hloop as (e & log2 & Hraise). congruence.
Qed.

(** X5.  [_execute_plan] returns exactly when the plan is an object whose
    [actions] can be iterated, no action is a list or an object, and for
    every registered action name [parameters] and the entry of the name
    are absent or objects; in every other case it raises. *)
Theorem execute_plan_returns_iff (plan : value) (log : list call) :
  (exists st log', _execute_plan self plan context log = (Ok st, log'))
  <-> exists actions,
        plan_actions plan = Ok actions
        /\ runnable self plan actions = true.
Proof.
  split.
  - apply execute_plan_returns_runnable.
  - intros (actions & Hactions & Hok).
    unfold _execute_plan, plan_actions, bind, lift in *.
    destruct plan; simpl in *; try discriminate.
    destruct (iter _) as [actions'|e]; simpl in *; [|discriminate].
    injection Hactions as ->.
    pose proof (run_actions_runnable actions kvs [] log) as Hloop.
    rewrite Hok in Hloop. exact Hloop.
Qed.

(** X6.  When [_execute_plan] returns, the handlers it has awaited are
    the registered names of the action list, once per occurrence and in
    the order of the list, each with its entry and the shared context;
    and [results] holds, for each of these names, what its handler
    returned or the error it raised, and no other key. *)
Theorem execute_plan_calls_and_results (plan plan' : value)
    (results : pydict value) (log log' : list call) :
  _execute_plan self plan context log = (Ok (plan', results), log') ->
  exists actions,
    plan_actions plan = Ok actions
    /\ log' = (log ++ calls_of self context plan actions)%list
    /\ forall x,
         lookup x results
         = if executed self actions x
           then option_map
                  (fun h : handler => recorded (h (params_for context plan x)))
                  (lookup x (available_actions self))
           else None.
Proof.
  intros Hrun.
  apply execute_plan_inv in Hrun as (fields & actions & -> & Hactions & Hrun).
  apply run_actions_inv in Hrun as [_ Hres Hlog _].
  exists actions. split; [exact Hactions|]. split; [exact Hlog|].
  intros x. rewrite Hres. reflexivity.
Qed.

Lemma plan_actions_evolved (touched : string -> bool) (plan plan' : value) :
  evolved context touched plan plan' ->
  (exists fields, plan = VDict fields) ->
  plan_actions plan' = plan_actions plan.
Proof.
  intros [[fields' ->] _ Hf _] [fields ->].
  unfold plan_actions, get.
  specialize (Hf "actions"). simpl in Hf. rewrite Hf by discriminate.
  reflexivity.
Qed.

(** X7.  Executing a plan a second time changes nothing more on the plan:
    on the plan object the first execution left, [_execute_plan] returns
    again, leaves the plan as it is, awaits the same handlers with the
    same [params] and files their results under the same keys. *)
Theorem execute_plan_twice (plan plan' : value) (results : pydict value)
    (log log' : list call) :
  _execute_plan self plan context log = (Ok (plan', results), log') ->
  forall log2,
  exists results2 calls,
    _execute_plan self plan' context log2
    = (Ok (plan', results2), (log2 ++ calls)%list)
    /\ log' = (log ++ calls)%list
    /\ forall x, lookup x results2 = None <-> lookup x results = None.
Proof.
  intros Hfirst log2.
  assert (Hreturns : exists st l,
            _execute_plan self plan context log = (Ok st, l)) by eauto.
  apply execute_plan_returns_runnable in Hreturns
    as (actions & Hactions & Hok).
  apply execute_plan_inv in Hfirst
    as (fields & actions' & -> & Hactions' & Hrun).
  rewrite Hactions in Hactions'. injection Hactions' as <-.
  apply run_actions_inv in Hrun as [Hev Hres Hlog Hent]. simpl in Hev.
  destruct (evolved_dict _ _ _ _ Hev) as [fields' ->].
  assert (Hactions2 : plan_actions (VDict fields') = Ok actions).
  { rewrite (plan_actions_evolved _ _ _ Hev); eauto. }
  pose proof (run_actions_runnable actions fields' [] log2) as Hloop.
  rewrite (runnable_evolved _ _ _ actions Hev), Hok in Hloop.
  destruct Hloop as ([plan2 results2] & log2' & Hsecond).
  pose proof (run_actions_inv self context _ _ _ _ _ _ Hsecond)
    as [_ Hres2 Hlog2 _].
  assert (Hsame : plan2 = VDict fields').
  { apply (run_actions_fixed self context _ _ _ _ _ _ Hsecond).
    intros x v Hx. rewrite (evolved_entry_of _ _ _ _ x Hev), Hx.
    destruct (entry_of (VDict fields) x) as [v0|]; simpl; [|discriminate].
    intros [= <-]. apply add_context_idem. }
  subst plan2.
  exists results2, (calls_of self context (VDict fields) actions).
  split; [|split].
  - unfold _execute_plan, bind, lift. unfold plan_actions in Hactions2.
    destruct (get (VDict fields') "actions" (VList [])) as [field_value|e];
      simpl in *; [|discriminate].
    rewrite Hactions2. simpl. rewrite Hsecond, Hlog2.
    rewrite (calls_of_evolved self context _ _ _ actions Hev). reflexivity.
  - exact Hlog.
  - intros x. simpl in Hres, Hres2. rewrite Hres, Hres2.
    unfold result_of. rewrite (evolved_params_for context _ _ _ x Hev).
    reflexivity.
Qed.

Lemma taken_evolved (touched : string -> bool) (plan plan' : value)
    (actions : list value) :
  evolved context touched plan plan' ->
  taken self plan' actions = taken self plan actions.
Proof.
  intros Hev. induction actions as [|a rest IH]; simpl; [reflexivity|].
  rewrite IH. destruct a; try reflexivity.
  rewrite (evolved_turn_ok _ _ _ s Hev). reflexivity.
Qed.

(** When every turn can be taken, the loop gets through all of them. *)
Lemma taken_runnable (plan : value) (actions : list value) :
  runnable self plan actions = true -> taken self plan actions = actions.
Proof.
  unfold runnable. induction actions as [|a rest IH]; simpl; [reflexivity|].
  intros Hok. apply andb_prop in Hok as [-> Hrest].
  rewrite (IH Hrest). reflexivity.
Qed.

(** Whether it returns or raises, the loop has awaited the handlers of the
    registered names among the actions it got through, and no other. *)
Lemma run_actions_log (actions : list value) :
  forall (fields : pydict value) (results : pydict value) (log : list call),
    snd (run_actions self context actions (VDict fields) results log)
    = (log ++ calls_of self context (VDict fields)
                       (taken self (VDict fields) actions))%list.
Proof.
  induction actions as [|a rest IH]; intros fields results log.
  - simpl. rewrite app_nil_r. reflexivity.
  - simpl run_actions. unfold bind at 1. unfold lift at 1.
    destruct a as [| | | |name| | |]; simpl;
      try apply IH; try (rewrite app_nil_r; reflexivity).
    fold (registered self name).
    destruct (registered self name) eqn:Hreg.
    2:{ simpl. rewrite Hreg. apply IH. }
    destruct (lookup name (available_actions self)) as [h|] eqn:Hh;
      [|apply registered_lookup in Hreg; contradiction].
    unfold bind.
    pose proof (run_action_turn name h fields results log) as Hturn.
    destruct (turn_ok (VDict fields) name); simpl.
    + destruct Hturn as (st1 & log1 & Hstep). rewrite Hstep, Hreg.
      pose proof Hstep as Hinv.
      apply (run_action_inv context) in Hinv as (-> & -> & Hparams).
      cbn [fst snd].
      pose proof (evolved_write_back context fields name _ Hparams) as Hev1.
      destruct (evolved_dict _ _ _ _ Hev1) as [fields1 Hfields1].
      rewrite <- (taken_evolved _ _ _ rest Hev1).
      rewrite <- (calls_of_evolved self context _ _ _ _ Hev1).
      rewrite Hfields1, IH, <- app_assoc. reflexivity.
    + destruct Hturn as (e & Hstep). rewrite Hstep. simpl.
      rewrite app_nil_r. reflexivity.
Qed.

Lemma execute_plan_log (plan : value) (log : list call) :
  snd (_execute_plan self plan context log)
  = (log ++ awaited self context plan)%list.
Proof.
  unfold _execute_plan, awaited, plan_actions, bind, lift.
  destruct plan; simpl; try (rewrite app_nil_r; reflexivity).
  destruct (iter _) as [actions|e]; simpl;
    [apply run_actions_log | rewrite app_nil_r; reflexivity].
Qed.

End Running.

(** ** Plans that require no permission *)

Section Unguarded.
Import Py.
Import Orchestrator.
Import Spec.

Variable json_loads : string -> result value.
Variable json_text : value -> string.
Variable now : Z.
Variable isoformat : Z -> string.

Local Abbreviation create_plan := (_create_plan json_loads json_text).
Local Abbreviation run := (plan_and_execute json_loads json_text now isoformat).
Local Abbreviation finish := (execute_and_respond json_text now isoformat).

(** C9.  A plan with no [required_permissions] field, or with an empty
    one, passes the check for every permission list of the caller, the
    empty one included, and its actions are executed: whatever the
    permissions, the loop goes on to execution and awaits the handler of
    every registered name of the action list, in order, up to the first
    turn that cannot be taken; when every turn can be taken, the outcome
    is the success payload, and its results hold, for each registered
    name of the list, what the handler returned or the error it
    raised. *)
Theorem no_required_permissions_pass (self : t) (user_query : string)
    (context : value) (history : list value) (perms : list string)
    (fields : pydict value) (log : list call) :
  create_plan self user_query context history = Ok (VDict fields) ->
  lookup "required_permissions" fields = None
  \/ lookup "required_permissions" fields = Some (VList []) ->
  _check_permissions (VDict fields) perms = Ok true
  /\ run self user_query context history perms log
     = finish self user_query context history (VDict fields) log
  /\ snd (run self user_query context history perms log)
     = (log ++ awaited self context (VDict fields))%list
  /\ (forall actions,
        plan_actions (VDict fields) = Ok actions ->
        runnable self (VDict fields) actions = true ->
        exists response plan' results,
          run self user_query context history perms log
          = (Ok (success_outcome now isoformat response plan' results),
             (log ++ calls_of self context (VDict fields) actions)%list)
          /\ forall x,
               lookup x results
               = if executed self actions x
                 then option_map
                        (fun h : handler =>
                           recorded (h (params_for context (VDict fields) x)))
                        (lookup x (available_actions self))
                 else None).
Proof.
  intros Hplan Hfield.
  assert (Hreq : get (VDict fields) "required_permissions" (VList [])
                 = Ok (strs [])).
  { unfold get. destruct Hfield as [-> | ->]; reflexivity. }
  assert (Hgo : run self user_query context history perms log
                = finish self user_query context history (VDict fields) log).
  { rewrite (plan_and_execute_gate _ _ _ _ _ _ _ _ perms _ _ log Hplan Hreq).
    reflexivity. }
  split; [|split; [exact Hgo|split]].
  - rewrite (check_permissions_strings _ _ perms Hreq). reflexivity.
  - rewrite Hgo, <- execute_plan_log.
    unfold execute_and_respond, try_except, bind, lift, ret.
    destruct (_execute_plan self (VDict fields) context log) as [[st|e] log'];
      [|reflexivity].
    destruct (_generate_response _ _ _ _ _); reflexivity.
  - intros actions Hactions Hok. rewrite Hgo.
    pose proof (run_actions_runnable self context actions fields [] log)
      as Hloop.
    rewrite Hok in Hloop. destruct Hloop as ([plan' results] & log' & Hrun).
    pose proof (run_actions_inv self context _ _ _ _ _ _ Hrun)
      as [_ Hres Hlog _].
    destruct (generate_response_returns json_text self user_query results
                                        history) as [response Hresp].
    exists response, plan', results. split.
    + unfold execute_and_respond, _execute_plan.
      unfold try_except, bind, lift, ret.
      unfold plan_actions in Hactions.
      destruct (get (VDict fields) "actions" (VList [])) as [field_value|e];
        simpl in Hactions; [|discriminate].
      cbv beta iota. rewrite Hactions. cbv beta iota. rewrite Hrun.
      cbn [fst snd]. rewrite Hresp, Hlog. reflexivity.
    + intros x. simpl in Hres. rewrite Hres. reflexivity.
Qed.

End Unguarded.

Section UnguardedExamples.
Import Py.
Import Orchestrator.
Import Scenario.

(** The language model names no permission and the caller has none: the
    search handler is awaited and its result is in the payload. *)
Lemma no_required_permissions_pass_witness :
  _check_permissions open_plan [] = Ok true
  /\ plan_and_execute unguarded_loads Demo.json_text clock Demo.isoformat
       unguarded "find our Q3 report" (VDict []) [] [] []
     = Spec.execute_and_respond Demo.json_text clock Demo.isoformat
         unguarded "find our Q3 report" (VDict []) []
         open_plan []
  /\ snd (plan_and_execute unguarded_loads Demo.json_text clock Demo.isoformat
            unguarded "find our Q3 report" (VDict []) [] [] [])
     = ([] ++ [Call "search_database" (VDict [("context", VDict [])])])%list
  /\ (forall actions,
        Spec.plan_actions open_plan = Ok actions ->
        Spec.runnable unguarded open_plan actions = true ->
        exists response plan' results,
          plan_and_execute unguarded_loads Demo.json_text clock
            Demo.isoformat unguarded "find our Q3 report" (VDict []) [] [] []
          = (Ok (success_outcome clock Demo.isoformat response plan' results),
             ([] ++ Spec.calls_of unguarded (VDict []) open_plan actions)%list)
          /\ forall x,
               Py.lookup x results
               = if Spec.executed unguarded actions x
                 then option_map
                        (fun h : handler =>
                           Spec.recorded
                             (h (Spec.params_for (VDict []) open_plan x)))
                        (Py.lookup x (available_actions unguarded))
                 else None).
Proof.
  apply (no_required_permissions_pass unguarded_loads Demo.json_text clock
           Demo.isoformat unguarded "find our Q3 report" (VDict []) [] []
           [("intent", VStr "search"); ("actions", strs ["search_database"])]
           []).
  - reflexivity.
  - left. reflexivity.
Defined.

End UnguardedExamples.


Section Scan.
Import Py.
Import Orchestrator.

Variable json_loads : string -> result value.

Lemma find_from_app (c : ascii) (a b : string) (i : Z) :
  0 <= i -> find_from c a i = -1 ->
  find_from c (a ++ b) i = find_from c b (i + Z.of_nat (String.length a)).
Proof.
  revert i. induction a as [|x a IH]; intros i Hi; simpl.
  - intros _. f_equal. lia.
  - destruct (Ascii.eqb x c); [lia|]. intros Hnone.
    rewrite IH by (lia || exact Hnone). f_equal. lia.
Qed.

Lemma rfind_from_app (c : ascii) (a b : string) (i last : Z) :
  rfind_from c (a ++ b) i last
  = rfind_from c b (i + Z.of_nat (String.length a)) (rfind_from c a i last).
Proof.
  revert i last. induction a as [|x a IH]; intros i last; simpl.
  - f_equal. lia.
  - rewrite IH. f_equal. lia.
Qed.

Lemma rfind_from_cases (c : ascii) (s : string) (i last : Z) :
  (rfind_from c s i last = last /\ forall n, String.get n s <> Some c)
  \/ exists n : nat, rfind_from c s i last = i + Z.of_nat n
                     /\ String.get n s = Some c.
Proof.
  revert i last. induction s as [|a s IH]; intros i last; simpl.
  - left. split; [reflexivity | discriminate].
  - destruct (IH (i + 1) (if Ascii.eqb a c then i else last))
      as [[Hlast Hnone]|(n & Hn & Hget)].
    + destruct (Ascii.eqb_spec a c) as [->|Hne].
      * right. exists 0%nat. split; [lia | reflexivity].
      * left. split; [exact Hlast|].
        intros [|n]; [congruence | apply Hnone].
    + right. exists (S n). split; [lia | exact Hget].
Qed.

Lemma rfind_from_absent (c : ascii) (s : string) (i last : Z) :
  rfind c s = -1 -> rfind_from c s i last = last.
Proof.
  unfold rfind. intros Hnone.
  destruct (rfind_from_cases c s 0 (-1)) as [[_ Habsent]|(n & Hn & _)]; [|lia].
  destruct (rfind_from_cases c s i last) as [[Hlast _]|(n & _ & Hget)];
    [exact Hlast|].
  exfalso. exact (Habsent n Hget).
Qed.

Lemma substring_prefix (b rest : string) :
  String.substring 0 (String.length b) (b ++ rest) = b.
Proof.
  induction b as [|x b IH]; simpl.
  - destruct rest; reflexivity.
  - rewrite IH. reflexivity.
Qed.

Lemma substring_middle (a b rest : string) :
  String.substring (String.length a) (String.length b) (a ++ b ++ rest) = b.
Proof.
  induction a as [|x a IH]; [exact (substring_prefix b rest) | exact IH].
Qed.

Lemma string_app_assoc (a b c : string) : (a ++ b) ++ c = a ++ b ++ c.
Proof.
  induction a as [|x a IH]; [reflexivity|].
  change (String x ((a ++ b) ++ c) = String x (a ++ b ++ c)).
  f_equal. exact IH.
Qed.

Lemma length_append (a b : string) :
  String.length (a ++ b) = (String.length a + String.length b)%nat.
Proof.
  induction a as [|x a IH]; [reflexivity|].
  change (S (String.length (a ++ b))
          = S (String.length a + String.length b)).
  f_equal. exact IH.
Qed.

(** X8.  The scan hands to the decoder exactly the text from the first
    opening brace to the last closing brace: commentary before the object
    that holds no opening brace, and commentary after it that holds no
    closing brace, are cut away. *)
Theorem extract_plan_cuts_commentary (before inner after : string) :
  find "{"%char before = -1 ->
  rfind "}"%char after = -1 ->
  extract_plan json_loads (Some (before ++ "{" ++ inner ++ "}" ++ after))
  = json_loads ("{" ++ inner ++ "}").
Proof.
  intros Hbefore Hafter. unfold extract_plan.
  set (text := before ++ "{" ++ inner ++ "}" ++ after).
  assert (Hstart : find "{"%char text = Z.of_nat (String.length before)).
  { unfold find, text in *. rewrite find_from_app by (lia || exact Hbefore).
    reflexivity. }
  assert (Hend : rfind "}"%char text
                 = Z.of_nat (String.length before)
                   + Z.of_nat (String.length ("{" ++ inner)) ).
  { unfold rfind, text. rewrite rfind_from_app.
    change ("{" ++ inner ++ "}" ++ after)
      with (String "{"%char (inner ++ String "}"%char after)).
    cbn [rfind_from]. change (Ascii.eqb "{"%char "}"%char) with false.
    cbv iota. rewrite rfind_from_app. cbn [rfind_from].
    rewrite Ascii.eqb_refl, (rfind_from_absent _ _ _ _ Hafter).
    change (String.length ("{" ++ inner)) with (S (String.length inner)).
    lia. }
  rewrite Hstart, Hend.
  replace (negb (Z.of_nat (String.length before) =? -1)
           && (Z.of_nat (String.length before)
               + Z.of_nat (String.length ("{" ++ inner)) + 1
               >? Z.of_nat (String.length before)))
    with true.
  - f_equal. unfold slice, text.
    replace (Z.to_nat (Z.of_nat (String.length before)
                       + Z.of_nat (String.length ("{" ++ inner)) + 1
                       - Z.of_nat (String.length before)))
      with (String.length ("{" ++ inner ++ "}")).
    + rewrite Nat2Z.id.
      replace (before ++ "{" ++ inner ++ "}" ++ after)
        with (before ++ ("{" ++ inner ++ "}") ++ after).
      * apply substring_middle.
      * f_equal. rewrite !string_app_assoc. reflexivity.
    + change (String.length ("{" ++ inner ++ "}"))
        with (S (String.length (inner ++ "}"))).
      change (String.length ("{" ++ inner)) with (S (String.length inner)).
      rewrite (length_append inner "}").
      change (String.length "}") with 1%nat. lia.
  - symmetry. apply andb_true_iff. split.
    + apply negb_true_iff, Z.eqb_neq. lia.
    + rewrite Z.gtb_ltb. apply Z.ltb_lt. lia.
Qed.


Lemma find_from_first (c : ascii) (s : string) (n : nat) (i : Z) :
  String.get n s = Some c ->
  i <= find_from c s i <= i + Z.of_nat n.
Proof.
  revert n i. induction s as [|a s IH]; intros n i; simpl.
  - destruct n; discriminate.
  - destruct (Ascii.eqb_spec a c) as [->|Hne]; [lia|].
    destruct n as [|n]; [intros [= Heq]; contradiction|].
    intros Hget. specialize (IH n (i + 1) Hget). lia.
Qed.

Lemma rfind_from_last (c : ascii) (s : string) (n : nat) (i last : Z) :
  String.get n s = Some c ->
  i + Z.of_nat n <= rfind_from c s i last.
Proof.
  revert n i last. induction s as [|a s IH]; intros n i last; simpl.
  - destruct n; discriminate.
  - destruct n as [|n].
    + intros [= ->]. rewrite Ascii.eqb_refl.
      destruct (rfind_from_cases c s (i + 1) i) as [[-> _]|(m & -> & _)]; lia.
    + intros Hget.
      specialize (IH n (i + 1) (if Ascii.eqb a c then i else last) Hget). lia.
Qed.

(** X24.  Plan creation uses the plan of the language model whenever
    there is one: when the reply holds an opening brace before a closing
    brace and the text from the first opening brace to the last closing
    brace decodes, the decoded object is the plan, not the fallback. *)
Theorem create_plan_uses_reply (json_text : value -> string) (self : t)
    (user_query : string) (context : value) (history : list value)
    (request : chat_request) (text : string) (plan : value) :
  plan_request json_text self user_query context history = Ok request ->
  client self request = Ok (Some text) ->
  Spec.brace_pair text ->
  json_loads (slice text (find "{"%char text) (rfind "}"%char text + 1))
  = Ok plan ->
  _create_plan json_loads json_text self user_query context history = Ok plan.
Proof.
  intros Hrequest Hreply (i & j & Hij & Hi & Hj) Hdecode.
  unfold _create_plan, try_result. rewrite Hrequest. simpl.
  rewrite Hreply. simpl.
  pose proof (find_from_first _ _ _ 0 Hi) as Hfirst.
  pose proof (rfind_from_last _ _ _ 0 (-1) Hj) as Hlast.
  fold (find "{"%char text) in Hfirst. fold (rfind "}"%char text) in Hlast.
  replace (negb (find "{"%char text =? -1)
           && (rfind "}"%char text + 1 >? find "{"%char text)) with true.
  - rewrite Hdecode. reflexivity.
  - symmetry. apply andb_true_iff. split.
    + apply negb_true_iff, Z.eqb_neq. lia.
    + rewrite Z.gtb_ltb. apply Z.ltb_lt. lia.
Qed.

End Scan.

(** ** Further properties of the token service *)

Section Credentials.
Import Py.
Import Auth.
Import Spec.

Variable int_literal : string -> option Z.
Variable sha256 : string -> string.
Variable SECRET_KEY : string.
Variable bcrypt_hash : string -> string.
Variable bcrypt_verify : string -> string -> result bool.

Local Abbreviation issue := (create_access_token SECRET_KEY).
Local Abbreviation validate :=
  (get_current_user int_literal sha256 SECRET_KEY bcrypt_hash).
Local Abbreviation users := (fake_users_db bcrypt_hash).
Local Abbreviation login :=
  (login_for_access_token SECRET_KEY bcrypt_hash bcrypt_verify).
Local Abbreviation to_int := (py_int int_literal).
Local Abbreviation block := (hmac_block sha256).

(** Every row of the credential store is filed under its own address. *)
Lemma users_keyed_by_email (key : string) (u : user) :
  users !! key = Some u -> email u = key.
Proof.
  unfold fake_users_db. intros Hrow.
  apply lookup_singleton_Some in Hrow as [<- <-]. reflexivity.
Qed.











(** X12.  A login that succeeds answers with a bearer token that
    validates to the user who logged in, at every instant of the next
    thirty minutes; the user is the row of the address given and the
    password has verified against its hash. *)
Theorem login_then_validate (request : LoginRequest) (utcnow : Z)
    (answer : Token) :
  login request utcnow = Respond answer ->
  exists u,
    users !! login_email request = Some u
    /\ bcrypt_verify (login_password request) (hashed_password u) = Ok true
    /\ token_type answer = "bearer"
    /\ token_user answer
       = [("name", full_name u); ("email", email u); ("role", role u)]
    /\ forall at_time,
         at_time <= utcnow + 1800 ->
         validate (access_token answer) at_time = Respond u.
Proof.
  unfold login_for_access_token, verify_password.
  destruct (users !! login_email request) as [u|] eqn:Hrow; [|discriminate].
  destruct (bcrypt_verify _ _) as [[|]|e] eqn:Hverify; try discriminate.
  rewrite issued_token.
  intros [= <-]. exists u. cbn [access_token token_type token_user].
  repeat split; try assumption.
  intros at_time Hat.
  pose proof (users_keyed_by_email _ _ Hrow) as Hemail.
  rewrite validate_issued.
  assert (Hlive : (utcnow + minutes ACCESS_TOKEN_EXPIRE_MINUTES <? at_time)
                  = false).
  { apply Z.ltb_ge.
    change (minutes ACCESS_TOKEN_EXPIRE_MINUTES) with 1800. lia. }
  rewrite Hlive, Hemail, Hrow. reflexivity.
Qed.

(** X13.  An unknown address and a password that verifies as wrong are
    refused alike: the same 401 with the same detail, and no token.  A
    password on which the hashing context raises is not refused: the
    exception leaves the endpoint uncaught. *)
Theorem login_refusal (request : LoginRequest) (utcnow : Z) :
  (users !! login_email request = None
   \/ (exists u,
         users !! login_email request = Some u
         /\ bcrypt_verify (login_password request) (hashed_password u)
            = Ok false)
   ->
   login request utcnow
   = Abort {| status_code := 401;
              detail := "Incorrect email or password";
              headers := [("WWW-Authenticate", "Bearer")] |})
  /\ (forall u e,
        users !! login_email request = Some u ->
        bcrypt_verify (login_password request) (hashed_password u) = Raise e ->
        login request utcnow = Uncaught e).
Proof.
  unfold login_for_access_token, verify_password. split.
  - intros [Hrow | (u & Hrow & Hverify)]; rewrite Hrow; [reflexivity|].
    rewrite Hverify. reflexivity.
  - intros u e Hrow Hverify. rewrite Hrow, Hverify. reflexivity.
Qed.

End Credentials.

(** ** Further properties of the query endpoint *)

Section Answers.
Import Py.
Import Orchestrator.
Import Auth.
Import Api.
Import Spec.

Variable json_loads : string -> result value.
Variable json_text : value -> string.
Variable now : Z.
Variable isoformat : Z -> string.
Variable str : value -> string.
Variable int_literal : string -> option Z.
Variable sha256 : string -> string.
Variable SECRET_KEY : string.
Variable bcrypt_hash : string -> string.

Local Abbreviation validate :=
  (get_current_user int_literal sha256 SECRET_KEY bcrypt_hash).
Local Abbreviation post :=
  (post_query now isoformat str int_literal sha256 SECRET_KEY bcrypt_hash).

Lemma jsonable_encoder_encodable (v : value) :
  first_unserialisable (jsonable_encoder isoformat v) = None.
Proof.
  revert v. fix IH 1. intros [| | | | |xs|kvs|t]; simpl; try reflexivity.
  - induction xs as [|x xs IHxs]; simpl; [reflexivity|].
    rewrite (IH x). exact IHxs.
  - induction kvs as [|[k x] kvs IHkvs]; simpl; [reflexivity|].
    rewrite (IH x). exact IHkvs.
Qed.

(** X14.  The context the endpoint hands to the orchestrator can always
    be encoded, whatever the user record holds: building the planning
    prompt never fails on the context, so a well-formed history always
    reaches the language model. *)
Theorem safe_context_encodable (self : t) (user_query : string)
    (current_user : value) (history : list value) (msgs : list value) :
  history_messages history = Ok msgs ->
  json_dumps json_text (safe_context now isoformat current_user)
  = Ok (json_text (safe_context now isoformat current_user))
  /\ exists request,
       plan_request json_text self user_query
                    (safe_context now isoformat current_user) history
       = Ok request.
Proof.
  intros Hmsgs.
  assert (Hdumps : json_dumps json_text (safe_context now isoformat current_user)
                   = Ok (json_text (safe_context now isoformat current_user))).
  { unfold json_dumps, safe_context.
    rewrite jsonable_encoder_encodable. reflexivity. }
  split; [exact Hdumps|].
  unfold plan_request. rewrite Hmsgs. simpl. rewrite Hdumps. simpl. eauto.
Qed.

(** The loop's outcome is always a dictionary. *)
Lemma plan_and_execute_dict (self : t) (user_query : string) (context : value)
    (history : list value) (perms : list string) (log : list call) :
  exists fields log',
    plan_and_execute json_loads json_text now isoformat self user_query
                     context history perms log
    = (Ok (VDict fields), log').
Proof.
  destruct (create_plan_returns json_loads json_text self user_query context
                                history) as [plan Hplan].
  rewrite (plan_and_execute_cases json_loads json_text now isoformat _ _ _ _
             perms _ log Hplan).
  destruct (_check_permissions plan perms) as [[|]|e].
  - unfold execute_and_respond, try_except, bind, lift, ret.
    destruct (_execute_plan self plan context log) as [[st|e] log'].
    + destruct (generate_response_returns json_text self user_query (snd st)
                                          history) as [response ->].
      unfold success_outcome. eauto.
    + unfold orchestration_error. eauto.
  - destruct (get plan "required_permissions" (VList []));
      unfold insufficient_permissions, orchestration_error; eauto.
  - unfold orchestration_error. eauto.
Qed.

(** X17.  Every outcome of the loop is a dictionary with a boolean
    "success": when it is true the outcome has exactly the keys success,
    response, plan, results and timestamp; when it is false it carries an
    "error" text. *)
Theorem plan_and_execute_outcome_shape (self : t) (user_query : string)
    (context : value) (history : list value) (perms : list string)
    (log : list call) :
  exists fields log',
    plan_and_execute json_loads json_text now isoformat self user_query
                     context history perms log
    = (Ok (VDict fields), log')
    /\ (lookup "success" fields = Some (VBool true)
        /\ keys fields
           = ["success"; "response"; "plan"; "results"; "timestamp"]
        \/ lookup "success" fields = Some (VBool false)
           /\ exists text, lookup "error" fields = Some (VStr text)).
Proof.
  destruct (create_plan_returns json_loads json_text self user_query context
                                history) as [plan Hplan].
  rewrite (plan_and_execute_cases json_loads json_text now isoformat _ _ _ _
             perms _ log Hplan).
  destruct (_check_permissions plan perms) as [[|]|e].
  - unfold execute_and_respond, try_except, bind, lift, ret.
    destruct (_execute_plan self plan context log) as [[st|e] log'].
    + destruct (generate_response_returns json_text self user_query (snd st)
                                          history) as [response ->].
      eexists. eexists. split; [reflexivity|]. left. split; reflexivity.
    + eexists. eexists. split; [reflexivity|]. right. simpl. eauto.
  - destruct (get plan "required_permissions" (VList []));
      eexists; eexists; (split; [reflexivity|]); right; simpl; eauto.
  - eexists. eexists. split; [reflexivity|]. right. simpl. eauto.
Qed.

(** X15.  Behind the orchestrator of the service the endpoint never
    answers 500 to an authenticated user: whatever the query, the history
    and the language model do, the answer is the formatted response built
    from the loop's outcome. *)
Theorem query_always_answered (self : t) (tok : token) (u : user)
    (request : QueryRequest) (log : list call) :
  validate tok now = Respond u ->
  exists outcome text log',
    plan_and_execute json_loads json_text now isoformat self (query request)
      (safe_context now isoformat (user_value u))
      (conversation_history request) admin_permissions log
    = (Ok outcome, log')
    /\ final_text str outcome = Ok text
    /\ post (plan_and_execute json_loads json_text now isoformat self)
            tok request log
       = (Ok (Respond (VDict [("content", text);
                              ("response", text);
                              ("role", VStr "assistant");
                              ("timestamp", VStr (isoformat now))])), log').
Proof.
  intros Hauth.
  destruct (plan_and_execute_dict self (query request)
              (safe_context now isoformat (user_value u))
              (conversation_history request) admin_permissions log)
    as (fields & log' & Hrun).
  assert (Htext : exists text, final_text str (VDict fields) = Ok text)
    by (simpl; eauto).
  destruct Htext as [text Htext].
  exists (VDict fields), text, log'. split; [exact Hrun|].
  split; [exact Htext|].
  unfold post_query. rewrite Hauth.
  unfold process_query, try_except, bind, lift, ret.
  change (get (user_value u) "email" VNone) with (Ok (VStr (email u))).
  cbv iota beta. rewrite Hrun, Htext. reflexivity.
Qed.

(** How the three kinds of outcome reach the client: the apology of an
    orchestration error as it is, a refusal as the text rendering of the
    whole failure dictionary. *)
Lemma failure_texts (e : exn) (required : value) :
  final_text str (orchestration_error e)
  = Ok (VStr "I apologize, but I encountered an error processing your request. Please try again.")
  /\ final_text str (insufficient_permissions required)
     = Ok (VStr (str (insufficient_permissions required))).
Proof. split; reflexivity. Qed.

Lemma validation_fault (tok : token) (e : HTTPException) :
  validate tok now = Abort e -> e = credentials_exception.
Proof.
  unfold get_current_user.
  destruct (jwt_decode _ _ _ _ _ _) as [payload|e0].
  - destruct (lookup "sub" payload) as [[]|];
      try (intros [= <-]; reflexivity).
    destruct (fake_users_db bcrypt_hash !! s); [discriminate|].
    intros [= <-]. reflexivity.
  - destruct (exn_cls e0); try discriminate. intros [= <-]. reflexivity.
Qed.

(** X16.  A request whose token does not validate is not served: it is
    answered with the generic 401, or, when the validation ends with an
    exception nothing catches, the request ends with that exception; in
    both cases, whatever the orchestrator behind the endpoint, it is not
    awaited. *)
Theorem unauthenticated_query_rejected
    (plan_and_execute : orchestrator_method) (tok : token)
    (request : QueryRequest) (log : list call) :
  (forall u, validate tok now <> Respond u) ->
  post plan_and_execute tok request log
  = match validate tok now with
    | Uncaught e => (Ok (Uncaught e), log)
    | _ =>
        (Ok (Abort {| status_code := 401;
                      detail := "Could not validate credentials";
                      headers := [("WWW-Authenticate", "Bearer")] |}), log)
    end.
Proof.
  intros Hno. unfold post_query.
  destruct (validate tok now) as [u|e|e] eqn:Hv.
  - exfalso. exact (Hno u eq_refl).
  - rewrite (validation_fault tok e Hv). reflexivity.
  - reflexivity.
Qed.

End Answers.

(** ** Further properties of the session store *)

Section Store.
Import Py.
Import Session.

Variable isoformat : Z -> string.
Variable fromisoformat : string -> option Z.

Lemma encodable_dict (kvs : pydict value) :
  first_unserialisable (VDict kvs) = None
  <-> forall k v, In (k, v) kvs -> first_unserialisable v = None.
Proof.
  simpl. induction kvs as [|[k0 v0] kvs IH]; simpl.
  - split; [intros _ k v [] | reflexivity].
  - destruct (first_unserialisable v0) eqn:Hv0.
    + split; [discriminate|]. intros Hall.
      rewrite <- Hv0. apply (Hall k0 v0). left. reflexivity.
    + rewrite IH. split.
      * intros Hall k v [[= <- <-]|Hin]; [exact Hv0 | exact (Hall k v Hin)].
      * intros Hall k v Hin. apply (Hall k v). right. exact Hin.
Qed.

Lemma in_assign_inv {A} (k : string) (v : A) (d : pydict A) (k1 : string)
    (v1 : A) :
  In (k1, v1) (assign k v d) -> In (k1, v1) d \/ v1 = v.
Proof.
  induction d as [|[k0 v0] d IH]; simpl.
  - intros [[= <- <-]|[]]. right. reflexivity.
  - destruct (String.eqb k k0).
    + intros [[= <- <-]|Hin]; [right; reflexivity | left; right; exact Hin].
    + intros [Heq|Hin]; [left; left; exact Heq|].
      destruct (IH Hin) as [H|H]; [left; right; exact H | right; exact H].
Qed.

Lemma encodable_assign (k : string) (v : value) (kvs : pydict value) :
  first_unserialisable (VDict kvs) = None ->
  first_unserialisable v = None ->
  first_unserialisable (VDict (assign k v kvs)) = None.
Proof.
  rewrite !encodable_dict. intros Hall Hv k1 v1 Hin.
  destruct (in_assign_inv _ _ _ _ _ Hin) as [Hold| ->];
    [exact (Hall k1 v1 Hold) | exact Hv].
Qed.

Lemma lookup_In {A} (k : string) (v : A) (d : pydict A) :
  lookup k d = Some v -> exists k', In (k', v) d.
Proof.
  induction d as [|[k0 v0] d IH]; simpl; [discriminate|].
  destruct (String.eqb k k0).
  - intros [= <-]. exists k0. left. reflexivity.
  - intros H. destruct (IH H) as [k' Hin]. exists k'. right. exact Hin.
Qed.

Lemma encodable_names (l : list string) :
  first_unserialisable (VList (map VStr l)) = None.
Proof. simpl. induction l as [|x l IH]; simpl; [reflexivity | exact IH]. Qed.

Lemma get_session_live (session_id : string) (now : Z) (db : store)
    (document : value) (expires : Z) :
  db !! session_id = Some (Entry document expires) ->
  get_session session_id now db
  = if now <? expires
    then (Some document,
          <[session_id := Entry document (now + session_timeout)]> db)
    else (None, db).
Proof.
  intros Hrow. unfold get_session, redis_get, redis_expire, live.
  rewrite Hrow. simpl. destruct (now <? expires); reflexivity.
Qed.

(** X18.  A session created from a profile whose preferences can be
    encoded is stored under the identifier returned; read at any instant
    before an hour has passed it holds that profile, an empty history and
    an empty context, and read after the hour it is absent. *)
Theorem session_round_trip (uid : string) (profile : UserProfile) (now : Z)
    (db : store) :
  first_unserialisable (VDict (preferences profile)) = None ->
  exists session_id db',
    create_session isoformat uid profile now db = (Ok session_id, db')
    /\ (forall later,
          later < now + 3600 ->
          fst (get_session session_id later db')
          = Some (VDict [("user_profile", UserProfile_dict profile);
                         ("conversation_history", VList []);
                         ("context", VDict []);
                         ("created_at", VStr (isoformat now));
                         ("last_activity", VStr (isoformat now))]))
    /\ (forall later,
          now + 3600 <= later ->
          get_session session_id later db' = (None, db')).
Proof.
  intros Hprefs. unfold create_session, json_document.
  assert (Hdoc : forall document,
            document = VDict [("user_profile", UserProfile_dict profile);
                              ("conversation_history", VList []);
                              ("context", VDict []);
                              ("created_at", VStr (isoformat now));
                              ("last_activity", VStr (isoformat now))] ->
            first_unserialisable document = None).
  { intros document ->. unfold UserProfile_dict.
    change (first_unserialisable (VDict (preferences profile))) with
      (fold_right (fun kv acc => match first_unserialisable (snd kv) with
                                 | Some u => Some u
                                 | None => acc
                                 end) None (preferences profile)) in Hprefs.
    simpl. rewrite Hprefs.
    pose proof (encodable_names (intents profile)) as Hintents.
    simpl in Hintents. rewrite Hintents. reflexivity. }
  rewrite (Hdoc _ eq_refl). eexists. eexists. split; [reflexivity|].
  unfold redis_setex. split.
  - intros later Hlater.
    rewrite (get_session_live _ later _ _ _ (lookup_insert_eq _ _ _)).
    unfold session_timeout.
    destruct (Z.ltb_spec later (now + 3600)); [reflexivity | lia].
  - intros later Hlater.
    rewrite (get_session_live _ later _ _ _ (lookup_insert_eq _ _ _)).
    unfold session_timeout.
    destruct (Z.ltb_spec later (now + 3600)); [lia | reflexivity].
Qed.

(** X19.  Reading a session pushes its expiry an hour beyond the read:
    after a read at [t1] that found the session, a read before
    [t1 + 3600] finds the same document, however long ago the session was
    written, and a read from [t1 + 3600] on finds nothing. *)
Theorem get_session_refreshes (session_id : string) (t1 : Z) (db db1 : store)
    (document : value) :
  get_session session_id t1 db = (Some document, db1) ->
  (forall t2, t2 < t1 + 3600 ->
              fst (get_session session_id t2 db1) = Some document)
  /\ (forall t2, t1 + 3600 <= t2 ->
                 get_session session_id t2 db1 = (None, db1)).
Proof.
  unfold get_session at 1. unfold redis_get, redis_expire, live.
  destruct (db !! session_id) as [[doc0 expires]|] eqn:Hrow; [|discriminate].
  simpl. destruct (t1 <? expires); [|discriminate].
  intros [= <- <-]. unfold session_timeout. split; intros t2 Ht2;
    rewrite (get_session_live _ t2 _ _ _ (lookup_insert_eq _ _ _));
    destruct (Z.ltb_spec t2 (t1 + 3600)); try lia; reflexivity.
Qed.

(** X20.  After [end_session] the session is gone at once, whatever its
    remaining lifetime, and every other session reads as before. *)
Theorem end_session_removes (session_id : string) (now : Z) (db : store) :
  get_session session_id now (end_session session_id db)
  = (None, end_session session_id db)
  /\ forall other,
       other <> session_id ->
       fst (get_session other now (end_session session_id db))
       = fst (get_session other now db).
Proof.
  unfold end_session, redis_delete, get_session, redis_get. split.
  - rewrite lookup_delete_eq. reflexivity.
  - intros other Hne. rewrite lookup_delete_ne by congruence.
    destruct (db !! other) as [e|]; [|reflexivity].
    destruct (live now e); reflexivity.
Qed.

(** X21.  On a session that is absent or has lapsed every operation is a
    silent no-op: the updates return without writing, the history reads
    as empty and the context as the empty dictionary, and the store is
    left as it was. *)
Theorem missing_session_noop (session_id : string) (now : Z) (db : store)
    (message : Message) (limit : Z) (context_key : string)
    (context_value : value) :
  redis_get session_id now db = None ->
  get_session session_id now db = (None, db)
  /\ update_conversation isoformat session_id message now db = (Ok tt, db)
  /\ get_conversation_history fromisoformat session_id limit now db
     = (Ok [], db)
  /\ update_context isoformat session_id context_key context_value now db
     = (Ok tt, db)
  /\ get_context session_id now db = (Ok (VDict []), db).
Proof.
  intros Hnone.
  assert (Hget : get_session session_id now db = (None, db))
    by (unfold get_session; rewrite Hnone; reflexivity).
  unfold update_conversation, get_conversation_history, update_context,
    get_context.
  rewrite Hget. repeat split.
Qed.


Lemma for_each_length {A B} (f : A -> result B) (l : list A) (r : list B) :
  for_each f l = Ok r -> length r = length l.
Proof.
  revert r. induction l as [|x l IH]; intros r; simpl.
  - intros [= <-]. reflexivity.
  - destruct (f x); simpl; [|discriminate].
    destruct (for_each f l) as [ys|]; simpl; [|discriminate].
    intros [= <-]. simpl. rewrite (IH ys eq_refl). reflexivity.
Qed.

(** X22.  With a positive limit the history read is the tail of the
    stored list: the last [min N limit] stored messages, validated one by
    one in their stored order. *)
Theorem history_tail (session_id : string) (limit now : Z) (db : store)
    (fields : pydict value) (msgs : list value) :
  redis_get session_id now db = Some (VDict fields) ->
  lookup "conversation_history" fields = Some (VList msgs) ->
  0 < limit ->
  fst (get_conversation_history fromisoformat session_id limit now db)
  = for_each (Message_of fromisoformat)
      (drop (length msgs - Z.to_nat (Z.min (Z.of_nat (length msgs)) limit))
            msgs)
  /\ forall returned,
       fst (get_conversation_history fromisoformat session_id limit now db)
       = Ok returned ->
       Z.of_nat (length returned) = Z.min (Z.of_nat (length msgs)) limit.
Proof.
  intros Hlive Hhistory Hlimit.
  assert (Hread :
    fst (get_conversation_history fromisoformat session_id limit now db)
    = for_each (Message_of fromisoformat) (slice_from (- limit) msgs)).
  { unfold get_conversation_history, get_session. rewrite Hlive.
    destruct fields as [|kv fields]; [discriminate|].
    simpl truthy. cbv iota. unfold getitem. rewrite Hhistory.
    reflexivity. }
  destruct (slice_from_positive limit msgs Hlimit) as [Hslice Hlen].
  split.
  - rewrite Hread, Hslice. reflexivity.
  - intros returned Hreturned. rewrite Hread in Hreturned.
    apply for_each_length in Hreturned. rewrite Hreturned. exact Hlen.
Qed.

(** X23.  Setting a context value on a live session whose document and
    new value can be encoded stores it: a read of the context within the
    hour returns the old context with the key set to the value, every
    other key as it was. *)
Theorem update_context_round_trip (session_id context_key : string)
    (context_value : value) (now : Z) (db : store) (fields : pydict value)
    (context : pydict value) :
  redis_get session_id now db = Some (VDict fields) ->
  lookup "context" fields = Some (VDict context) ->
  first_unserialisable (VDict fields) = None ->
  first_unserialisable context_value = None ->
  exists db',
    update_context isoformat session_id context_key context_value now db
    = (Ok tt, db')
    /\ forall later,
         later < now + 3600 ->
         fst (get_context session_id later db')
         = Ok (VDict (assign context_key context_value context))
         /\ lookup context_key (assign context_key context_value context)
            = Some context_value
         /\ forall k, k <> context_key ->
              lookup k (assign context_key context_value context)
              = lookup k context.
Proof.
  intros Hlive Hcontext Hfields Hvalue.
  assert (Hold : first_unserialisable (VDict context) = None).
  { destruct (lookup_In _ _ _ Hcontext) as [k' Hin].
    exact (proj1 (encodable_dict fields) Hfields k' _ Hin). }
  assert (Hnew : first_unserialisable
                   (VDict (assign context_key context_value context)) = None)
    by (apply encodable_assign; assumption).
  assert (Hdoc : first_unserialisable
                   (VDict (assign "last_activity" (VStr (isoformat now))
                             (assign "context"
                                (VDict (assign context_key context_value
                                               context)) fields))) = None).
  { apply encodable_assign; [|reflexivity].
    apply encodable_assign; assumption. }
  unfold update_context, get_session. rewrite Hlive.
  destruct fields as [|kv fields]; [discriminate|].
  simpl truthy. cbv iota. unfold getitem. rewrite Hcontext.
  cbn [rbind setitem]. unfold json_document. rewrite Hdoc.
  eexists. split; [reflexivity|].
  intros later Hlater. split; [|split].
  - unfold get_context, redis_setex.
    rewrite (get_session_live _ later _ _ _ (lookup_insert_eq _ _ _)).
    unfold session_timeout.
    destruct (Z.ltb_spec later (now + 3600)); [|lia].
    cbn [fst]. 
    assert (Htruthy : forall k v d, truthy (VDict (assign k v d)) = true).
    { intros k v [|[k0 v0] d]; simpl; [reflexivity|].
      destruct (String.eqb k k0); reflexivity. }
    rewrite Htruthy. unfold get.
    rewrite lookup_assign_ne by discriminate.
    rewrite lookup_assign_eq. reflexivity.
  - apply lookup_assign_eq.
  - intros k Hk. apply lookup_assign_ne, Hk.
Qed.


(** X25.  [update_conversation] never stores a message: whatever the
    session and the message, the store afterwards is the one a plain read
    leaves, and on a live session with a stored history list the call
    raises a [TypeError], the instant of the message having no JSON
    encoding. *)
Theorem update_conversation_never_stores (session_id : string)
    (message : Message) (now : Z) (db : store) :
  snd (update_conversation isoformat session_id message now db)
  = snd (get_session session_id now db)
  /\ forall fields msgs,
       redis_get session_id now db = Some (VDict fields) ->
       lookup "conversation_history" fields = Some (VList msgs) ->
       exists e,
         fst (update_conversation isoformat session_id message now db)
         = Raise e
         /\ exn_cls e = TypeError.
Proof.
  split; [apply update_conversation_stores_nothing|].
  intros fields msgs Hlive Hhistory.
  unfold update_conversation, get_session. rewrite Hlive.
  destruct fields as [|kv fields]; [discriminate|].
  simpl truthy. cbv iota. unfold getitem. rewrite Hhistory.
  cbn [rbind append setitem]. unfold json_document.
  destruct (first_unserialisable _) as [u|] eqn:Hdoc.
  - exists (not_serializable u). split; reflexivity.
  - exfalso. revert Hdoc.
    apply (unserialisable_in_dict _ "conversation_history"
             (VList (msgs ++ [Message_dict message]))).
    + apply in_assign_other; [discriminate | apply in_assign].
    + apply (unserialisable_in_list _ (Message_dict message)).
      * apply in_or_app. right. left. reflexivity.
      * rewrite Message_dict_unserialisable. discriminate.
Qed.

End Store.

(** ** The further properties on concrete inputs *)

Section FurtherExamples.
Import Py.
Import Orchestrator.
Import Scenario.

Lemma check_permissions_monotone_witness :
  _check_permissions delete_plan ["delete"; "write"; "read"] = Ok true.
Proof.
  apply (check_permissions_monotone delete_plan ["read"; "delete"]
           ["delete"; "write"; "read"]).
  - intros p. simpl. tauto.
  - reflexivity.
Defined.

(** A malformed message older than the last five is not looked at. *)
Lemma history_window_witness :
  _create_plan deleting_loads Demo.json_text deleting "delete the Q3 report"
    (VDict [])
    ([VStr "not a message"]
     ++ [greeting; greeting; greeting; greeting; greeting])
  = _create_plan deleting_loads Demo.json_text deleting "delete the Q3 report"
      (VDict []) [greeting; greeting; greeting; greeting; greeting]
  /\ _generate_response Demo.json_text deleting "delete the Q3 report" []
       ([VStr "not a message"]
        ++ [greeting; greeting; greeting; greeting; greeting])
     = _generate_response Demo.json_text deleting "delete the Q3 report" []
         [greeting; greeting; greeting; greeting; greeting].
Proof.
  apply (history_window deleting_loads Demo.json_text deleting
           "delete the Q3 report" (VDict []) [] [VStr "not a message"]
           [greeting; greeting; greeting; greeting; greeting]).
  reflexivity.
Defined.

Lemma response_failure_apologises_witness :
  _generate_response Demo.json_text
    (Demo.orchestrator Demo.failing search_only) "find our Q3 report" [] []
  = Ok (VStr ("I apologize, but I encountered an error processing your request: "
              ++ "Connection error.")).
Proof.
  apply (response_failure_apologises Demo.json_text
           (Demo.orchestrator Demo.failing search_only) "find our Q3 report"
           [] [] (Exn APIError "Connection error.")).
  apply (Spec.response_api_fails _ _ _ _ _ _ [] ""); reflexivity.
Defined.

Lemma fallback_needs_read_witness :
  plan_and_execute deleting_loads Demo.json_text clock Demo.isoformat
    (Demo.orchestrator Demo.failing search_only) "find our Q3 report"
    (VDict []) [] ["write"] []
  = (Ok (VDict [("success", VBool false);
                ("error",
                 VStr "Insufficient permissions for requested action");
                ("required_permissions", VList [VStr "read"])]), []).
Proof.
  apply (fallback_needs_read deleting_loads Demo.json_text clock
           Demo.isoformat (Demo.orchestrator Demo.failing search_only)
           "find our Q3 report" (VDict []) [] ["write"] []).
  - eapply Spec.api_fails; reflexivity.
  - intros [H|[]]. discriminate H.
Defined.

Local Abbreviation sql_down_self := (Demo.orchestrator Demo.failing sql_down).

Local Abbreviation report_plan_after :=
  (VDict [("intent", VStr "analyze");
          ("actions", strs ["search_database"; "query_sql"; "send_email";
                            "analyze_data"]);
          ("parameters",
           VDict [("query_sql", VDict [("table", VStr "sales");
                                       ("context", web_context)])]);
          ("required_permissions", strs ["read"])]).

Local Abbreviation report_results :=
  [("search_database", found);
   ("query_sql", VDict [("error", VStr "connection refused")]);
   ("analyze_data", insights)].

Local Abbreviation report_calls :=
  [Call "search_database" (VDict [("context", web_context)]);
   Call "query_sql" (VDict [("table", VStr "sales");
                            ("context", web_context)]);
   Call "analyze_data" (VDict [("context", web_context)])].

Lemma execute_plan_calls_and_results_witness :
  exists actions,
    Spec.plan_actions report_plan = Ok actions
    /\ report_calls
       = ([] ++ Spec.calls_of sql_down_self web_context report_plan actions)%list
    /\ forall x,
         lookup x report_results
         = if Spec.executed sql_down_self actions x
           then option_map
                  (fun h : handler =>
                     Spec.recorded (h (Spec.params_for web_context report_plan x)))
                  (lookup x sql_down)
           else None.
Proof.
  apply (execute_plan_calls_and_results sql_down_self web_context report_plan
           report_plan_after report_results [] report_calls).
  reflexivity.
Defined.

Lemma execute_plan_twice_witness :
  exists results2 calls,
    _execute_plan sql_down_self report_plan_after web_context report_calls
    = (Ok (report_plan_after, results2), (report_calls ++ calls)%list)
    /\ report_calls = ([] ++ calls)%list
    /\ forall x, lookup x results2 = None <-> lookup x report_results = None.
Proof.
  apply (execute_plan_twice sql_down_self web_context report_plan
           report_plan_after report_results [] report_calls).
  reflexivity.
Defined.

Lemma extract_plan_cuts_commentary_witness :
  extract_plan deleting_loads
    (Some ("Here is the plan: " ++ "{" ++ q "actions" ++ "}"
           ++ " I hope it helps."))
  = deleting_loads ("{" ++ q "actions" ++ "}").
Proof.
  apply (extract_plan_cuts_commentary deleting_loads "Here is the plan: "
           (q "actions") " I hope it helps."); reflexivity.
Defined.


Lemma create_plan_uses_reply_witness :
  _create_plan deleting_loads Demo.json_text deleting "delete the Q3 report"
               (VDict []) []
  = Ok delete_plan.
Proof.
  eapply (create_plan_uses_reply deleting_loads Demo.json_text deleting
            "delete the Q3 report" (VDict []) [] _ delete_reply delete_plan).
  - reflexivity.
  - reflexivity.
  - exists 0%nat, 113%nat. repeat split. lia.
  - reflexivity.
Defined.

End FurtherExamples.

Section FurtherExamplesAuth.
Import Py.
Import Orchestrator.
Import Scenario.
Import Auth.
Import Api.
Import Spec.

Local Abbreviation demo_issue := (create_access_token Demo.SECRET_KEY).
Local Abbreviation demo_validate :=
  (get_current_user Demo.int_literal Demo.sha256 Demo.SECRET_KEY
                    Demo.bcrypt_hash).
Local Abbreviation demo_login :=
  (login_for_access_token Demo.SECRET_KEY Demo.bcrypt_hash Demo.bcrypt_verify).
Local Abbreviation demo_post :=
  (post_query clock Demo.isoformat Demo.str Demo.int_literal Demo.sha256
              Demo.SECRET_KEY Demo.bcrypt_hash).


Local Abbreviation demo_answer :=
  {| access_token := demo_token;
     token_type := "bearer";
     token_user := [("name", "Demo User"); ("email", "demo@example.com");
                    ("role", "admin")] |}.

Lemma login_then_validate_witness :
  exists u,
    fake_users_db Demo.bcrypt_hash !! "demo@example.com" = Some u
    /\ Demo.bcrypt_verify "demo123" (hashed_password u) = Ok true
    /\ token_type demo_answer = "bearer"
    /\ token_user demo_answer
       = [("name", full_name u); ("email", email u); ("role", role u)]
    /\ forall at_time,
         at_time <= clock + 1800 ->
         demo_validate (access_token demo_answer) at_time = Respond u.
Proof.
  apply (login_then_validate Demo.int_literal Demo.sha256 Demo.SECRET_KEY
           Demo.bcrypt_hash Demo.bcrypt_verify
           {| login_email := "demo@example.com";
              login_password := "demo123" |} clock demo_answer).
  vm_compute. reflexivity.
Defined.

(** A wrong password is refused; a password with a zero byte in it makes
    the hashing context raise. *)
Lemma login_refusal_witness :
  demo_login {| login_email := "demo@example.com";
                login_password := "letmein" |} clock
  = Abort {| status_code := 401;
             detail := "Incorrect email or password";
             headers := [("WWW-Authenticate", "Bearer")] |}
  /\ demo_login {| login_email := "demo@example.com";
                   login_password := String "000"%char "demo123" |} clock
     = Uncaught (Exn ValueError "NUL byte in password").
Proof.
  split.
  - apply (proj1 (login_refusal Demo.SECRET_KEY Demo.bcrypt_hash
                    Demo.bcrypt_verify
                    {| login_email := "demo@example.com";
                       login_password := "letmein" |} clock)).
    right. exists demo_user. split; vm_compute; reflexivity.
  - apply (proj2 (login_refusal Demo.SECRET_KEY Demo.bcrypt_hash
                    Demo.bcrypt_verify
                    {| login_email := "demo@example.com";
                       login_password := String "000"%char "demo123" |}
                    clock)
                 demo_user).
    + vm_compute. reflexivity.
    + vm_compute. reflexivity.
Defined.

(** An instant under a key of the caller's own cannot be encoded. *)
Example issue_unencodable_claim :
  demo_issue [("sub", VStr "demo@example.com"); ("since", VDatetime clock)]
             None clock
  = Raise (Exn TypeError "Object of type datetime is not JSON serializable").
Proof. vm_compute. reflexivity. Qed.

Lemma safe_context_encodable_witness :
  json_dumps Demo.json_text
    (safe_context clock Demo.isoformat (user_value demo_user))
  = Ok (Demo.json_text
          (safe_context clock Demo.isoformat (user_value demo_user)))
  /\ exists request,
       plan_request Demo.json_text deleting "find our Q3 report"
         (safe_context clock Demo.isoformat (user_value demo_user)) []
       = Ok request.
Proof.
  apply (safe_context_encodable Demo.json_text clock Demo.isoformat deleting
           "find our Q3 report" (user_value demo_user) [] []).
  reflexivity.
Defined.

Local Abbreviation find_report :=
  {| query := "find our Q3 report"; conversation_history := [] |}.

Lemma query_always_answered_witness :
  exists outcome text log',
    plan_and_execute deleting_loads Demo.json_text clock Demo.isoformat
      deleting "find our Q3 report"
      (safe_context clock Demo.isoformat (user_value demo_user))
      [] admin_permissions []
    = (Ok outcome, log')
    /\ final_text Demo.str outcome = Ok text
    /\ demo_post
         (plan_and_execute deleting_loads Demo.json_text clock Demo.isoformat
                           deleting)
         demo_token find_report []
       = (Ok (Respond (VDict [("content", text);
                              ("response", text);
                              ("role", VStr "assistant");
                              ("timestamp", VStr (Demo.isoformat clock))])),
          log').
Proof.
  apply (query_always_answered deleting_loads Demo.json_text clock
           Demo.isoformat Demo.str Demo.int_literal Demo.sha256
           Demo.SECRET_KEY Demo.bcrypt_hash deleting
           demo_token demo_user find_report []).
  vm_compute. reflexivity.
Defined.

(** A text that is no token is answered with the 401; a token under the
    secret whose expiry is [null] ends the request with the [TypeError]
    of the conversion. *)
Lemma unauthenticated_query_rejected_witness :
  demo_post crashing (Garbage "not.a.token") find_report []
  = (Ok (Abort {| status_code := 401;
                  detail := "Could not validate credentials";
                  headers := [("WWW-Authenticate", "Bearer")] |}), [])
  /\ demo_post crashing null_expiry_token find_report []
     = (Ok (Uncaught
              (Exn TypeError
                 ("int() argument must be a string, a bytes-like object"
                  ++ " or a real number, not 'NoneType'"))), []).
Proof.
  split.
  - apply (unauthenticated_query_rejected clock Demo.isoformat Demo.str
             Demo.int_literal Demo.sha256 Demo.SECRET_KEY Demo.bcrypt_hash
             crashing (Garbage "not.a.token") find_report []).
    intros u H. discriminate H.
  - apply (unauthenticated_query_rejected clock Demo.isoformat Demo.str
             Demo.int_literal Demo.sha256 Demo.SECRET_KEY Demo.bcrypt_hash
             crashing null_expiry_token find_report []).
    intros u H. vm_compute in H. discriminate H.
Defined.

End FurtherExamplesAuth.

Section FurtherExamplesStore.
Import Py.
Import Scenario.
Import Session.

Local Abbreviation sid := "session:u1:1700000000.0".

Lemma session_round_trip_witness :
  exists session_id db',
    create_session Demo.isoformat "u1" profile 1700000000 ∅
    = (Ok session_id, db')
    /\ (forall later,
          later < 1700000000 + 3600 ->
          fst (get_session session_id later db')
          = Some (VDict [("user_profile", UserProfile_dict profile);
                         ("conversation_history", VList []);
                         ("context", VDict []);
                         ("created_at", VStr (Demo.isoformat 1700000000));
                         ("last_activity",
                          VStr (Demo.isoformat 1700000000))]))
    /\ (forall later,
          1700000000 + 3600 <= later ->
          get_session session_id later db' = (None, db')).
Proof.
  apply (session_round_trip Demo.isoformat "u1" profile 1700000000 ∅).
  reflexivity.
Defined.

(** Read fifty minutes after it was written, the session lives for
    another hour. *)
Lemma get_session_refreshes_witness :
  (forall t2, t2 < 1700003003 + 3600 ->
              fst (get_session sid t2
                     (<[sid := Entry three_document (1700003003 + 3600)]>
                        three_messages))
              = Some three_document)
  /\ (forall t2, 1700003003 + 3600 <= t2 ->
                 get_session sid t2
                   (<[sid := Entry three_document (1700003003 + 3600)]>
                      three_messages)
                 = (None,
                    <[sid := Entry three_document (1700003003 + 3600)]>
                      three_messages)).
Proof.
  apply (get_session_refreshes sid 1700003003 three_messages
           (<[sid := Entry three_document (1700003003 + 3600)]> three_messages)
           three_document).
  vm_compute. reflexivity.
Defined.

Lemma missing_session_noop_witness :
  get_session sid 1700000000 ∅ = (None, ∅)
  /\ update_conversation Demo.isoformat sid hello 1700000000 ∅ = (Ok tt, ∅)
  /\ get_conversation_history fromisoformat sid 10 1700000000 ∅ = (Ok [], ∅)
  /\ update_context Demo.isoformat sid "topic" (VStr "sales") 1700000000 ∅
     = (Ok tt, ∅)
  /\ get_context sid 1700000000 ∅ = (Ok (VDict []), ∅).
Proof.
  apply (missing_session_noop Demo.isoformat fromisoformat sid 1700000000 ∅
           hello 10 "topic" (VStr "sales")).
  reflexivity.
Defined.

Local Abbreviation three_fields :=
  [("user_profile", UserProfile_dict profile);
   ("conversation_history",
    VList [stored "user" "one" 1700000001;
           stored "assistant" "two" 1700000002;
           stored "user" "three" 1700000003]);
   ("context", VDict []);
   ("created_at", VStr "1700000000");
   ("last_activity", VStr "1700000003")].

Local Abbreviation three_stored :=
  [stored "user" "one" 1700000001;
   stored "assistant" "two" 1700000002;
   stored "user" "three" 1700000003].

(** The last two of three stored messages. *)
Lemma history_tail_witness :
  fst (get_conversation_history fromisoformat sid 2 1700000010 three_messages)
  = for_each (Message_of fromisoformat)
      (drop (length three_stored
             - Z.to_nat (Z.min (Z.of_nat (length three_stored)) 2))
            three_stored)
  /\ forall returned,
       fst (get_conversation_history fromisoformat sid 2 1700000010
                                     three_messages)
       = Ok returned ->
       Z.of_nat (length returned) = Z.min (Z.of_nat (length three_stored)) 2.
Proof.
  apply (history_tail fromisoformat sid 2 1700000010 three_messages
           three_fields three_stored).
  - vm_compute. reflexivity.
  - reflexivity.
  - lia.
Defined.

Example last_two_messages :
  fst (get_conversation_history fromisoformat sid 2 1700000010 three_messages)
  = Ok [ {| role := "assistant"; content := "two"; timestamp := 1700000002;
            metadata := Some [] |};
         {| role := "user"; content := "three"; timestamp := 1700000003;
            metadata := Some [] |} ].
Proof. vm_compute. reflexivity. Qed.

Lemma update_context_round_trip_witness :
  exists db',
    update_context Demo.isoformat sid "topic" (VStr "sales") 1700000010
                   three_messages
    = (Ok tt, db')
    /\ forall later,
         later < 1700000010 + 3600 ->
         fst (get_context sid later db')
         = Ok (VDict (assign "topic" (VStr "sales") []))
         /\ lookup "topic" (assign "topic" (VStr "sales") [])
            = Some (VStr "sales")
         /\ forall k, k <> "topic" ->
              lookup k (assign "topic" (VStr "sales") []) = lookup k [].
Proof.
  apply (update_context_round_trip Demo.isoformat sid "topic" (VStr "sales")
           1700000010 three_messages three_fields []).
  - vm_compute. reflexivity.
  - reflexivity.
  - reflexivity.
  - reflexivity.
Defined.

End FurtherExamplesStore.
